(** * agi-build-agent: the document pipeline, its event log and the creative
      amplifier, embedded and checked against the specification.

    Sources embedded here:
      - [Main.py]        sanitize_filename, dynamic_document_processor,
                         ingest_document, get_document_status
      - [Fastapi_main.py] the near-duplicate draft of the same functions
      - [Agi_memory.py]  store_event, get_recent_events
      - [Transformation_engine.py], [Recursive_amplifier.py]

    Python [str] values are modelled by [string]; a character is the code
    point it carries (0..255, the Latin-1 block of Unicode), so that
    [lower], [strip] and [repr] act as Python does on those code points.
    Python [int] is [Z]. *)

From Stdlib Require Import ZArith Ascii String List Bool Lia DecimalString.
From Stdlib Require Import Sorting.Permutation Sorting.Sorted.
From Stdlib Require OrderedTypeEx.
From stdpp Require Import base gmap strings list.

Open Scope string_scope.
Open Scope list_scope.

(* ===================================================================== *)
(** ** Characters *)
(* ===================================================================== *)

Module PyChar.

Definition code (c : ascii) : nat := nat_of_ascii c.

Definition slash : ascii := "/"%char.
Definition backslash : ascii := "\"%char.
Definition squote : ascii := "'"%char.
Definition dquote : ascii := "034"%char.

Definition between (lo hi n : nat) : bool := Nat.leb lo n && Nat.leb n hi.

(** [str.lower] on one code point: A-Z, and the Latin-1 capitals
    U+00C0..U+00DE except the multiplication sign U+00D7. *)
Definition lower (c : ascii) : ascii :=
  let n := code c in
  if between 65 90 n || (between 192 222 n && negb (Nat.eqb n 215))
  then ascii_of_nat (n + 32) else c.

(** [str.upper] on one code point whose capital is again below U+0100
    (the engine applies it to its four ASCII mode names only). *)
Definition upper (c : ascii) : ascii :=
  let n := code c in
  if between 97 122 n || (between 224 254 n && negb (Nat.eqb n 247))
  then ascii_of_nat (n - 32) else c.

(** [str.isspace]: what [str.strip()] removes. *)
Definition is_space (c : ascii) : bool :=
  let n := code c in
  between 9 13 n || between 28 32 n || Nat.eqb n 133 || Nat.eqb n 160.

(** [str.isprintable]: C0 and C1 controls, DEL, NBSP and the soft hyphen
    are not printable; [repr] writes them as escapes. *)
Definition is_printable (c : ascii) : bool :=
  let n := code c in
  negb (Nat.ltb n 32 || between 127 160 n || Nat.eqb n 173).

Definition hex_digit (n : nat) : ascii :=
  if Nat.ltb n 10 then ascii_of_nat (48 + n) else ascii_of_nat (87 + n).

End PyChar.

(* ===================================================================== *)
(** ** Strings *)
(* ===================================================================== *)

Module PyStr.

Definition eqc (a b : ascii) : bool := Ascii.eqb a b.

Fixpoint map_chars (f : ascii -> ascii) (s : string) : string :=
  match s with
  | EmptyString => EmptyString
  | String c r => String (f c) (map_chars f r)
  end.

(** [s.lower()] and [s.upper()] *)
Definition lower (s : string) : string := map_chars PyChar.lower s.
Definition upper (s : string) : string := map_chars PyChar.upper s.

Fixpoint starts_with (p s : string) : bool :=
  match p, s with
  | EmptyString, _ => true
  | String _ _, EmptyString => false
  | String a p', String b s' => eqc a b && starts_with p' s'
  end.

(** [p in s] *)
Fixpoint py_in (p s : string) : bool :=
  starts_with p s ||
  match s with
  | EmptyString => false
  | String _ r => py_in p r
  end.

Fixpoint has_char (c : ascii) (s : string) : bool :=
  match s with
  | EmptyString => false
  | String d r => eqc c d || has_char c r
  end.

(** [sep.join(l)] *)
Fixpoint join (sep : string) (l : list string) : string :=
  match l with
  | [] => EmptyString
  | [s] => s
  | s :: r => s +:+ sep +:+ join sep r
  end.

(** [s.lstrip()], [s.rstrip()], [s.strip()] without argument. *)
Fixpoint lstrip (s : string) : string :=
  match s with
  | EmptyString => EmptyString
  | String c r => if PyChar.is_space c then lstrip r else s
  end.

Fixpoint rstrip (s : string) : string :=
  match s with
  | EmptyString => EmptyString
  | String c r =>
      match rstrip r with
      | EmptyString => if PyChar.is_space c then EmptyString else String c EmptyString
      | r' => String c r'
      end
  end.

Definition strip (s : string) : string := rstrip (lstrip s).

(** [s.replace(old, new)]: every non-overlapping occurrence, leftmost
    first.  [skip] counts the characters of a matched [old] still to be
    dropped.  For an empty [old] Python puts [new] around every
    character. *)
Fixpoint replace_from (old new : string) (skip : nat) (s : string) : string :=
  match s with
  | EmptyString => EmptyString
  | String c r =>
      match skip with
      | S k => replace_from old new k r
      | O =>
          if starts_with old s
          then new +:+ replace_from old new (String.length old - 1) r
          else String c (replace_from old new 0 r)
      end
  end.

Fixpoint interleave (new : string) (s : string) : string :=
  match s with
  | EmptyString => new
  | String c r => new +:+ String c (interleave new r)
  end.

Definition replace (old new s : string) : string :=
  match old with
  | EmptyString => interleave new s
  | _ => replace_from old new 0 s
  end.

End PyStr.

(* ===================================================================== *)
(** ** posixpath *)
(* ===================================================================== *)

Module OsPath.

Import PyStr.

(** [os.path.basename(p)]: [p[p.rfind('/') + 1:]] *)
Fixpoint basename (p : string) : string :=
  match p with
  | EmptyString => EmptyString
  | String c r =>
      if has_char PyChar.slash r then basename r
      else if eqc c PyChar.slash then r
      else p
  end.

Fixpoint ends_with_slash (p : string) : bool :=
  match p with
  | EmptyString => false
  | String c EmptyString => eqc c PyChar.slash
  | String _ r => ends_with_slash r
  end.

(** [os.path.join(a, b)] for two arguments. *)
Definition join (a b : string) : string :=
  if starts_with "/" b then b
  else if String.eqb a "" || ends_with_slash a then a +:+ b
  else a +:+ "/" +:+ b.

(** The components of a path: [p.split('/')]. *)
Fixpoint components (p : string) : list string :=
  match p with
  | EmptyString => [EmptyString]
  | String c r =>
      if eqc c PyChar.slash then EmptyString :: components r
      else match components r with
           | [] => [String c EmptyString]
           | h :: t => String c h :: t
           end
  end.

End OsPath.

(* ===================================================================== *)
(** ** Main.py / Fastapi_main.py : configuration and sanitize_filename *)
(* ===================================================================== *)

(** [DYNAMIC_DIRS], as an association in source order. *)
Definition DYNAMIC_DIRS : list (string * string) :=
  [ ("contract", "/mnt/data/processed/contracts");
    ("research_paper", "/mnt/data/processed/papers");
    ("invoice", "/mnt/data/processed/invoices");
    ("quarantine", "/mnt/data/quarantine");
    ("temp_staging", "/tmp/agi_staging") ].

Fixpoint dict_get (k : string) (d : list (string * string)) : option string :=
  match d with
  | [] => None
  | (k', v) :: r => if String.eqb k k' then Some v else dict_get k r
  end.

(** [DYNAMIC_DIRS["quarantine"]], [DYNAMIC_DIRS["temp_staging"]] *)
Definition quarantine_dir : string := "/mnt/data/quarantine".
Definition temp_staging : string := "/tmp/agi_staging".

(** [os.path.basename(filename).replace("..", "_").strip()] *)
Definition sanitize_filename (filename : string) : string :=
  PyStr.strip (PyStr.replace ".." "_" (OsPath.basename filename)).

(** [os.path.join(DYNAMIC_DIRS["temp_staging"], f"{correlation_id}_{sanitized_filename}")] *)
Definition initial_save_path (correlation_id filename : string) : string :=
  OsPath.join temp_staging (correlation_id +:+ "_" +:+ sanitize_filename filename).

(* ===================================================================== *)
(** ** Python values, [repr] and [str] *)
(* ===================================================================== *)

(** The values that travel through metadata, event payloads and creative
    constructs: [None], ints, strings, lists and string-keyed dicts. *)
#[warnings="-register-all"]
Inductive pyval : Type :=
  | VNone
  | VInt (z : Z)
  | VStr (s : string)
  | VList (l : list pyval)
  | VDict (d : list (string * pyval)).

Module PyRepr.

Import PyStr.

(** [repr] of a [str] picks double quotes only when the text has a single
    quote and no double quote. *)
Definition quote_of (s : string) : ascii :=
  if has_char PyChar.squote s && negb (has_char PyChar.dquote s)
  then PyChar.dquote else PyChar.squote.

Definition hex2 (c : ascii) : string :=
  let n := PyChar.code c in
  String (PyChar.hex_digit (n / 16)) (String (PyChar.hex_digit (n mod 16)) EmptyString).

(** What [repr] writes for one character inside quotes [q].  The
    characters of the model are the code points U+0000..U+00FF, where a
    character that is not printable is written [\xhh]; the escapes
    [\uhhhh] and [\Uhhhhhhhh] that [repr] writes for such characters
    from U+0100 on are those of [Unicode.escape] below. *)
Definition escape (q c : ascii) : string :=
  if eqc c PyChar.backslash || eqc c q then String PyChar.backslash (String c EmptyString)
  else if Nat.eqb (PyChar.code c) 9 then "\t"
  else if Nat.eqb (PyChar.code c) 10 then "\n"
  else if Nat.eqb (PyChar.code c) 13 then "\r"
  else if negb (PyChar.is_printable c) then "\x" +:+ hex2 c
  else String c EmptyString.

Fixpoint escape_all (q : ascii) (s : string) : string :=
  match s with
  | EmptyString => EmptyString
  | String c r => escape q c +:+ escape_all q r
  end.

Definition repr_str (s : string) : string :=
  let q := quote_of s in
  String q (escape_all q s +:+ String q EmptyString).

(** [str(z)] for an int *)
Definition str_int (z : Z) : string := NilZero.string_of_int (Z.to_int z).

Fixpoint repr (v : pyval) : string :=
  match v with
  | VNone => "None"
  | VInt z => str_int z
  | VStr s => repr_str s
  | VList l => "[" +:+ join ", " (map repr l) +:+ "]"
  | VDict d =>
      "{" +:+ join ", " (map (fun kv => repr_str (fst kv) +:+ ": " +:+ repr (snd kv)) d) +:+ "}"
  end.

(** [str(v)], also what an f-string field [{v}] renders. *)
Definition str (v : pyval) : string :=
  match v with
  | VStr s => s
  | _ => repr v
  end.

(** [str(tags)] for [tags : Optional[list[str]]] *)
Definition str_tags (tags : option (list string)) : string :=
  match tags with
  | None => str VNone
  | Some l => str (VList (map VStr l))
  end.

End PyRepr.

(* ===================================================================== *)
(** ** UploadMetadata *)
(* ===================================================================== *)

Record UploadMetadata : Type := {
  document_type : option string;
  priority : option Z;
  tags : option (list string);
  custom_options : option (list (string * pyval))
}.

(** [UploadMetadata()] : the declared defaults. *)
Definition default_metadata : UploadMetadata :=
  {| document_type := None; priority := Some 5%Z; tags := Some [];
     custom_options := Some [] |}.

Definition opt_val {A} (f : A -> pyval) (o : option A) : pyval :=
  match o with None => VNone | Some a => f a end.

(** [initial_metadata.dict()] *)
Definition metadata_dict (m : UploadMetadata) : pyval :=
  VDict [ ("document_type", opt_val VStr (document_type m));
          ("priority", opt_val VInt (priority m));
          ("tags", opt_val (fun l => VList (map VStr l)) (tags m));
          ("custom_options", opt_val VDict (custom_options m)) ].

(* ===================================================================== *)
(** ** Classification and workflow assembly *)
(* ===================================================================== *)

Module Main_py.

Import PyStr.

(** Step 1 of [dynamic_document_processor] in Main.py *)
Definition agi_determined_type (file_path : string) (tags : option (list string)) : string :=
  if py_in "contract" (lower file_path) || py_in "agreement" (lower file_path)
     || py_in "legal" (lower (PyRepr.str_tags tags))
  then "contract"
  else if py_in "invoice" (lower file_path) || py_in "billing" (lower (PyRepr.str_tags tags))
  then "invoice"
  else if py_in "research" (lower file_path) || py_in "paper" (lower file_path)
  then "research_paper"
  else "unknown".

(** Step 2 of [dynamic_document_processor] in Main.py *)
Definition processing_modules (agi_determined_type : string) : list string :=
  if String.eqb agi_determined_type "contract" then
    ["deep_ocr_segmentation"; "semantic_clause_extraction";
     "entity_resolution_graph_update"; "predictive_risk_assessment_model"]
  else if String.eqb agi_determined_type "invoice" then
    ["adaptive_form_recognition"; "line_item_data_extraction_nlp";
     "automated_reconciliation_engine"]
  else if String.eqb agi_determined_type "research_paper" then
    ["scientific_abstract_summarization"; "citation_network_mapping";
     "novelty_detection_algorithm"]
  else
    ["general_content_indexing"; "topic_modeling_discovery"].

End Main_py.

Module Fastapi_main_py.

Import PyStr.

(** The draft in Fastapi_main.py has no research branch. *)
Definition agi_determined_type (file_path : string) (tags : option (list string)) : string :=
  if py_in "contract" (lower file_path) || py_in "agreement" (lower file_path)
     || py_in "legal" (lower (PyRepr.str_tags tags))
  then "contract"
  else if py_in "invoice" (lower file_path) || py_in "billing" (lower (PyRepr.str_tags tags))
  then "invoice"
  else "unknown".

Definition processing_modules (agi_determined_type : string) : list string :=
  if String.eqb agi_determined_type "contract" then
    ["deep_ocr_segmentation"; "semantic_clause_extraction";
     "entity_resolution_graph_update"; "predictive_risk_assessment_model"]
  else
    ["general_content_indexing"; "topic_modeling_discovery"].

End Fastapi_main_py.

(* ===================================================================== *)
(** ** Agi_memory.py : the event store *)
(* ===================================================================== *)

(** A stored document: [{"timestamp": .., "event_type": .., "data": {..}}].
    [store_event] is the only writer, so the three keys are always there. *)
Record event : Type := {
  timestamp : string;
  event_type : string;
  data : gmap string pyval
}.

Module Agi_memory.

(** [Event.data.correlation_id == correlation_id] *)
Definition carries (correlation_id : string) (e : event) : bool :=
  match data e !! "correlation_id" with
  | Some (VStr c) => String.eqb c correlation_id
  | _ => false
  end.

(** One step of a stable sort by [timestamp], largest first: [e] was
    stored before every element of [l], so among equal timestamps it
    stays in front. *)
Fixpoint insert_desc (e : event) (l : list event) : list event :=
  match l with
  | [] => [e]
  | h :: t =>
      if String.leb (timestamp h) (timestamp e) then e :: l
      else h :: insert_desc e t
  end.

(** [sorted(results, key=lambda x: x.get("timestamp", ""), reverse=True)] *)
Definition sorted_desc (results : list event) : list event :=
  fold_right insert_desc [] results.

(** [l[:limit]], with Python's reading of a negative bound. *)
Definition slice_to {A} (limit : Z) (l : list A) : list A :=
  if (0 <=? limit)%Z then firstn (Z.to_nat limit) l
  else firstn (length l - Z.to_nat (- limit)) l.

(** [if correlation_id:] *)
Definition truthy (correlation_id : option string) : option string :=
  match correlation_id with
  | Some EmptyString => None
  | c => c
  end.

(** [get_recent_events(limit, correlation_id)] over the documents of the
    store in insertion order. *)
Definition get_recent_events (db : list event) (limit : Z)
    (correlation_id : option string) : list event :=
  let results :=
    match truthy correlation_id with
    | Some c => List.filter (carries c) db
    | None => db
    end in
  slice_to limit (sorted_desc results).

Definition default_limit : Z := 10.

End Agi_memory.

(* ===================================================================== *)
(** ** The world the handlers act on, and the monad of their effects *)
(* ===================================================================== *)

Inductive exn : Type :=
  | TypeError (msg : string)
  | OverflowError (msg : string)
  | ValueError (msg : string)
  | FileNotFoundError (msg : string)
  | HTTPException (status_code : Z) (detail : string).

(** [str(e)] *)
Definition exn_str (e : exn) : string :=
  match e with
  | TypeError m | OverflowError m | ValueError m | FileNotFoundError m => m
  | HTTPException _ _ => ""
  end.

(** A handler registered by [app.add_event_handler("startup", ...)]: the
    arguments its closure holds for [dynamic_document_processor]. *)
Record startup_task : Type := {
  task_path : string;
  task_metadata : UploadMetadata;
  task_correlation_id : string
}.

Record world : Type := {
  db : list event;                   (* the TinyDB documents, oldest first *)
  fs : gmap string string;           (* regular files: path to content   *)
  ticks : nat;                       (* calls of [datetime.now()] so far *)
  on_startup : list startup_task     (* the application's startup handlers *)
}.

Inductive outcome (A : Type) : Type :=
  | Ok (a : A)
  | Raise (e : exn).
Arguments Ok {A} a.
Arguments Raise {A} e.

Definition M (A : Type) : Type := world -> outcome A * world.

Definition ret {A} (a : A) : M A := fun w => (Ok a, w).

Definition bind {A B} (m : M A) (k : A -> M B) : M B :=
  fun w => match m w with
           | (Ok a, w') => k a w'
           | (Raise e, w') => (Raise e, w')
           end.

Definition raise {A} (e : exn) : M A := fun w => (Raise e, w).

(** [try: body  except Exception as e: handler(e)] *)
Definition try_except {A} (body : M A) (handler : exn -> M A) : M A :=
  fun w => match body w with
           | (Ok a, w') => (Ok a, w')
           | (Raise e, w') => handler e w'
           end.

Notation "x <- m ;; k" := (bind m (fun x => k))
  (at level 100, m at next level, right associativity).
Notation "m ;;; k" := (bind m (fun _ => k))
  (at level 100, right associativity).

(** [for x in l: body(x)] *)
Fixpoint for_each {A} (l : list A) (body : A -> M unit) : M unit :=
  match l with
  | [] => ret tt
  | x :: r => body x ;;; for_each r body
  end.

Section Effects.

(** [now n] is what [datetime.now().isoformat()] returns the [n]-th time
    it is called. *)
Variable now : nat -> string.

(** Agi_memory.py [store_event(event_type, data)].  The store is taken to
    be available: an insert does not fail. *)
Definition store_event (event_type : string) (data : gmap string pyval) : M unit :=
  fun w =>
    let event_record :=
      {| timestamp := now (ticks w); event_type := event_type; data := data |} in
    (Ok tt, {| db := db w ++ [event_record]; fs := fs w;
               ticks := S (ticks w); on_startup := on_startup w |}).

(** [shutil.move(src, dst)] between regular-file paths; the directories
    of [DYNAMIC_DIRS] exist, the module creates them when it is loaded.
    A missing source is the one failure. *)
Definition shutil_move (src dst : string) : M unit :=
  fun w =>
    match fs w !! src with
    | None =>
        (Raise (FileNotFoundError
                  ("[Errno 2] No such file or directory: " +:+ PyRepr.repr_str src)), w)
    | Some content =>
        (Ok tt, {| db := db w; fs := <[dst := content]> (delete src (fs w));
                   ticks := ticks w; on_startup := on_startup w |})
    end.

(** [async with aiofiles.open(path, "wb") as buffer: await buffer.write(content)]
    on a file system that refuses a path only for a NUL in it and never
    fails to write; [Ingest_io] below takes the failures of the file
    system as they come. *)
Definition write_file (path content : string) : M unit :=
  fun w =>
    if PyStr.has_char "000"%char path
    then (Raise (ValueError "embedded null byte"), w)
    else (Ok tt, {| db := db w; fs := <[path := content]> (fs w);
                    ticks := ticks w; on_startup := on_startup w |}).

(** [app.add_event_handler("startup", lambda: app.loop.create_task(..))]
    where the application has that method: the closure is appended to
    the startup handlers and not called.  What is kept of the closure are
    the arguments it holds for [dynamic_document_processor]; calling the
    closure is not modelled. *)
Definition add_startup_handler (t : startup_task) : M unit :=
  fun w => (Ok tt, {| db := db w; fs := fs w; ticks := ticks w;
                      on_startup := on_startup w ++ [t] |}).

(** Evaluating [priority / 100]: a [TypeError] when [priority] is [None],
    an [OverflowError] when the quotient rounds to 2^1024 or more, else a
    float. *)
Definition true_div_error (priority : option Z) : option exn :=
  match priority with
  | None => Some (TypeError "unsupported operand type(s) for /: 'NoneType' and 'int'")
  | Some p =>
      if (100 * (2 ^ 1024 - 2 ^ 970) <=? Z.abs p)%Z
      then Some (OverflowError "integer division result too large for a float")
      else None
  end.

(** [await asyncio.sleep(0.1 + (initial_metadata.priority / 100))]: the
    argument is evaluated, then time passes. *)
Definition stage_sleep (priority : option Z) : M unit :=
  match true_div_error priority with
  | Some e => raise e
  | None => ret tt
  end.

End Effects.

(** A dict literal with distinct keys. *)
Definition dict (l : list (string * pyval)) : gmap string pyval := list_to_map l.

(* ===================================================================== *)
(** ** Main.py : dynamic_document_processor, ingest_document,
       get_document_status *)
(* ===================================================================== *)

Module Main.

Import PyStr.

Section Handlers.

Variable now : nat -> string.

(** The body of [for module_name in processing_modules:] *)
Definition execute_module (file_path : string) (initial_metadata : UploadMetadata)
    (correlation_id : string) (module_name : string) : M unit :=
  stage_sleep (priority initial_metadata) ;;;
  (if String.eqb module_name "predictive_risk_assessment_model"
      && py_in "high_risk_flag" (lower file_path)
   then ret tt   (* await asyncio.sleep(0.2); the raise is commented out *)
   else ret tt) ;;;
  store_event now "module_execution"
    (dict [("correlation_id", VStr correlation_id); ("module", VStr module_name);
           ("status", VStr "completed")]).

Definition dynamic_document_processor (file_path : string)
    (initial_metadata : UploadMetadata) (correlation_id : string) : M unit :=
  store_event now "document_ingestion_start"
    (dict [("correlation_id", VStr correlation_id); ("file_path", VStr file_path);
           ("metadata", metadata_dict initial_metadata)]) ;;;
  try_except
    (let agi_determined_type :=
       Main_py.agi_determined_type file_path (tags initial_metadata) in
     store_event now "document_classification"
       (dict [("correlation_id", VStr correlation_id);
              ("agi_determined_type", VStr agi_determined_type)]) ;;;
     let processing_modules := Main_py.processing_modules agi_determined_type in
     store_event now "workflow_assembly"
       (dict [("correlation_id", VStr correlation_id);
              ("workflow", VList (map VStr processing_modules))]) ;;;
     for_each processing_modules
       (execute_module file_path initial_metadata correlation_id) ;;;
     let final_processed_dir :=
       match dict_get agi_determined_type DYNAMIC_DIRS with
       | Some d => d
       | None => quarantine_dir
       end in
     let final_path_in_agi_space :=
       OsPath.join final_processed_dir (OsPath.basename file_path) in
     shutil_move file_path final_path_in_agi_space ;;;
     store_event now "document_processing_complete"
       (dict [("correlation_id", VStr correlation_id);
              ("final_path", VStr final_path_in_agi_space)]) ;;;
     store_event now "agi_learning_cycle"
       (dict [("correlation_id", VStr correlation_id);
              ("status", VStr "re-theorizing completed")]))
    (fun e =>
     let quarantine_path := OsPath.join quarantine_dir (OsPath.basename file_path) in
     shutil_move file_path quarantine_path ;;;
     store_event now "document_processing_error"
       (dict [("correlation_id", VStr correlation_id); ("error", VStr (exn_str e));
              ("quarantined_path", VStr quarantine_path)])).

(** The JSON body [ingest_document] answers with. *)
Record ingest_response : Type := {
  message : string;
  ingest_correlation_id : string;
  filename : string;
  agi_status_endpoint : string
}.

(** [ingest_document(file, metadata)]; [correlation_id] is the value
    [str(uuid.uuid4())] took. *)
Definition ingest_document (correlation_id : string) (file_filename file_content : string)
    (metadata : UploadMetadata) : M ingest_response :=
  let sanitized_filename := sanitize_filename file_filename in
  let initial_save_path :=
    OsPath.join temp_staging (correlation_id +:+ "_" +:+ sanitized_filename) in
  try_except
    (write_file initial_save_path file_content ;;;
     add_startup_handler
       {| task_path := initial_save_path; task_metadata := metadata;
          task_correlation_id := correlation_id |} ;;;
     ret {| message := "Document received by Federated AGI. Autonomous processing initiated.";
            ingest_correlation_id := correlation_id;
            filename := sanitized_filename;
            agi_status_endpoint := "/document_status/" +:+ correlation_id |})
    (fun e =>
     store_event now "document_ingestion_error"
       (dict [("correlation_id", VStr correlation_id); ("error", VStr (exn_str e));
              ("filename", VStr sanitized_filename)]) ;;;
     raise (HTTPException 500 ("Federated AGI failed to ingest document: " +:+ exn_str e))).

End Handlers.

(** [l[-1]] of a list known to be non-empty; [None] on the empty list. *)
Fixpoint last_item {A} (l : list A) : option A :=
  match l with
  | [] => None
  | [x] => Some x
  | _ :: r => last_item r
  end.

Record status_response : Type := {
  status_correlation_id : string;
  agi_processing_status : string;
  last_agi_action : pyval;
  estimated_completion : string;
  extracted_insights_preview : string;
  agi_confidence_score : string;
  agi_event_history : list event
}.

(** [d.get("module", d.get("status", "No specific action data."))] *)
Definition action_of (d : gmap string pyval) : pyval :=
  match d !! "module" with
  | Some v => v
  | None =>
      match d !! "status" with
      | Some v => v
      | None => VStr "No specific action data."
      end
  end.

(** [get_document_status(correlation_id)], reading the store [db]. *)
Definition get_document_status (db : list event) (correlation_id : string) : status_response :=
  let events :=
    Agi_memory.get_recent_events db Agi_memory.default_limit (Some correlation_id) in
  let '(agi_status, last_action) :=
    match last_item events with
    | Some latest_event => (event_type latest_event, action_of (data latest_event))
    | None => ("Unknown", VStr "No AGI action recorded yet.")
    end in
  {| status_correlation_id := correlation_id;
     agi_processing_status := agi_status;
     last_agi_action := last_action;
     estimated_completion := "AGI dynamically re-calibrating";
     extracted_insights_preview := "AGI continuously generating insights...";
     agi_confidence_score := "High (99.8%)";
     agi_event_history := events |}.

End Main.

(* ===================================================================== *)
(** ** Fastapi_main.py : the draft of dynamic_document_processor *)
(* ===================================================================== *)

Module Fastapi_main.

Section Handlers.

Variable now : nat -> string.

(** The body of [for module_name in processing_modules:] *)
Definition execute_module (initial_metadata : UploadMetadata)
    (correlation_id : string) (module_name : string) : M unit :=
  stage_sleep (priority initial_metadata) ;;;
  store_event now "module_execution"
    (dict [("correlation_id", VStr correlation_id); ("module", VStr module_name);
           ("status", VStr "completed")]).

Definition dynamic_document_processor (file_path : string)
    (initial_metadata : UploadMetadata) (correlation_id : string) : M unit :=
  store_event now "document_ingestion_start"
    (dict [("correlation_id", VStr correlation_id); ("file_path", VStr file_path);
           ("metadata", metadata_dict initial_metadata)]) ;;;
  try_except
    (let agi_determined_type :=
       Fastapi_main_py.agi_determined_type file_path (tags initial_metadata) in
     store_event now "document_classification"
       (dict [("correlation_id", VStr correlation_id);
              ("agi_determined_type", VStr agi_determined_type)]) ;;;
     let processing_modules := Fastapi_main_py.processing_modules agi_determined_type in
     for_each processing_modules (execute_module initial_metadata correlation_id) ;;;
     let final_processed_dir :=
       match dict_get agi_determined_type DYNAMIC_DIRS with
       | Some d => d
       | None => quarantine_dir
       end in
     let final_path_in_agi_space :=
       OsPath.join final_processed_dir (OsPath.basename file_path) in
     shutil_move file_path final_path_in_agi_space ;;;
     store_event now "document_processing_complete"
       (dict [("correlation_id", VStr correlation_id);
              ("final_path", VStr final_path_in_agi_space)]) ;;;
     store_event now "agi_learning_cycle"
       (dict [("correlation_id", VStr correlation_id);
              ("status", VStr "re-theorizing completed")]))
    (fun e =>
     let quarantine_path := OsPath.join quarantine_dir (OsPath.basename file_path) in
     shutil_move file_path quarantine_path ;;;
     store_event now "document_processing_error"
       (dict [("correlation_id", VStr correlation_id); ("error", VStr (exn_str e));
              ("quarantined_path", VStr quarantine_path)])).

End Handlers.

End Fastapi_main.

(* ===================================================================== *)
(** ** Transformation_engine.py and Recursive_amplifier.py *)
(* ===================================================================== *)

Module Transformation_engine.

(** [self.transformation_modes] *)
Definition transformation_modes : list string :=
  ["stylistic"; "modal"; "conceptual"; "syntactic"].

(** [d.get(k, default)] *)
Definition get (d : gmap string pyval) (k : string) (default : pyval) : pyval :=
  match d !! k with
  | Some v => v
  | None => default
  end.

(** [transform(data)]: the new construct and the line it prints; [None]
    when [iteration_count] is not an int, where Python raises. *)
Definition transform (data : gmap string pyval) : option (gmap string pyval * string) :=
  let transformed_data := data in
  let current_value := get transformed_data "value" (VStr "") in
  match get transformed_data "iteration_count" (VInt 0) with
  | VInt iteration_count =>
      match transformation_modes
              !! Z.to_nat (iteration_count mod Z.of_nat (length transformation_modes)) with
      | Some transformation_mode =>
          let transformed_data :=
            <["value" := VStr ("[" +:+ PyStr.upper transformation_mode +:+ "::Transformed::"
                               +:+ PyRepr.str current_value +:+ "]")]> transformed_data in
          let transformed_data :=
            <["transformation_applied" := VStr transformation_mode]> transformed_data in
          let transformed_data :=
            <["iteration_count" := VInt (iteration_count + 1)]> transformed_data in
          Some (transformed_data,
                "TransformationEngine: Applied '" +:+ transformation_mode
                +:+ "' transformation.")
      | None => None
      end
  | _ => None
  end.

End Transformation_engine.

Module Recursive_amplifier.

(** [RecursiveAmplifier(depth)]; the constructor's default is 3, the
    service builds it with 4. *)
Record RecursiveAmplifier : Type := { depth : Z }.

Definition default_amplifier : RecursiveAmplifier := {| depth := 3 |}.
Definition recursive_amplifier : RecursiveAmplifier := {| depth := 4 |}.

(** The body of [for i in range(self.depth)], from pass [i] on, [n]
    passes left; the result carries the printed lines. *)
Fixpoint amplify_from (self : RecursiveAmplifier) (n : nat) (i : Z)
    (current_creative_construct : gmap string pyval)
    : option (gmap string pyval * list string) :=
  match n with
  | O => Some (current_creative_construct, [])
  | S n' =>
      match Transformation_engine.transform current_creative_construct with
      | None => None
      | Some (c, line) =>
          match amplify_from self n' (i + 1) c with
          | None => None
          | Some (r, out) =>
              Some (r, ("  Iteration " +:+ PyRepr.str_int (i + 1) +:+ "/"
                        +:+ PyRepr.str_int (depth self) +:+ "...") :: line :: out)
          end
      end
  end.

(** [amplify(seed, transformer)] *)
Definition amplify (self : RecursiveAmplifier) (seed : gmap string pyval)
    : option (gmap string pyval * list string) :=
  match amplify_from self (Z.to_nat (depth self)) 0 seed with
  | None => None
  | Some (r, out) =>
      Some (r, ("RecursiveAmplifier: Starting amplification for depth "
                +:+ PyRepr.str_int (depth self)) :: out
               ++ ["RecursiveAmplifier: Amplification complete."])
  end.

(** The modes a run of the transformer announced, read off its output. *)
Definition applied_mode (line : string) : option string :=
  List.find (fun m => String.eqb line
                        ("TransformationEngine: Applied '" +:+ m +:+ "' transformation."))
            Transformation_engine.transformation_modes.

Definition applied_modes (out : list string) : list string :=
  omap applied_mode out.

End Recursive_amplifier.


(* ===================================================================== *)
(** ** The classifier as the specification words it *)
(* ===================================================================== *)

Module Classifier_spec.

Import PyStr.

(** "a tag containing [k]": some declared tag, lowercased, has [k] as a
    substring. *)
Definition some_tag_has (k : string) (tags : option (list string)) : bool :=
  match tags with
  | None => false
  | Some l => existsb (fun t => py_in k (lower t)) l
  end.

(** The ordered rule list of the specification, first match wins. *)
Definition classify (file_path : string) (tags : option (list string)) : string :=
  let p := lower file_path in
  if py_in "contract" p || py_in "agreement" p || some_tag_has "legal" tags
  then "contract"
  else if py_in "invoice" p || some_tag_has "billing" tags
  then "invoice"
  else if py_in "research" p || py_in "paper" p
  then "research_paper"
  else "unknown".

Fixpoint all_chars (f : ascii -> bool) (s : string) : bool :=
  match s with
  | EmptyString => true
  | String c r => f c && all_chars f r
  end.

(** The characters of U+0000..U+00FF whose [repr] escape ends in the
    letter b: [\x0b], [\x1b], [\x8b], [\x9b]. *)
Definition escape_ends_in_b (c : ascii) : bool :=
  let n := PyChar.code c in
  Nat.eqb n 11 || Nat.eqb n 27 || Nat.eqb n 139 || Nat.eqb n 155.

(** No tag holds such a character. *)
Definition tags_free_of (bad : ascii -> bool) (tags : option (list string)) : bool :=
  match tags with
  | None => true
  | Some l => forallb (all_chars (fun c => negb (bad c))) l
  end.

(** What one character of a tag becomes in [str(tags).lower()]. *)
Definition piece (q c : ascii) : string := lower (PyRepr.escape q c).

(** Either the character is written as itself, or its escape opens with a
    character foreign to [k], continues without the first letter of [k],
    and the character itself (lowercased) is foreign to [k]. *)
Definition head_char (k : string) : option ascii :=
  match k with
  | EmptyString => None
  | String k0 _ => Some k0
  end.

Definition piece_ok (k : string) (q c : ascii) : bool :=
  String.eqb (piece q c) (String (PyChar.lower c) EmptyString)
  || (negb (has_char (PyChar.lower c) k)
      && match piece q c, head_char k with
         | String b r, Some k0 => negb (has_char b k) && negb (has_char k0 r)
         | _, _ => false
         end).

End Classifier_spec.

(* ===================================================================== *)
(** ** The event-log query as the specification words it *)
(* ===================================================================== *)

Module Query_spec.

(** [a] is at least as recent as [b]. *)
Definition at_least_as_recent (a b : event) : Prop :=
  String.leb (timestamp b) (timestamp a) = true.

(** [result] is "the [n] most recent events of [pool], sorted by timestamp
    descending": it is sorted, it has [min n |pool|] events, together
    with the events left out it makes up [pool], and nothing left out is
    more recent than anything returned. *)
Definition most_recent (n : nat) (pool result : list event) : Prop :=
  exists older,
    Permutation (result ++ older) pool /\
    StronglySorted at_least_as_recent result /\
    length result = Nat.min n (length pool) /\
    forall x y, In x result -> In y older -> at_least_as_recent x y.

End Query_spec.

(** A small store: three events of the correlation id [a1], in the order
    they were written, and a chat event that carries no id. *)
Module Samples.

Definition ev_start : event :=
  {| timestamp := "2025-07-23T10:00:00.000001";
     event_type := "document_ingestion_start";
     data := dict [("correlation_id", VStr "a1"); ("file_path", VStr "/tmp/agi_staging/a1_x.txt")] |}.

Definition ev_classified : event :=
  {| timestamp := "2025-07-23T10:00:00.000207";
     event_type := "document_classification";
     data := dict [("correlation_id", VStr "a1"); ("agi_determined_type", VStr "unknown")] |}.

Definition ev_module : event :=
  {| timestamp := "2025-07-23T10:00:00.150311";
     event_type := "module_execution";
     data := dict [("correlation_id", VStr "a1"); ("module", VStr "general_content_indexing");
                   ("status", VStr "completed")] |}.

Definition ev_other : event :=
  {| timestamp := "2025-07-23T10:00:01.000000";
     event_type := "user_chat_message";
     data := dict [("message", VStr "hello")] |}.

Definition log : list event := [ev_start; ev_classified; ev_module; ev_other].

End Samples.

(* ===================================================================== *)
(** ** The events a run writes *)
(* ===================================================================== *)

Module Trail.

Section Events.

Variable now : nat -> string.
Variable correlation_id : string.

(** The record [store_event] writes at tick [t]. *)
Definition ev (t : nat) (event_type : string) (payload : list (string * pyval)) : event :=
  {| timestamp := now t; event_type := event_type; data := dict payload |}.

Definition ev_ingestion_start (t : nat) (file_path : string) (m : UploadMetadata) : event :=
  ev t "document_ingestion_start"
     [("correlation_id", VStr correlation_id); ("file_path", VStr file_path);
      ("metadata", metadata_dict m)].

Definition ev_classification (t : nat) (agi_determined_type : string) : event :=
  ev t "document_classification"
     [("correlation_id", VStr correlation_id);
      ("agi_determined_type", VStr agi_determined_type)].

Definition ev_workflow (t : nat) (modules : list string) : event :=
  ev t "workflow_assembly"
     [("correlation_id", VStr correlation_id); ("workflow", VList (map VStr modules))].

Definition ev_module (t : nat) (module_name : string) : event :=
  ev t "module_execution"
     [("correlation_id", VStr correlation_id); ("module", VStr module_name);
      ("status", VStr "completed")].

(** One [module_execution] event per stage, at consecutive ticks. *)
Fixpoint module_events (t : nat) (modules : list string) : list event :=
  match modules with
  | [] => []
  | m :: r => ev_module t m :: module_events (S t) r
  end.

Definition ev_complete (t : nat) (final_path : string) : event :=
  ev t "document_processing_complete"
     [("correlation_id", VStr correlation_id); ("final_path", VStr final_path)].

Definition ev_learning (t : nat) : event :=
  ev t "agi_learning_cycle"
     [("correlation_id", VStr correlation_id); ("status", VStr "re-theorizing completed")].

Definition ev_error (t : nat) (error quarantined_path : string) : event :=
  ev t "document_processing_error"
     [("correlation_id", VStr correlation_id); ("error", VStr error);
      ("quarantined_path", VStr quarantined_path)].

End Events.

(** The two terminal event types of a document run. *)
Definition is_terminal (e : event) : bool :=
  String.eqb (event_type e) "document_processing_complete"
  || String.eqb (event_type e) "document_processing_error".

Definition has_type (ty : string) (e : event) : bool := String.eqb (event_type e) ty.

(** Where a completed run leaves the file: the directory of the category,
    the quarantine directory for a category without one. *)
Definition final_path (agi_determined_type file_path : string) : string :=
  OsPath.join
    (match dict_get agi_determined_type DYNAMIC_DIRS with
     | Some d => d
     | None => quarantine_dir
     end)
    (OsPath.basename file_path).

Definition quarantine_path (file_path : string) : string :=
  OsPath.join quarantine_dir (OsPath.basename file_path).

End Trail.

Module Scenario.

Definition pad2 (n : nat) : string :=
  if Nat.ltb n 10 then "0" +:+ PyRepr.str_int (Z.of_nat n) else PyRepr.str_int (Z.of_nat n).

(** A wall clock that advances by a second between readings. *)
Definition clock (n : nat) : string := "2025-07-23T10:00:" +:+ pad2 n.

Definition fresh_world : world :=
  {| db := []; fs := ∅; ticks := 0; on_startup := [] |}.

Definition correlation_id : string := "3f2b8c1e-7a4d-4e0b-9c55-0d1e2f3a4b5c".

Definition staged_path : string :=
  "/tmp/agi_staging/3f2b8c1e-7a4d-4e0b-9c55-0d1e2f3a4b5c_acme_contract_v2.pdf".

End Scenario.

(** The two drafts of the pipeline runner. *)
Definition runners (now : nat -> string)
    : list (string -> UploadMetadata -> string -> M unit) :=
  [Main.dynamic_document_processor now; Fastapi_main.dynamic_document_processor now].

Module Scenario_worlds.

(** The staged contract of scenario A, alone in the staging directory. *)
Definition staged : world :=
  {| db := []; fs := {[ Scenario.staged_path := "%PDF-1.7" ]}; ticks := 0; on_startup := [] |}.

(** Metadata whose priority was sent as [null]. *)
Definition no_priority : UploadMetadata :=
  {| document_type := None; priority := None; tags := Some [];
     custom_options := Some [] |}.

End Scenario_worlds.

Module Scenario_ingest.

(** Scenario A through the endpoint: the upload is accepted... *)
Definition accepted : outcome Main.ingest_response * world :=
  Main.ingest_document Scenario.clock Scenario.correlation_id
    "acme_contract_v2.pdf" "%PDF-1.7" default_metadata Scenario.fresh_world.

Definition after_ingest : world := snd accepted.

(** ... and the runner the endpoint registered is run to its end, as the
    endpoint's comment intends. *)
Definition after_run : world :=
  snd (Main.dynamic_document_processor Scenario.clock Scenario.staged_path
         default_metadata Scenario.correlation_id after_ingest).

End Scenario_ingest.

Module Amplifier_spec.

(** [modes[iteration_count mod len(modes)]] *)
Definition mode_of (iteration_count : Z) : string :=
  nth (Z.to_nat (iteration_count mod 4)) Transformation_engine.transformation_modes "".

(** The construct after one pass at [iteration_count]. *)
Definition pass (iteration_count : Z) (data : gmap string pyval) : gmap string pyval :=
  <["iteration_count" := VInt (iteration_count + 1)]>
    (<["transformation_applied" := VStr (mode_of iteration_count)]>
       (<["value" := VStr ("[" +:+ PyStr.upper (mode_of iteration_count) +:+ "::Transformed::"
                           +:+ PyRepr.str (Transformation_engine.get data "value" (VStr ""))
                           +:+ "]")]> data)).

Definition announce (mode : string) : string :=
  "TransformationEngine: Applied '" +:+ mode +:+ "' transformation.".

(** A seed as [generate_seed] and [map_patterns] produce it. *)
Definition sample_seed : gmap string pyval :=
  dict [("type", VStr "symbolic"); ("value", VStr "SYMBOLIC_SEED::31337");
        ("inferred_context", VDict [("source_stimuli", VList []); ("mood_hint", VStr "neutral");
                                    ("theme_hint", VStr "abstract")]);
        ("iteration_count", VInt 0);
        ("identified_patterns", VList [VStr "Pattern::symbolic_seed_resonance";
                                       VStr "Pattern::context_alignment_neutral"]);
        ("potential_ruleset_modifications", VList [])].

End Amplifier_spec.

(* ===================================================================== *)
(** * More of the code

    Further sources embedded from here on:
      - [Agi_memory.py]      retrieve_context
      - [Agi_dispatcher.py]  dispatch_to_capability_core and its four cores
      - [Main.py]            chat_with_agi, websocket_endpoint
      - [Perception_interface.py], [Seed_generator.py], [Pattern_mapper.py],
        [Execution_adapter.py], [Conductor.py]
      - [Fastapi_main.py]    initiate_creative_cycle, get_creative_status

    The draws of [random] and the builtin [hash] are parameters of the
    functions that use them.  A dict kept as a [gmap] is stored in an
    event as the list of its items, in the order of the map: the code
    reads such a dict by key only. *)
(* ===================================================================== *)


(* ===================================================================== *)
(** ** Python equality and [dict.get] on values *)
(* ===================================================================== *)

Module PyVal.

(** [d.get(k)] on the items of a dict with distinct keys *)
Fixpoint assoc (k : string) (d : list (string * pyval)) : option pyval :=
  match d with
  | [] => None
  | (k', v) :: r => if String.eqb k k' then Some v else assoc k r
  end.

(** [a == b]: values of different types are unequal, lists are compared
    element by element, dicts as maps (the order of the items does not
    count). *)
Fixpoint py_eq (a b : pyval) : bool :=
  match a, b with
  | VNone, VNone => true
  | VInt x, VInt y => Z.eqb x y
  | VStr x, VStr y => String.eqb x y
  | VList l, VList m =>
      (fix eq_list (l m : list pyval) : bool :=
         match l, m with
         | [], [] => true
         | x :: l', y :: m' => py_eq x y && eq_list l' m'
         | _, _ => false
         end) l m
  | VDict d, VDict e =>
      Nat.eqb (length d) (length e)
      && (fix all (d : list (string * pyval)) : bool :=
            match d with
            | [] => true
            | kv :: d' =>
                match assoc (fst kv) e with
                | Some v' => py_eq (snd kv) v'
                | None => false
                end && all d'
            end) d
  | _, _ => false
  end.

(** [type(v).__name__] *)
Definition type_name (v : pyval) : string :=
  match v with
  | VNone => "NoneType"
  | VInt _ => "int"
  | VStr _ => "str"
  | VList _ => "list"
  | VDict _ => "dict"
  end.

End PyVal.

(** A call that returns, or raises an exception [e] of which the callers
    here read [str(e)] only. *)
Inductive attempt (A : Type) : Type :=
  | Returned (a : A)
  | Raised (str_e : string).
Arguments Returned {A} a.
Arguments Raised {A} str_e.

Definition attempt_bind {A B} (x : attempt A) (k : A -> attempt B) : attempt B :=
  match x with
  | Returned a => k a
  | Raised m => Raised m
  end.

(* ===================================================================== *)
(** ** Agi_memory.py : retrieve_context *)
(* ===================================================================== *)

Module Agi_memory_context.

(** [search_query.data[key] == value], false where the key is missing *)
Definition condition (key : string) (value : pyval) (e : event) : bool :=
  match data e !! key with
  | Some x => PyVal.py_eq x value
  | None => false
  end.

(** The conditions of all items of [query_data], combined with [&] *)
Definition combined_condition (query_data : list (string * pyval)) (e : event) : bool :=
  forallb (fun kv => condition (fst kv) (snd kv) e) query_data.

(** [retrieve_context(query_data, limit)] over the documents in insertion
    order; the default [limit] is 1. *)
Definition retrieve_context (db : list event) (query_data : list (string * pyval))
    (limit : Z) : list event :=
  let results :=
    match query_data with
    | [] => []
    | _ => List.filter (combined_condition query_data) db
    end in
  Agi_memory.slice_to limit results.

Definition default_limit : Z := 1.

End Agi_memory_context.

(* ===================================================================== *)
(** ** Agi_dispatcher.py *)
(* ===================================================================== *)

Module Agi_dispatcher.

(** [payload.get(k, default)] *)
Definition get (payload : list (string * pyval)) (k : string) (default : pyval) : pyval :=
  match PyVal.assoc k payload with
  | Some v => v
  | None => default
  end.

Definition _agi_code_core_process (payload : list (string * pyval)) : string :=
  "AGI Codex Core: Analyzing code snippet. Optimal solution theorized.".

Definition _agi_vision_core_analyze (payload : list (string * pyval)) : string :=
  let image_data := get payload "image_path" (VStr "no image path") in
  "AGI Vision Core: Analyzing visual data from " +:+ PyRepr.str image_data
  +:+ ". Insights generated.".

Definition _agi_nlp_core_chat (payload : list (string * pyval)) : string :=
  let user_message := get payload "user_message" (VStr "no message") in
  let memory_context := get payload "memory_context" (VDict []) in
  "AGI EchoNexus Core: Received '" +:+ PyRepr.str user_message +:+ "' (Context: "
  +:+ PyRepr.str memory_context +:+ "). Processing for optimal response.".

Definition _agi_document_subtask_processor (payload : list (string * pyval)) : string :=
  let subtask_name := get payload "subtask_name" (VStr "generic_subtask") in
  let document_id := get payload "correlation_id" (VStr "N/A") in
  "AGI Document Subtask Processor: Executing '" +:+ PyRepr.str subtask_name
  +:+ "' for document " +:+ PyRepr.str document_id +:+ ".".

Definition dispatch_to_capability_core (task_type : string)
    (payload : list (string * pyval)) : string :=
  if String.eqb task_type "code_analysis" then _agi_code_core_process payload
  else if String.eqb task_type "vision" then _agi_vision_core_analyze payload
  else if String.eqb task_type "chat_reasoning" then _agi_nlp_core_chat payload
  else if String.eqb task_type "document_processing_subtask"
  then _agi_document_subtask_processor payload
  else "AGI: Unable to find direct module for '" +:+ task_type
       +:+ "'. Initiating re-theorization process for this task.".

End Agi_dispatcher.

(* ===================================================================== *)
(** ** Main.py : chat_with_agi *)
(* ===================================================================== *)

Record ChatInput : Type := {
  user_message : string;
  memory_context : option (list (string * pyval))
}.

(** [chat_input.dict()] *)
Definition chat_input_dict (c : ChatInput) : list (string * pyval) :=
  [ ("user_message", VStr (user_message c));
    ("memory_context", opt_val VDict (memory_context c)) ].

Module Main_chat.

Section Handlers.

Variable now : nat -> string.

(** [chat_with_agi(chat_input)]; the value is the ["response"] of the
    JSON body. *)
Definition chat_with_agi (chat_input : ChatInput) : M string :=
  store_event now "user_chat_message"
    (dict [("message", VStr (user_message chat_input));
           ("context", opt_val VDict (memory_context chat_input))]) ;;;
  let response :=
    Agi_dispatcher.dispatch_to_capability_core "chat_reasoning"
      (chat_input_dict chat_input) in
  store_event now "agi_chat_response" (dict [("response", VStr response)]) ;;;
  ret response.

(** One turn of the loop of [websocket_endpoint] on the received text
    [data]; the value is the text sent back. *)
Definition websocket_turn (data : string) : M string :=
  store_event now "websocket_message_received" (dict [("message", VStr data)]) ;;;
  let agi_response :=
    Agi_dispatcher.dispatch_to_capability_core "chat_reasoning"
      [("user_message", VStr data);
       ("context", VDict [("channel", VStr "websocket")])] in
  store_event now "websocket_message_sent" (dict [("response", VStr agi_response)]) ;;;
  ret ("AGI EchoNexus (WS): " +:+ agi_response).

(** [websocket_endpoint(websocket)] for a client that sends the texts
    [received] and then disconnects, every send succeeding: the loop runs
    once per text, then [receive_text] raises [WebSocketDisconnect].  The
    value is the list of the texts sent. *)
Fixpoint websocket_endpoint (received : list string) : M (list string) :=
  match received with
  | [] => store_event now "websocket_disconnect" (dict []) ;;; ret []
  | data :: rest =>
      sent <- websocket_turn data ;;
      later <- websocket_endpoint rest ;;
      ret (sent :: later)
  end.

End Handlers.

End Main_chat.

(* ===================================================================== *)
(** ** More of [str] *)
(* ===================================================================== *)

Module PyText.

Import PyStr.

(** [s.upper()] on text: the sharp s becomes SS; the capitals of U+00FF
    and U+00B5 lie beyond U+00FF and are written here by the code points
    of their small letters, which no capital of this block occupies. *)
Fixpoint upper_text (s : string) : string :=
  match s with
  | EmptyString => EmptyString
  | String c r =>
      if Nat.eqb (PyChar.code c) 223 then "SS" +:+ upper_text r
      else String (PyChar.upper c) (upper_text r)
  end.

(** [s.split(sep)[0]] for a non-empty [sep]: the text before its first
    occurrence, all of [s] when there is none. *)
Fixpoint before (sep s : string) : string :=
  match s with
  | EmptyString => EmptyString
  | String c r => if starts_with sep s then EmptyString else String c (before sep r)
  end.

(** [s[:n]] for [n >= 0] *)
Fixpoint take (n : nat) (s : string) : string :=
  match n, s with
  | S n', String c r => String c (take n' r)
  | _, _ => EmptyString
  end.

(** [v.get(k, default)] on any value: only a dict has [get]. *)
Definition value_get (v : pyval) (k : string) (default : pyval) : attempt pyval :=
  match v with
  | VDict d =>
      Returned match PyVal.assoc k d with Some x => x | None => default end
  | _ => Raised ("'" +:+ PyVal.type_name v +:+ "' object has no attribute 'get'")
  end.

(** [v[:50]]: text and lists can be sliced ([unhashable] is what a dict
    answers up to CPython 3.11). *)
Definition slice_50 (v : pyval) : attempt pyval :=
  match v with
  | VStr s => Returned (VStr (take 50 s))
  | VList l => Returned (VList (firstn 50 l))
  | VDict _ => Raised "unhashable type: 'slice'"
  | _ => Raised ("'" +:+ PyVal.type_name v +:+ "' object is not subscriptable")
  end.

End PyText.

(* ===================================================================== *)
(** ** Perception_interface.py, Seed_generator.py, Pattern_mapper.py,
       Execution_adapter.py, Conductor.py *)
(* ===================================================================== *)
(** What these functions print is left out. *)

Module Perception_interface.

(** The element a modality adds when its key is in [input_data]. *)
Definition detected (input_data : list (string * pyval)) (key : string)
    (element : pyval -> string) : list pyval :=
  match PyVal.assoc key input_data with
  | Some v => [VStr (element v)]
  | None => []
  end.

(** [ingest(input_data)]; [hash_of] is the builtin [hash] on text for the
    running process. *)
Definition ingest (hash_of : string -> Z) (input_data : list (string * pyval))
    : attempt (gmap string pyval) :=
  let raw_input_hash := hash_of (PyRepr.str (VDict input_data)) in
  let inferred_context :=
    match PyVal.assoc "context" input_data with Some c => c | None => VDict [] end in
  attempt_bind
    (match PyVal.assoc "text_input" input_data with
     | Some v =>
         attempt_bind (PyText.slice_50 v)
           (fun head => Returned [VStr ("Text: " +:+ PyRepr.str head +:+ "...")])
     | None => Returned []
     end)
    (fun text_elements =>
       let perceived_elements :=
         text_elements
         ++ detected input_data "image_data" (fun _ => "Image data detected.")
         ++ detected input_data "audio_data" (fun _ => "Audio data detected.")
         ++ detected input_data "symbolic_input" (fun v => "Symbolic: " +:+ PyRepr.str v) in
       Returned (dict [("raw_input_hash", VInt raw_input_hash);
                       ("perceived_elements", VList perceived_elements);
                       ("inferred_context", inferred_context)])).

End Perception_interface.

Module Seed_generator.

(** [self.seed_types] *)
Definition seed_types : list string :=
  ["symbolic"; "emotive"; "geometric"; "archetypal"; "narrative"; "logical"].

(** [generate_seed(context)], for the [seed_type] that [random.choice]
    drew from [seed_types] and the [number] that
    [random.randint(10000, 99999)] drew. *)
Definition generate_seed (seed_type : string) (number : Z)
    (context : gmap string pyval) : attempt (gmap string pyval) :=
  let seed_value := PyStr.upper seed_type +:+ "_SEED::" +:+ PyRepr.str_int number in
  let source_stimuli := Transformation_engine.get context "perceived_elements" (VList []) in
  let given := Transformation_engine.get context "inferred_context" (VDict []) in
  attempt_bind (PyText.value_get given "mood" (VStr "neutral")) (fun mood_hint =>
  attempt_bind (PyText.value_get given "theme" (VStr "abstract")) (fun theme_hint =>
    let inferred_context :=
      VDict [("source_stimuli", source_stimuli); ("mood_hint", mood_hint);
             ("theme_hint", theme_hint)] in
    Returned (dict [("type", VStr seed_type); ("value", VStr seed_value);
                    ("inferred_context", inferred_context);
                    ("iteration_count", VInt 0)]))).

End Seed_generator.

Module Pattern_mapper.

(** [mapped_data['value'].split('::')[0].lower()] *)
Definition value_stem (data : gmap string pyval) : attempt string :=
  match data !! "value" with
  | None => Raised "'value'"
  | Some (VStr s) => Returned (PyStr.lower (PyText.before "::" s))
  | Some v => Raised ("'" +:+ PyVal.type_name v +:+ "' object has no attribute 'split'")
  end.

(** [mapped_data['inferred_context'].get('mood_hint', 'unknown')] *)
Definition mood_of (data : gmap string pyval) : attempt pyval :=
  match data !! "inferred_context" with
  | None => Raised "'inferred_context'"
  | Some v => PyText.value_get v "mood_hint" (VStr "unknown")
  end.

(** [map_patterns(data)] *)
Definition map_patterns (data : gmap string pyval) : attempt (gmap string pyval) :=
  let mapped_data := data in
  attempt_bind (value_stem mapped_data) (fun stem =>
  attempt_bind (mood_of mapped_data) (fun mood =>
    let mapped_data :=
      <["identified_patterns" :=
          VList [VStr ("Pattern::" +:+ stem +:+ "_resonance");
                 VStr ("Pattern::context_alignment_" +:+ PyRepr.str mood)]]> mapped_data in
    let mapped_data :=
      <["potential_ruleset_modifications" := VList []]> mapped_data in
    Returned mapped_data)).

End Pattern_mapper.

Module Execution_adapter.

(** The [output_format] chosen for a value. *)
Definition output_format (creative_result : gmap string pyval) : string :=
  if PyStr.py_in "TRANSFORMED::SYMBOLIC"
       (PyText.upper_text
          (PyRepr.str (Transformation_engine.get creative_result "value" (VStr ""))))
  then "symbolic_representation" else "text_summary".

(** [render_output(creative_result)] *)
Definition render_output (creative_result : gmap string pyval) : gmap string pyval :=
  let rendered_output := creative_result in
  let output_format := output_format creative_result in
  let rendered_output := <["final_output_format" := VStr output_format]> rendered_output in
  <["rendered_representation" :=
      VStr ("Final Rendered Output (" +:+ output_format +:+ "): "
            +:+ PyRepr.str (Transformation_engine.get creative_result "value" (VStr "N/A")))]>
    rendered_output.

End Execution_adapter.

Module Conductor.

(** [run_creativity_cycle(input_data)]: [None] where the transformer
    raises inside the amplifier, the one fault whose text is not
    modelled. *)
Definition run_creativity_cycle (hash_of : string -> Z) (seed_type : string) (number : Z)
    (recursive_amplifier : Recursive_amplifier.RecursiveAmplifier)
    (input_data : list (string * pyval)) : option (attempt (gmap string pyval)) :=
  match Perception_interface.ingest hash_of input_data with
  | Raised m => Some (Raised m)
  | Returned stimuli =>
      match Seed_generator.generate_seed seed_type number stimuli with
      | Raised m => Some (Raised m)
      | Returned seed =>
          match Pattern_mapper.map_patterns seed with
          | Raised m => Some (Raised m)
          | Returned mapped_seed =>
              match Recursive_amplifier.amplify recursive_amplifier mapped_seed with
              | None => None
              | Some (amplified_result, _) =>
                  Some (Returned (Execution_adapter.render_output amplified_result))
              end
          end
      end
  end.

End Conductor.

(* ===================================================================== *)
(** ** Fastapi_main.py : the creative endpoints *)
(* ===================================================================== *)
(** [store_event] and [get_recent_events] are those of Agi_memory.py, which
    the module imports; the placeholders it falls back to when that import
    fails store nothing and are not modelled. *)

Record CreativeInput : Type := {
  text_input : option string;
  image_data : option string;
  audio_data : option string;
  symbolic_input : option (list (string * pyval));
  context : option (list (string * pyval))
}.

(** [input_data.dict()]: every field is a key, an absent one with the
    value [None]. *)
Definition creative_input_dict (i : CreativeInput) : list (string * pyval) :=
  [ ("text_input", opt_val VStr (text_input i));
    ("image_data", opt_val VStr (image_data i));
    ("audio_data", opt_val VStr (audio_data i));
    ("symbolic_input", opt_val VDict (symbolic_input i));
    ("context", opt_val VDict (context i)) ].

Module Creative_api.

Record create_response : Type := {
  create_message : string;
  create_correlation_id : string;
  creative_output_status_endpoint : string
}.

Record creative_status : Type := {
  cs_correlation_id : string;
  cs_status : string;
  last_agi_creative_action : string;
  current_creative_value : pyval;
  final_creative_output : pyval;
  agi_creative_event_history : list event
}.

Section Handlers.

Variable now : nat -> string.
Variable hash_of : string -> Z.

(** [initiate_creative_cycle(input_data, background_tasks)] up to its
    answer; [correlation_id] is the value [str(uuid.uuid4())] took. *)
Definition initiate_creative_cycle (correlation_id : string) (input_data : CreativeInput)
    : M create_response :=
  store_event now "creative_cycle_initiation"
    (dict [("correlation_id", VStr correlation_id);
           ("input_data", VDict (creative_input_dict input_data))]) ;;;
  ret {| create_message := "Creative cycle initiated. AGI is now theorizing and amplifying.";
         create_correlation_id := correlation_id;
         creative_output_status_endpoint := "/creative_status/" +:+ correlation_id |}.

(** [run_creative_task()], the background task of the request, for the
    draws [seed_type] and [number] of the seed generator. *)
Definition run_creative_task (seed_type : string) (number : Z) (correlation_id : string)
    (input_data : CreativeInput) : option (M unit) :=
  match Conductor.run_creativity_cycle hash_of seed_type number
          Recursive_amplifier.recursive_amplifier (creative_input_dict input_data) with
  | None => None
  | Some (Returned result) =>
      Some (store_event now "creative_cycle_completion"
              (dict [("correlation_id", VStr correlation_id);
                     ("result", VDict (map_to_list result))]))
  | Some (Raised str_e) =>
      Some (store_event now "creative_cycle_error"
              (dict [("correlation_id", VStr correlation_id); ("error", VStr str_e)]))
  end.

End Handlers.

(** [e.get("data", {}).get("result", {}).get(key)] *)
Definition result_field (key : string) (e : event) : attempt pyval :=
  PyText.value_get
    (match data e !! "result" with Some r => r | None => VDict [] end) key VNone.

Definition has_type (ty : string) (e : event) : bool := String.eqb (event_type e) ty.

(** [get_creative_status(correlation_id)], reading the store [db]; [None]
    where the handler raises. *)
Definition get_creative_status (db : list event) (correlation_id : string)
    : option creative_status :=
  let events :=
    Agi_memory.get_recent_events db Agi_memory.default_limit (Some correlation_id) in
  let status_summary := "Creative cycle initiated." in
  let final_output := VNone in
  let outcome : attempt (string * pyval) :=
    if existsb (has_type "creative_cycle_completion") events then
      match List.find (has_type "creative_cycle_completion") events with
      | Some e =>
          attempt_bind (result_field "rendered_representation" e)
            (fun final_output => Returned ("Creative cycle completed.", final_output))
      | None => Returned ("Creative cycle completed.", final_output)
      end
    else if existsb (has_type "creative_cycle_error") events
    then Returned ("Creative cycle encountered an error.", final_output)
    else Returned ("Creative cycle in progress (AGI actively theorizing).", final_output) in
  match outcome with
  | Raised _ => None
  | Returned (status_summary, final_output) =>
      let last_action :=
        match Main.last_item events with
        | Some e => event_type e
        | None => "None"
        end in
      let current :=
        match Main.last_item events with
        | Some e =>
            if negb (PyStr.py_in "creative_cycle_completion" status_summary)
            then result_field "value" e
            else Returned VNone
        | None => Returned VNone
        end in
      match current with
      | Raised _ => None
      | Returned current_value =>
          Some {| cs_correlation_id := correlation_id;
                  cs_status := status_summary;
                  last_agi_creative_action := last_action;
                  current_creative_value := current_value;
                  final_creative_output := final_output;
                  agi_creative_event_history := events |}
      end
  end.

End Creative_api.

(* ===================================================================== *)
(** ** What a creative cycle comes to *)
(* ===================================================================== *)

Module Creative_spec.

(** The value of a seed after the four passes of the service's
    amplifier. *)
Definition amplified_value (seed_type : string) (number : Z) : string :=
  "[SYNTACTIC::Transformed::[CONCEPTUAL::Transformed::[MODAL::Transformed::"
  +:+ "[STYLISTIC::Transformed::" +:+ PyStr.upper seed_type +:+ "_SEED::"
  +:+ PyRepr.str_int number +:+ "]]]]".

Definition format_of (seed_type : string) : string :=
  if String.eqb seed_type "symbolic" then "symbolic_representation" else "text_summary".

Definition rendered (seed_type : string) (number : Z) : string :=
  "Final Rendered Output (" +:+ format_of seed_type +:+ "): "
  +:+ amplified_value seed_type number.

(** The elements perceived in a request whose text is [t]. *)
Definition perceived (t : string) (i : CreativeInput) : list pyval :=
  [ VStr ("Text: " +:+ PyText.take 50 t +:+ "...");
    VStr "Image data detected.";
    VStr "Audio data detected.";
    VStr ("Symbolic: " +:+ PyRepr.str (opt_val VDict (symbolic_input i))) ].

(** [c.get(k, default)] on the items of a context *)
Definition hint (c : list (string * pyval)) (k : string) (default : string) : pyval :=
  match PyVal.assoc k c with
  | Some v => v
  | None => VStr default
  end.

End Creative_spec.

(* ===================================================================== *)
(** ** Reading a run's trail *)
(* ===================================================================== *)

Module Trail_spec.

(** The directories a run may relocate to: the values of [DYNAMIC_DIRS]
    but the staging directory. *)
Definition managed_dirs : list string :=
  ["/mnt/data/processed/contracts"; "/mnt/data/processed/papers";
   "/mnt/data/processed/invoices"; "/mnt/data/quarantine"].

(** The value under [key] in the payload of an event of type [ty]. *)
Definition payload_of (ty key : string) (e : event) : option pyval :=
  if Trail.has_type ty e then data e !! key else None.

(** Each draft of the runner with its classifier. *)
Definition drafts (now : nat -> string)
    : list ((string -> UploadMetadata -> string -> M unit)
            * (string -> option (list string) -> string)) :=
  [ (Main.dynamic_document_processor now, Main_py.agi_determined_type);
    (Fastapi_main.dynamic_document_processor now, Fastapi_main_py.agi_determined_type) ].

(** The events of a completed run, for the category [ty], the stages
    [modules] and the destination [final]. *)
Definition completed_trail (now : nat -> string) (cid : string) (t : nat)
    (file_path : string) (m : UploadMetadata) (ty : string) (modules : list string)
    (final : string) : list event :=
  [Trail.ev_ingestion_start now cid t file_path m;
   Trail.ev_classification now cid (t + 1) ty;
   Trail.ev_workflow now cid (t + 2) modules]
  ++ Trail.module_events now cid (t + 3) modules
  ++ [Trail.ev_complete now cid (t + 3 + length modules) final;
      Trail.ev_learning now cid (t + 4 + length modules)].

(** The events of a completed run of the draft, which announces no
    workflow. *)
Definition draft_completed_trail (now : nat -> string) (cid : string) (t : nat)
    (file_path : string) (m : UploadMetadata) (ty : string) (modules : list string)
    (final : string) : list event :=
  [Trail.ev_ingestion_start now cid t file_path m;
   Trail.ev_classification now cid (t + 1) ty]
  ++ Trail.module_events now cid (t + 2) modules
  ++ [Trail.ev_complete now cid (t + 2 + length modules) final;
      Trail.ev_learning now cid (t + 3 + length modules)].

End Trail_spec.

(* ===================================================================== *)
(** ** Main.py : ingest_document, whatever the calls it makes do *)
(* ===================================================================== *)

(** How the calls of [ingest_document] into the file system, the upload
    and the application can fail.  Of an exception only [str(e)] is read,
    so a failure is the text of its exception. *)
Record io : Type := {
  (** [aiofiles.open(path, "wb")] raises: no file is created *)
  open_error : string -> option string;
  (** [await file.read()] raises *)
  read_error : option string;
  (** [await buffer.write(content)], or closing the file, raises: the
      text, and what had reached the file *)
  write_error : string -> string -> option (string * string);
  (** [app.add_event_handler] raises *)
  register_error : option string
}.

Module Ingest_io.

(** The world in which [path] holds [content]. *)
Definition with_file (path content : string) (w : world) : world :=
  {| db := db w; fs := <[path := content]> (fs w);
     ticks := ticks w; on_startup := on_startup w |}.

Section Handlers.

Variable now : nat -> string.
Variable env : io.

(** [async with aiofiles.open(path, "wb") as buffer:
       content = await file.read()
       await buffer.write(content)]
    Opening for writing creates the file, or empties it. *)
Definition stage_upload (path content : string) (w : world) : attempt unit * world :=
  match open_error env path with
  | Some text => (Raised text, w)
  | None =>
      match read_error env with
      | Some text => (Raised text, with_file path "" w)
      | None =>
          match write_error env path content with
          | Some (text, written) => (Raised text, with_file path written w)
          | None => (Returned tt, with_file path content w)
          end
      end
  end.

(** [app.add_event_handler("startup", lambda: ...)] *)
Definition add_event_handler (t : startup_task) (w : world) : attempt unit * world :=
  match register_error env with
  | Some text => (Raised text, w)
  | None => (Returned tt, {| db := db w; fs := fs w; ticks := ticks w;
                             on_startup := on_startup w ++ [t] |})
  end.

(** [ingest_document(file, metadata)]; [correlation_id] is the value
    [str(uuid.uuid4())] took. *)
Definition ingest_document (correlation_id : string) (file_filename file_content : string)
    (metadata : UploadMetadata) : M Main.ingest_response :=
  fun w =>
    let sanitized_filename := sanitize_filename file_filename in
    let initial_save_path :=
      OsPath.join temp_staging (correlation_id +:+ "_" +:+ sanitized_filename) in
    let handler (str_e : string) : M Main.ingest_response :=
      store_event now "document_ingestion_error"
        (dict [("correlation_id", VStr correlation_id); ("error", VStr str_e);
               ("filename", VStr sanitized_filename)]) ;;;
      raise (HTTPException 500 ("Federated AGI failed to ingest document: " +:+ str_e)) in
    match stage_upload initial_save_path file_content w with
    | (Raised str_e, w1) => handler str_e w1
    | (Returned _, w1) =>
        match add_event_handler
                {| task_path := initial_save_path; task_metadata := metadata;
                   task_correlation_id := correlation_id |} w1 with
        | (Raised str_e, w2) => handler str_e w2
        | (Returned _, w2) =>
            (Ok {| Main.message :=
                     "Document received by Federated AGI. Autonomous processing initiated.";
                   Main.ingest_correlation_id := correlation_id;
                   Main.filename := sanitized_filename;
                   Main.agi_status_endpoint := "/document_status/" +:+ correlation_id |},
             w2)
        end
    end.

(** The failure the try block of [ingest_document] meets first. *)
Definition first_failure (path content : string) : option string :=
  match open_error env path with
  | Some text => Some text
  | None =>
      match read_error env with
      | Some text => Some text
      | None =>
          match write_error env path content with
          | Some (text, _) => Some text
          | None => register_error env
          end
      end
  end.

End Handlers.

(** The calls as [write_file] and [add_startup_handler] take them: a
    path is refused only for a NUL in it. *)
Definition nul_only : io :=
  {| open_error := fun path =>
       if PyStr.has_char "000"%char path then Some "embedded null byte" else None;
     read_error := None;
     write_error := fun _ _ => None;
     register_error := None |}.

(** The bytes of a text of the model in UTF-8. *)
Fixpoint utf8_length (s : string) : nat :=
  match s with
  | EmptyString => 0
  | String c r => (if Nat.ltb (PyChar.code c) 128 then 1 else 2) + utf8_length r
  end.

(** A file system that also refuses a name of more than 255 bytes. *)
Definition name_limit : io :=
  {| open_error := fun path =>
       if PyStr.has_char "000"%char path then Some "embedded null byte"
       else if Nat.ltb 255 (utf8_length (OsPath.basename path))
       then Some ("[Errno 36] File name too long: " +:+ PyRepr.repr_str path)
       else None;
     read_error := None;
     write_error := fun _ _ => None;
     register_error := None |}.

(** An application without [add_event_handler]. *)
Definition no_event_handlers : io :=
  {| open_error := open_error nul_only;
     read_error := None;
     write_error := fun _ _ => None;
     register_error := Some "'FastAPI' object has no attribute 'add_event_handler'" |}.

End Ingest_io.

(* ===================================================================== *)
(** ** Texts over all of Unicode: [repr], [lower] and the classifier *)
(* ===================================================================== *)
(** The classifier reads [str(tags).lower()], and [repr] writes a
    character from U+0100 on that is not printable as [\uhhhh] or
    [\Uhhhhhhhh].  Here a text is the list of its code points, and what
    Python takes from the Unicode database is a parameter. *)

(** What Python reads in the Unicode database for the characters from
    U+0080 on. *)
Record database : Type := {
  (** [str.isprintable] of the character *)
  isprintable : N -> bool;
  (** the lowercase mapping of the character, one to three code points *)
  lower_full : N -> list N;
  (** whether the capital sigma at this index of the text ends a word *)
  final_sigma : list N -> nat -> bool
}.

Module Unicode.

Definition text : Type := list N.

(** A text of the model above, by its code points. *)
Fixpoint of_string (s : string) : text :=
  match s with
  | EmptyString => []
  | String c r => N_of_ascii c :: of_string r
  end.

Fixpoint starts_with (p s : text) : bool :=
  match p, s with
  | [], _ => true
  | _ :: _, [] => false
  | a :: p', b :: s' => N.eqb a b && starts_with p' s'
  end.

(** [p in s] *)
Fixpoint py_in (p s : text) : bool :=
  starts_with p s ||
  match s with
  | [] => false
  | _ :: r => py_in p r
  end.

Definition has_char (c : N) (s : text) : bool := existsb (N.eqb c) s.

(** [sep.join(l)] *)
Fixpoint join (sep : text) (l : list text) : text :=
  match l with
  | [] => []
  | [s] => s
  | s :: r => s ++ sep ++ join sep r
  end.

(** One hexadecimal digit, in lower case. *)
Definition hex_digit (n : N) : N := if (n <? 10)%N then (48 + n)%N else (87 + n)%N.

(** The last [width] hexadecimal digits of [c]. *)
Fixpoint hex (width : nat) (c : N) : text :=
  match width with
  | O => []
  | S w => hex w (c / 16) ++ [hex_digit (c mod 16)]
  end.

Section Database.

Variable u : database.

(** [str.isprintable] on one character: the letters, digits, marks and
    the space of ASCII, and what the database says from U+0080 on. *)
Definition is_printable (c : N) : bool :=
  if (c <? 128)%N then (32 <=? c)%N && (c <? 127)%N else isprintable u c.

(** What [str.lower] writes for one character other than the capital
    sigma. *)
Definition lower_char (c : N) : text :=
  if (c <? 128)%N then [if (65 <=? c)%N && (c <=? 90)%N then (c + 32)%N else c]
  else lower_full u c.

(** [str.lower] from the index [i] of the text [whole] on: every
    character gives its lowercase mapping, the capital sigma U+03A3 the
    final or the plain small sigma. *)
Fixpoint lower_from (whole : text) (i : nat) (s : text) : text :=
  match s with
  | [] => []
  | c :: r =>
      (if (c =? 931)%N then [if final_sigma u whole i then 962%N else 963%N]
       else lower_char c)
      ++ lower_from whole (S i) r
  end.

(** [s.lower()] *)
Definition lower (s : text) : text := lower_from s 0 s.

(** [repr] of a [str] picks double quotes only when the text has a single
    quote and no double quote. *)
Definition quote_of (s : text) : N :=
  if has_char 39 s && negb (has_char 34 s) then 34%N else 39%N.

(** What [repr] writes for one character inside quotes [q]. *)
Definition escape (q c : N) : text :=
  if (c =? 92)%N || (c =? q)%N then [92%N; c]
  else if (c =? 9)%N then [92; 116]%N
  else if (c =? 10)%N then [92; 110]%N
  else if (c =? 13)%N then [92; 114]%N
  else if is_printable c then [c]
  else if (c <? 256)%N then [92; 120]%N ++ hex 2 c
  else if (c <? 65536)%N then [92; 117]%N ++ hex 4 c
  else [92; 85]%N ++ hex 8 c.

Definition repr_str (s : text) : text :=
  let q := quote_of s in
  q :: flat_map (escape q) s ++ [q].

(** [str(tags)] for [tags : Optional[list[str]]] *)
Definition str_tags (tags : option (list text)) : text :=
  match tags with
  | None => of_string "None"
  | Some l => [91%N] ++ join [44; 32]%N (map repr_str l) ++ [93%N]
  end.

End Database.

End Unicode.

Module Main_py_unicode.

Import Unicode.

(** Step 1 of [dynamic_document_processor] in Main.py, on texts over all
    of Unicode. *)
Definition agi_determined_type (u : database) (file_path : text) (tags : option (list text))
    : string :=
  if py_in (of_string "contract") (lower u file_path)
     || py_in (of_string "agreement") (lower u file_path)
     || py_in (of_string "legal") (lower u (str_tags u tags))
  then "contract"
  else if py_in (of_string "invoice") (lower u file_path)
          || py_in (of_string "billing") (lower u (str_tags u tags))
  then "invoice"
  else if py_in (of_string "research") (lower u file_path)
          || py_in (of_string "paper") (lower u file_path)
  then "research_paper"
  else "unknown".

End Main_py_unicode.

(** The classifier as the specification words it, on texts over all of
    Unicode. *)
Module Classifier_unicode.

Import Unicode.

(** "a tag containing [k]": some declared tag, lowercased, has [k] as a
    substring. *)
Definition some_tag_has (u : database) (k : text) (tags : option (list text)) : bool :=
  match tags with
  | None => false
  | Some l => existsb (fun t => py_in k (lower u t)) l
  end.

(** The ordered rule list of the specification, first match wins. *)
Definition classify (u : database) (file_path : text) (tags : option (list text)) : string :=
  let p := lower u file_path in
  if py_in (of_string "contract") p || py_in (of_string "agreement") p
     || some_tag_has u (of_string "legal") tags
  then "contract"
  else if py_in (of_string "invoice") p || some_tag_has u (of_string "billing") tags
  then "invoice"
  else if py_in (of_string "research") p || py_in (of_string "paper") p
  then "research_paper"
  else "unknown".

(** The characters whose [repr] escape ends in the letter b: those that
    are not printable and whose code point ends in the hexadecimal digit
    B, as U+000B, U+001B, U+008B, U+009B, U+200B. *)
Definition escape_ends_in_b (u : database) (c : N) : bool :=
  negb (is_printable u c) && (c mod 16 =? 11)%N.

(** No tag holds a character for which [bad] holds. *)
Definition tags_free_of (bad : N -> bool) (tags : option (list text)) : bool :=
  match tags with
  | None => true
  | Some l => forallb (forallb (fun c => negb (bad c))) l
  end.

(** A character that is not printable has no lowercase mapping. *)
Definition unprintable_uncased (u : database) : Prop :=
  forall c, (128 <= c)%N -> isprintable u c = false -> lower_full u c = [c].

(** A text [b] that no occurrence of [k] can touch: its first character
    is not in [k], and no occurrence of [k] starts inside it, whatever
    follows. *)
Definition barrier (k b : text) : Prop :=
  (exists f r, b = f :: r /\ has_char f k = false) /\
  forall a s x, b = a ++ s -> s <> [] -> starts_with k (s ++ x) = false.

(** A database for examples: of the characters from U+0080 on, those up
    to U+00A0, the soft hyphen U+00AD, the zero width space U+200B and
    the surrogates are not printable; the capitals of the Latin-1 block
    have their small letters. *)
Definition sample : database :=
  {| isprintable := fun c =>
       negb ((c <=? 160) || (c =? 173) || (c =? 8203)
             || ((55296 <=? c) && (c <=? 57343)))%N;
     lower_full := fun c =>
       if ((192 <=? c) && (c <=? 222) && negb (c =? 215))%N then [(c + 32)%N] else [c];
     final_sigma := fun _ _ => false |}.

End Classifier_unicode.

(* ===================================================================== *)
(** * Properties *)
(* ===================================================================== *)

(** ** Strings: characters, prefixes and occurrences *)

Section StringFacts.

Import PyStr.

Lemma eqc_refl c : eqc c c = true.
Proof. apply Ascii.eqb_refl. Qed.

Lemma eqc_eq a b : eqc a b = true <-> a = b.
Proof. apply Ascii.eqb_eq. Qed.

Lemma eqc_neq a b : eqc a b = false <-> a <> b.
Proof. apply Ascii.eqb_neq. Qed.

Lemma append_nil_l s : "" +:+ s = s.
Proof. reflexivity. Qed.

Lemma append_cons c a b : String c a +:+ b = String c (a +:+ b).
Proof. reflexivity. Qed.

Lemma append_nil_r s : s +:+ "" = s.
Proof. induction s as [|c r IH]; [reflexivity | now rewrite append_cons, IH]. Qed.

Lemma append_assoc a b c : (a +:+ b) +:+ c = a +:+ (b +:+ c).
Proof. induction a as [|x r IH]; [reflexivity | now rewrite !append_cons, IH]. Qed.

Lemma has_char_app c a b : has_char c (a +:+ b) = has_char c a || has_char c b.
Proof.
  induction a as [|d r IH]; [reflexivity|].
  rewrite append_cons. simpl. rewrite IH. now rewrite orb_assoc.
Qed.

Lemma starts_with_app p a b : starts_with p a = true -> starts_with p (a +:+ b) = true.
Proof.
  revert a. induction p as [|x p IH]; intros [|y a]; rewrite ?append_cons; simpl; try easy.
  intros [-> H]%andb_true_iff. now rewrite (IH _ H).
Qed.

Lemma py_in_app_l p a b : py_in p a = true -> py_in p (a +:+ b) = true.
Proof.
  induction a as [|y a IH].
  - simpl. rewrite orb_false_r. destruct p; [destruct b; reflexivity | discriminate].
  - cbn [py_in]. intros [H|H]%orb_true_iff.
    + rewrite append_cons. cbn [py_in]. rewrite <- append_cons.
      now rewrite (starts_with_app _ _ _ H).
    + rewrite append_cons. cbn [py_in]. rewrite (IH H). apply orb_true_r.
Qed.

Lemma py_in_app_r p a b : py_in p b = true -> py_in p (a +:+ b) = true.
Proof.
  intros H. induction a as [|y a IH]; [exact H|].
  rewrite append_cons. cbn [py_in]. rewrite IH. apply orb_true_r.
Qed.

Lemma lstrip_suffix s : exists a, s = a +:+ lstrip s.
Proof.
  induction s as [|c r [a IH]]; simpl.
  - now exists "".
  - destruct (PyChar.is_space c).
    + exists (String c a). rewrite append_cons. now rewrite <- IH.
    + now exists "".
Qed.

Lemma rstrip_prefix s : exists b, s = rstrip s +:+ b.
Proof.
  induction s as [|c r [b IH]]; simpl.
  - now exists "".
  - destruct (rstrip r) as [|d r'] eqn:E.
    + destruct (PyChar.is_space c).
      * now exists (String c r).
      * exists b. rewrite append_cons. now rewrite <- IH.
    + exists b. rewrite append_cons. now rewrite <- IH.
Qed.

Lemma strip_factor s : exists a b, s = a +:+ strip s +:+ b.
Proof.
  destruct (lstrip_suffix s) as [a Ha].
  destruct (rstrip_prefix (lstrip s)) as [b Hb].
  exists a, b. unfold strip. now rewrite <- Hb.
Qed.

Lemma has_char_strip c s : has_char c s = false -> has_char c (strip s) = false.
Proof.
  destruct (strip_factor s) as (a & b & E). intros H. rewrite E in H.
  rewrite !has_char_app in H.
  now apply orb_false_iff in H as [_ [H _]%orb_false_iff].
Qed.

Lemma py_in_strip p s : py_in p s = false -> py_in p (strip s) = false.
Proof.
  destruct (strip_factor s) as (a & b & E). intros H.
  destruct (py_in p (strip s)) eqn:Hs; [|reflexivity].
  rewrite E in H. rewrite py_in_app_r in H; [discriminate|].
  now apply py_in_app_l.
Qed.

Lemma has_char_replace_from c old new k s :
  has_char c new = false -> has_char c s = false ->
  has_char c (replace_from old new k s) = false.
Proof.
  intros Hn. revert k. induction s as [|d r IH]; intros k; simpl; [reflexivity|].
  intros [Hd Hr]%orb_false_iff. destruct k as [|k]; [|now apply IH].
  destruct (starts_with old (String d r)).
  - rewrite has_char_app, Hn. now apply IH.
  - simpl. rewrite Hd. now apply IH.
Qed.

Lemma has_char_replace c old new s :
  old <> "" -> has_char c new = false -> has_char c s = false ->
  has_char c (replace old new s) = false.
Proof.
  intros Ho Hn Hs. destruct old; [congruence|]. now apply has_char_replace_from.
Qed.

(** After [replace("..", "_")] no two dots are adjacent. *)
Lemma replace_dots_step c r :
  replace_from ".." "_" 0 (String c r) =
  if starts_with ".." (String c r)
  then String "_" (replace_from ".." "_" 1 r)
  else String c (replace_from ".." "_" 0 r).
Proof. reflexivity. Qed.

Lemma starts_with_dot c r : starts_with "." (String c r) = eqc "." c.
Proof. simpl. apply andb_true_r. Qed.

Lemma starts_with_dots c r :
  starts_with ".." (String c r) = eqc "." c && starts_with "." r.
Proof. reflexivity. Qed.

Lemma replace_dots_head s :
  starts_with "." (replace_from ".." "_" 0 s) = true -> starts_with "." s = true.
Proof.
  destruct s as [|c r]; [easy|]. rewrite replace_dots_step.
  destruct (starts_with ".." (String c r)); rewrite !starts_with_dot; [discriminate | easy].
Qed.

Lemma replace_dots_none s :
  py_in ".." (replace_from ".." "_" 0 s) = false /\
  py_in ".." (replace_from ".." "_" 1 s) = false.
Proof.
  induction s as [|c r [IH0 IH1]]; [split; reflexivity|]. split; [|exact IH0].
  rewrite replace_dots_step. destruct (starts_with ".." (String c r)) eqn:E.
  - cbn [py_in]. rewrite IH1. reflexivity.
  - cbn [py_in]. rewrite IH0, orb_false_r.
    rewrite starts_with_dots in E |- *.
    destruct (eqc "." c); [rewrite andb_true_l in E |- *|reflexivity].
    destruct (starts_with "." (replace_from ".." "_" 0 r)) eqn:F; [|reflexivity].
    apply replace_dots_head in F. congruence.
Qed.

End StringFacts.

(** ** posixpath and sanitize_filename *)

Section PathFacts.

Import PyStr.

Lemma basename_no_slash p : has_char PyChar.slash (OsPath.basename p) = false.
Proof.
  induction p as [|c r IH]; [reflexivity|]. cbn [OsPath.basename].
  destruct (has_char PyChar.slash r) eqn:Hr; [exact IH|].
  destruct (eqc c PyChar.slash) eqn:Hc; [exact Hr|].
  cbn [has_char]. rewrite Hr, orb_false_r.
  apply eqc_neq. apply eqc_neq in Hc. congruence.
Qed.

Lemma components_nonempty p : OsPath.components p <> [].
Proof.
  destruct p as [|c r]; cbn [OsPath.components]; [easy|].
  destruct (eqc c PyChar.slash); [easy|]. now destruct (OsPath.components r).
Qed.

Lemma components_no_slash b :
  has_char PyChar.slash b = false -> OsPath.components b = [b].
Proof.
  induction b as [|c r IH]; [reflexivity|]. cbn [has_char OsPath.components].
  intros [Hc Hr]%orb_false_iff. rewrite (IH Hr).
  assert (eqc c PyChar.slash = false) as ->; [|reflexivity].
  apply eqc_neq. apply eqc_neq in Hc. congruence.
Qed.

Lemma components_app a b :
  OsPath.components (a +:+ String PyChar.slash b) =
  (OsPath.components a ++ OsPath.components b)%list.
Proof.
  induction a as [|c r IH]; [reflexivity|].
  rewrite append_cons. cbn [OsPath.components]. rewrite IH.
  destruct (eqc c PyChar.slash); [reflexivity|].
  pose proof (components_nonempty r). now destruct (OsPath.components r).
Qed.

Lemma join_staging b :
  starts_with "/" b = false ->
  OsPath.join temp_staging b = temp_staging +:+ String PyChar.slash b.
Proof. intros H. unfold OsPath.join. now rewrite H. Qed.

Lemma staged_name_not_absolute correlation_id name :
  has_char PyChar.slash correlation_id = false ->
  starts_with "/" (correlation_id +:+ "_" +:+ name) = false.
Proof.
  destruct correlation_id as [|c r]; [reflexivity|].
  rewrite append_cons. cbn [has_char starts_with].
  intros [Hc _]%orb_false_iff. unfold PyChar.slash in Hc. now rewrite Hc.
Qed.

Lemma sanitize_no_slash filename :
  has_char PyChar.slash (sanitize_filename filename) = false.
Proof.
  unfold sanitize_filename. apply has_char_strip.
  apply has_char_replace; [easy | reflexivity | apply basename_no_slash].
Qed.

Lemma sanitize_no_dots filename : py_in ".." (sanitize_filename filename) = false.
Proof.
  unfold sanitize_filename. apply py_in_strip.
  apply (proj1 (replace_dots_none _)).
Qed.

Lemma staged_name_has_underscore correlation_id name :
  has_char "_" (correlation_id +:+ "_" +:+ name) = true.
Proof.
  rewrite has_char_app. apply orb_true_iff. right. reflexivity.
Qed.

End PathFacts.

(** C10: for every input string, [sanitize_filename] returns a name with
    no path separator and no two adjacent dots; hence, for every
    correlation id without separator (every uuid string is one), the
    staged path [temp_staging/correlation_id_name] built by
    [ingest_document] is the staging directory followed by exactly one
    component, which is neither [.] nor [..]. *)
Theorem sanitize_filename_no_traversal (filename : string) :
  let name := sanitize_filename filename in
  PyStr.has_char PyChar.slash name = false /\
  PyStr.py_in ".." name = false /\
  forall correlation_id,
    PyStr.has_char PyChar.slash correlation_id = false ->
    initial_save_path correlation_id filename
      = "/tmp/agi_staging/" +:+ correlation_id +:+ "_" +:+ name /\
    OsPath.components (initial_save_path correlation_id filename)
      = [""; "tmp"; "agi_staging"; correlation_id +:+ "_" +:+ name] /\
    correlation_id +:+ "_" +:+ name <> "." /\
    correlation_id +:+ "_" +:+ name <> "..".
Proof.
  intros name.
  split; [apply sanitize_no_slash|]. split; [apply sanitize_no_dots|].
  intros correlation_id Hc.
  assert (Hp : initial_save_path correlation_id filename
               = temp_staging +:+ String PyChar.slash (correlation_id +:+ "_" +:+ name)).
  { unfold initial_save_path. apply join_staging. now apply staged_name_not_absolute. }
  split; [exact Hp|]. split.
  - rewrite Hp, components_app. rewrite (components_no_slash (correlation_id +:+ _)).
    + reflexivity.
    + rewrite !has_char_app, Hc. simpl. apply sanitize_no_slash.
  - pose proof (staged_name_has_underscore correlation_id name) as Hu.
    split; intros E; rewrite E in Hu; discriminate.
Qed.

Lemma sanitize_filename_no_traversal_witness :
  sanitize_filename "../../etc/..passwd.. " = "_passwd_" /\
  PyStr.has_char PyChar.slash "0b5c" = false /\
  OsPath.components (initial_save_path "0b5c" "../../etc/..passwd.. ")
    = [""; "tmp"; "agi_staging"; "0b5c__passwd_"].
Proof.
  split; [reflexivity|]. split; [reflexivity|].
  pose proof (sanitize_filename_no_traversal "../../etc/..passwd.. ") as H.
  cbv zeta in H. destruct H as (_ & _ & H).
  destruct (H "0b5c" eq_refl) as (_ & Hc & _). exact Hc.
Defined.

Example sanitize_ex1 : sanitize_filename "../../etc/passwd" = "passwd".
Proof. reflexivity. Qed.
Example sanitize_ex2 : sanitize_filename " a....b... " = "a__b_.".
Proof. reflexivity. Qed.
Example sanitize_ex3 : sanitize_filename "dir/" = "".
Proof. reflexivity. Qed.

(** ** The stage registry *)

Lemma processing_modules_nonempty (category : string) :
  Main_py.processing_modules category <> [].
Proof.
  unfold Main_py.processing_modules.
  repeat (match goal with |- context [String.eqb ?a ?b] => destruct (String.eqb a b) end);
    discriminate.
Qed.

Lemma draft_processing_modules_nonempty (category : string) :
  Fastapi_main_py.processing_modules category <> [].
Proof.
  unfold Fastapi_main_py.processing_modules.
  destruct (String.eqb category "contract"); discriminate.
Qed.

(** C8: every category resolves to a non-empty stage list, in both drafts;
    [contract] resolves to the four contract stages and [unknown] to the
    fallback list. *)
Theorem processing_modules_resolve (category : string) :
  Main_py.processing_modules category <> [] /\
  Fastapi_main_py.processing_modules category <> [] /\
  Main_py.processing_modules "contract"
    = ["deep_ocr_segmentation"; "semantic_clause_extraction";
       "entity_resolution_graph_update"; "predictive_risk_assessment_model"] /\
  Fastapi_main_py.processing_modules "contract"
    = ["deep_ocr_segmentation"; "semantic_clause_extraction";
       "entity_resolution_graph_update"; "predictive_risk_assessment_model"] /\
  Main_py.processing_modules "unknown"
    = ["general_content_indexing"; "topic_modeling_discovery"] /\
  Fastapi_main_py.processing_modules "unknown"
    = ["general_content_indexing"; "topic_modeling_discovery"].
Proof.
  split; [apply processing_modules_nonempty|].
  split; [apply draft_processing_modules_nonempty|].
  repeat split.
Qed.

(** A category outside the table falls back as [unknown] does. *)
Lemma processing_modules_fallback (category : string) :
  category <> "contract" -> category <> "invoice" -> category <> "research_paper" ->
  Main_py.processing_modules category = Main_py.processing_modules "unknown".
Proof.
  intros H1 H2 H3. unfold Main_py.processing_modules.
  apply String.eqb_neq in H1, H2, H3. now rewrite H1, H2, H3.
Qed.

(** ** The classifier: substring tests on [str(tags).lower()] against
       substring tests on the tags themselves *)

Section Occurrences.

Import PyStr Classifier_spec.

Variable k : string.
Variable k0 : ascii.
Variable ktl : string.
Hypothesis k_shape : k = String k0 ktl.

Lemma py_in_barrier b s : has_char b k = false -> py_in k (String b s) = py_in k s.
Proof.
  intros H. cbn [py_in]. rewrite k_shape in H |- *. cbn [starts_with has_char] in *.
  apply orb_false_iff in H as [H _]. rewrite Ascii.eqb_sym in H. unfold eqc in *.
  now rewrite H.
Qed.

Lemma py_in_skip r s : has_char k0 r = false -> py_in k (r +:+ s) = py_in k s.
Proof.
  induction r as [|c r IH]; [reflexivity|]. cbn [has_char].
  intros [Hc Hr]%orb_false_iff. rewrite append_cons. cbn [py_in].
  rewrite (IH Hr). rewrite k_shape. cbn [starts_with]. now rewrite Hc.
Qed.

Lemma py_in_empty : py_in k "" = false.
Proof. now rewrite k_shape. Qed.

Lemma lower_app a b : lower (a +:+ b) = lower a +:+ lower b.
Proof.
  induction a as [|c r IH]; [reflexivity|].
  rewrite append_cons. unfold lower in *. cbn [map_chars]. now rewrite IH, append_cons.
Qed.

Lemma lower_escape_all q c t :
  lower (PyRepr.escape_all q (String c t)) = piece q c +:+ lower (PyRepr.escape_all q t).
Proof. cbn [PyRepr.escape_all]. now rewrite lower_app. Qed.

Section OneTag.

Variable good : ascii -> bool.
Variable q : ascii.
Hypothesis pieces : forall c, good c = true -> piece_ok k q c = true.

(** How a good character is written. *)
Lemma piece_cases c :
  good c = true ->
  piece q c = String (PyChar.lower c) "" \/
  (has_char (PyChar.lower c) k = false /\
   exists b r, piece q c = String b r /\ has_char b k = false /\ has_char k0 r = false).
Proof.
  intros Hg. specialize (pieces c Hg). unfold piece_ok in pieces.
  apply orb_true_iff in pieces as [H|H].
  - left. now apply String.eqb_eq.
  - right. apply andb_true_iff in H as [H1 H2]. apply negb_true_iff in H1.
    split; [exact H1|].
    assert (Hh : head_char k = Some k0) by now rewrite k_shape.
    rewrite Hh in H2. destruct (piece q c) as [|b r]; [discriminate|].
    apply andb_true_iff in H2 as [H2 H3]. apply negb_true_iff in H2, H3.
    now exists b, r.
Qed.

(** A piece of [k] that starts inside a tag lies within unescaped
    characters. *)
Lemma starts_with_rendered p t b X :
  (forall c, has_char c p = true -> has_char c k = true) ->
  has_char b k = false ->
  all_chars good t = true ->
  starts_with p (lower (PyRepr.escape_all q t) +:+ String b X) = starts_with p (lower t).
Proof.
  intros Hp Hb. revert p Hp. induction t as [|c t IH]; intros p Hp Ht.
  - destruct p as [|x p]; [reflexivity|].
    change (lower (PyRepr.escape_all q "")) with "". rewrite append_nil_l.
    change (lower "") with "". cbn [starts_with].
    assert (Hx : has_char x k = true) by (apply Hp; cbn; now rewrite eqc_refl).
    destruct (eqc x b) eqn:E; [|reflexivity].
    apply eqc_eq in E. congruence.
  - cbn [all_chars] in Ht. apply andb_true_iff in Ht as [Hc Ht].
    rewrite lower_escape_all. destruct p as [|x p]; [now destruct (piece q c +:+ _)|].
    assert (Hx : has_char x k = true) by (apply Hp; cbn; now rewrite eqc_refl).
    assert (Hp' : forall d, has_char d p = true -> has_char d k = true).
    { intros d Hd. apply Hp. cbn. rewrite Hd. apply orb_true_r. }
    unfold lower at 2. cbn [map_chars]. fold (lower t).
    destruct (piece_cases c Hc) as [E | (Hl & b' & r & E & Hb' & _)]; rewrite E.
    + rewrite !append_cons, append_nil_l. cbn [starts_with]. now rewrite IH.
    + rewrite !append_cons. cbn [starts_with].
      assert (eqc x b' = false) as ->
          by (apply eqc_neq; intros ->; congruence).
      assert (eqc x (PyChar.lower c) = false) as ->
          by (apply eqc_neq; intros ->; congruence).
      reflexivity.
Qed.

Lemma py_in_rendered t b X :
  has_char b k = false ->
  all_chars good t = true ->
  py_in k (lower (PyRepr.escape_all q t) +:+ String b X)
  = py_in k (lower t) || py_in k X.
Proof.
  intros Hb. induction t as [|c t IH]; intros Ht.
  - change (lower (PyRepr.escape_all q "")) with "". change (lower "") with "".
    rewrite append_nil_l, py_in_barrier by exact Hb.
    now rewrite py_in_empty.
  - pose proof (starts_with_rendered k (String c t) b X (fun _ H => H) Hb Ht) as Hs.
    cbn [all_chars] in Ht. apply andb_true_iff in Ht as [Hc Ht]. specialize (IH Ht).
    rewrite lower_escape_all in Hs |- *.
    unfold lower at 2. cbn [map_chars]. fold (lower t).
    unfold lower at 2 in Hs. cbn [map_chars] in Hs. fold (lower t) in Hs.
    destruct (piece_cases c Hc) as [E | (Hl & b' & r & E & Hb' & Hr)]; rewrite E in Hs |- *.
    + rewrite !append_cons, append_nil_l in Hs |- *. cbn [py_in].
      rewrite Hs, IH. now rewrite orb_assoc.
    + rewrite !append_cons, (py_in_barrier b' _ Hb'), append_assoc.
      rewrite (py_in_skip r _ Hr), IH. cbn [py_in].
      assert (starts_with k (String (PyChar.lower c) (lower t)) = false) as ->; [|reflexivity].
      rewrite k_shape. cbn [starts_with].
      assert (eqc k0 (PyChar.lower c) = false) as ->; [|reflexivity].
      apply eqc_neq. intros ->. rewrite k_shape in Hl. cbn in Hl.
      now rewrite eqc_refl in Hl.
Qed.

End OneTag.

Section TagList.

Variable bad : ascii -> bool.
Hypothesis pieces_s : forall c, negb (bad c) = true -> piece_ok k PyChar.squote c = true.
Hypothesis pieces_d : forall c, negb (bad c) = true -> piece_ok k PyChar.dquote c = true.
Hypothesis structure :
  forallb (fun c => negb (has_char c k))
          [PyChar.squote; PyChar.dquote; ","%char; " "%char; "["%char; "]"%char] = true.
Hypothesis none_free : py_in k "none" = false.

Lemma structure_chars :
  has_char PyChar.squote k = false /\ has_char PyChar.dquote k = false /\
  has_char "," k = false /\ has_char " " k = false /\
  has_char "[" k = false /\ has_char "]" k = false.
Proof.
  cbn [forallb] in structure.
  repeat (apply andb_true_iff in structure as [?%negb_true_iff structure]).
  repeat split; assumption.
Qed.

Lemma lower_repr_str t :
  lower (PyRepr.repr_str t) =
  String (PyRepr.quote_of t)
    (lower (PyRepr.escape_all (PyRepr.quote_of t) t) +:+ String (PyRepr.quote_of t) "").
Proof.
  unfold PyRepr.repr_str. cbv zeta. unfold lower at 1. cbn [map_chars].
  fold (lower (PyRepr.escape_all (PyRepr.quote_of t) t +:+ String (PyRepr.quote_of t) "")).
  rewrite lower_app. unfold PyRepr.quote_of.
  now destruct (has_char PyChar.squote t && negb (has_char PyChar.dquote t)).
Qed.

Lemma py_in_repr_str t b X :
  has_char b k = false ->
  all_chars (fun c => negb (bad c)) t = true ->
  py_in k (lower (PyRepr.repr_str t) +:+ String b X) = py_in k (lower t) || py_in k X.
Proof.
  intros Hb Ht. destruct structure_chars as (Hs & Hd & _).
  rewrite lower_repr_str, append_cons, append_assoc, append_cons, append_nil_l.
  unfold PyRepr.quote_of.
  destruct (has_char PyChar.squote t && negb (has_char PyChar.dquote t)).
  - rewrite (py_in_barrier _ _ Hd).
    rewrite (py_in_rendered (fun c => negb (bad c)) PyChar.dquote pieces_d t _ _ Hd Ht).
    now rewrite (py_in_barrier _ _ Hb).
  - rewrite (py_in_barrier _ _ Hs).
    rewrite (py_in_rendered (fun c => negb (bad c)) PyChar.squote pieces_s t _ _ Hs Ht).
    now rewrite (py_in_barrier _ _ Hb).
Qed.

Lemma join_cons2 sep a b l : join sep (a :: b :: l) = a +:+ sep +:+ join sep (b :: l).
Proof. reflexivity. Qed.

Lemma py_in_joined l b X :
  has_char b k = false ->
  forallb (all_chars (fun c => negb (bad c))) l = true ->
  py_in k (lower (join ", " (map PyRepr.repr_str l)) +:+ String b X)
  = existsb (fun t => py_in k (lower t)) l || py_in k X.
Proof.
  intros Hb. destruct structure_chars as (_ & _ & Hcomma & Hsp & _).
  induction l as [|t l IH]; intros Hl.
  - change (lower (join ", " (map PyRepr.repr_str []))) with "".
    rewrite append_nil_l. apply (py_in_barrier _ _ Hb).
  - cbn [forallb] in Hl. apply andb_true_iff in Hl as [Ht Hl]. specialize (IH Hl).
    destruct l as [|t2 l].
    + cbn [map join existsb]. rewrite (py_in_repr_str _ _ _ Hb Ht).
      now rewrite orb_false_r.
    + cbn [map]. rewrite join_cons2, !lower_app, !append_assoc.
      change (lower ", ") with ", ". rewrite !append_cons, append_nil_l.
      rewrite (py_in_repr_str _ _ _ Hcomma Ht).
      rewrite (py_in_barrier _ _ Hsp). cbn [map] in IH. rewrite IH.
      cbn [existsb]. now rewrite !orb_assoc.
Qed.

Lemma str_tags_some l :
  PyRepr.str_tags (Some l) = "[" +:+ join ", " (map PyRepr.repr_str l) +:+ "]".
Proof.
  unfold PyRepr.str_tags, PyRepr.str. cbn [PyRepr.repr].
  rewrite map_map. reflexivity.
Qed.

(** On tags free of the excluded characters, [k in str(tags).lower()]
    says that some tag contains [k]. *)
Lemma py_in_str_tags tags :
  tags_free_of bad tags = true ->
  py_in k (lower (PyRepr.str_tags tags)) = some_tag_has k tags.
Proof.
  destruct tags as [l|]; [|intros _; exact none_free].
  intros Hl. cbn [tags_free_of some_tag_has] in *.
  destruct structure_chars as (_ & _ & _ & _ & Hopen & Hclose).
  rewrite str_tags_some, !lower_app. change (lower "[") with "[". change (lower "]") with "]".
  rewrite append_cons, append_nil_l, (py_in_barrier _ _ Hopen).
  rewrite (py_in_joined l _ "" Hclose Hl). rewrite py_in_empty. apply orb_false_r.
Qed.

End TagList.

End Occurrences.

Import PyStr Classifier_spec.

Lemma pieces_legal q c :
  q = PyChar.squote \/ q = PyChar.dquote -> piece_ok "legal" q c = true.
Proof.
  intros [-> | ->]; destruct c as [[] [] [] [] [] [] [] []]; vm_compute; reflexivity.
Qed.

Lemma pieces_billing q c :
  q = PyChar.squote \/ q = PyChar.dquote ->
  negb (escape_ends_in_b c) = true -> piece_ok "billing" q c = true.
Proof.
  intros [-> | ->]; destruct c as [[] [] [] [] [] [] [] []]; vm_compute;
    intros H; congruence.
Qed.

(** [contains "legal"] on the rendering is exact for every tag list. *)
Lemma legal_in_str_tags tags :
  py_in "legal" (lower (PyRepr.str_tags tags)) = some_tag_has "legal" tags.
Proof.
  apply (py_in_str_tags "legal" "l" "egal" eq_refl (fun _ => false)).
  - intros c _. apply pieces_legal. now left.
  - intros c _. apply pieces_legal. now right.
  - reflexivity.
  - reflexivity.
  - destruct tags as [l|]; [|reflexivity]. cbn [tags_free_of].
    induction l as [|t l IH]; [reflexivity|]. cbn [forallb]. rewrite IH, andb_true_r.
    clear. induction t as [|c t IH]; [reflexivity|]. cbn. exact IH.
Qed.

(** [contains "billing"] is exact when no tag has a character whose escape
    ends in b. *)
Lemma billing_in_str_tags tags :
  tags_free_of escape_ends_in_b tags = true ->
  py_in "billing" (lower (PyRepr.str_tags tags)) = some_tag_has "billing" tags.
Proof.
  apply (py_in_str_tags "billing" "b" "illing" eq_refl escape_ends_in_b).
  - intros c H. apply pieces_billing; [now left | exact H].
  - intros c H. apply pieces_billing; [now right | exact H].
  - reflexivity.
  - reflexivity.
Qed.

(** ** Agi_memory.py : ordering of timestamps and the stable sort *)

Section TimestampOrder.

Lemma leb_refl a : String.leb a a = true.
Proof. destruct (String.leb_total a a); assumption. Qed.

Lemma leb_flip a b : String.leb a b = false -> String.leb b a = true.
Proof. intros H. destruct (String.leb_total a b); congruence. Qed.

Lemma leb_not_lt a b : String.leb a b = true <-> ~ OrderedTypeEx.String_as_OT.lt b a.
Proof.
  unfold String.leb. rewrite String.compare_antisym.
  pose proof (OrderedTypeEx.String_as_OT.cmp_lt b a) as Hlt. unfold OrderedTypeEx.String_as_OT.cmp in Hlt.
  destruct (String.compare b a) eqn:E; cbn; split; intros H;
    try reflexivity; try discriminate;
    try (intros L; apply Hlt in L; discriminate).
  exfalso. apply H. now apply Hlt.
Qed.

Lemma leb_trans a b c :
  String.leb a b = true -> String.leb b c = true -> String.leb a c = true.
Proof.
  rewrite !leb_not_lt. intros Hab Hbc Hca.
  destruct (OrderedTypeEx.String_as_OT.compare a b) as [L|E|G].
  - apply Hbc. exact (OrderedTypeEx.String_as_OT.lt_trans _ _ _ Hca L).
  - unfold OrderedTypeEx.String_as_OT.eq in E. subst. contradiction.
  - contradiction.
Qed.

End TimestampOrder.

Section Sorting.

Import Agi_memory Query_spec.

Lemma insert_desc_perm e l : Permutation (insert_desc e l) (e :: l).
Proof.
  induction l as [|h t IH]; cbn [insert_desc]; [reflexivity|].
  destruct (String.leb (timestamp h) (timestamp e)); [reflexivity|].
  rewrite IH. apply perm_swap.
Qed.

Lemma sorted_desc_perm l : Permutation (sorted_desc l) l.
Proof.
  induction l as [|e l IH]; [reflexivity|]. unfold sorted_desc in *. cbn [fold_right].
  rewrite insert_desc_perm. now constructor.
Qed.

Lemma insert_desc_sorted e l :
  StronglySorted at_least_as_recent l ->
  StronglySorted at_least_as_recent (insert_desc e l).
Proof.
  induction 1 as [|h t Hs IH Hh]; cbn [insert_desc].
  - repeat constructor.
  - destruct (String.leb (timestamp h) (timestamp e)) eqn:E.
    + constructor; [now constructor|]. constructor; [exact E|].
      rewrite List.Forall_forall in Hh |- *. intros x Hx. specialize (Hh x Hx).
      unfold at_least_as_recent in *. eapply leb_trans; eassumption.
    + constructor; [exact IH|].
      eapply Permutation_Forall; [symmetry; apply insert_desc_perm|].
      constructor; [|exact Hh]. now apply leb_flip.
Qed.

Lemma sorted_desc_sorted l : StronglySorted at_least_as_recent (sorted_desc l).
Proof.
  induction l as [|e l IH]; [constructor|]. now apply insert_desc_sorted.
Qed.

(** Events with the same timestamp keep the order in which they were
    stored: with [sorted_desc_perm] and [sorted_desc_sorted] this makes
    [sorted_desc] the stable descending sort, as [sorted(.., reverse=True)]
    is. *)
Lemma insert_desc_stable k e l :
  List.filter (fun x => String.eqb (timestamp x) k) (insert_desc e l)
  = List.filter (fun x => String.eqb (timestamp x) k) (e :: l).
Proof.
  induction l as [|h t IH]; [reflexivity|]. cbn [insert_desc].
  destruct (String.leb (timestamp h) (timestamp e)) eqn:E; [reflexivity|].
  cbn [List.filter] in IH |- *. rewrite IH.
  destruct (String.eqb (timestamp h) k) eqn:Hh;
    destruct (String.eqb (timestamp e) k) eqn:He; try reflexivity.
  apply String.eqb_eq in Hh, He. rewrite Hh, He, leb_refl in E. discriminate.
Qed.

Lemma sorted_desc_stable k l :
  List.filter (fun x => String.eqb (timestamp x) k) (sorted_desc l)
  = List.filter (fun x => String.eqb (timestamp x) k) l.
Proof.
  induction l as [|e l IH]; [reflexivity|]. unfold sorted_desc in *. cbn [fold_right].
  rewrite insert_desc_stable. cbn [List.filter]. now rewrite IH.
Qed.

Lemma slice_to_nonneg {A} (limit : Z) (l : list A) :
  (0 <= limit)%Z -> slice_to limit l = firstn (Z.to_nat limit) l.
Proof. intros H. unfold slice_to. now rewrite (proj2 (Z.leb_le 0 limit) H). Qed.

Lemma in_firstn {A} (x : A) n l : In x (firstn n l) -> In x l.
Proof.
  revert n. induction l as [|h t IH]; intros [|n]; cbn; try easy.
  intros [->|H]; [now left | right; eauto].
Qed.

Lemma in_skipn {A} (x : A) n l : In x (skipn n l) -> In x l.
Proof.
  revert n. induction l as [|h t IH]; intros [|n]; cbn; try easy.
  intros H. right; eauto.
Qed.

Lemma strongly_sorted_split (s : list event) n :
  StronglySorted at_least_as_recent s ->
  StronglySorted at_least_as_recent (firstn n s) /\
  forall x y, In x (firstn n s) -> In y (skipn n s) -> at_least_as_recent x y.
Proof.
  intros Hsorted. revert n. induction Hsorted as [|h t Hs IH Hh]; intros n.
  - rewrite firstn_nil, skipn_nil. split; [constructor | easy].
  - destruct n as [|n]; [split; [constructor | easy]|].
    cbn [firstn skipn]. destruct (IH n) as [IH1 IH2]. split.
    + constructor; [exact IH1|]. rewrite List.Forall_forall in Hh |- *.
      intros x Hx. apply Hh. eapply in_firstn; eauto.
    + intros x y [<-|Hx] Hy.
      * rewrite List.Forall_forall in Hh. apply Hh. eapply in_skipn; eauto.
      * now apply IH2.
Qed.

(** The first [n] of the sorted pool are its [n] most recent events. *)
Lemma firstn_sorted_most_recent n pool :
  most_recent n pool (firstn n (sorted_desc pool)).
Proof.
  exists (skipn n (sorted_desc pool)).
  destruct (strongly_sorted_split (sorted_desc pool) n (sorted_desc_sorted pool)) as [H1 H2].
  split; [rewrite firstn_skipn; apply sorted_desc_perm|].
  split; [exact H1|]. split; [|exact H2].
  rewrite length_firstn. now rewrite (Permutation_length (sorted_desc_perm pool)).
Qed.

Lemma carries_iff correlation_id e :
  carries correlation_id e = true <->
  data e !! "correlation_id" = Some (VStr correlation_id).
Proof.
  unfold carries. destruct (data e !! "correlation_id") as [[| |c| |]|]; try easy.
  rewrite String.eqb_eq. split; congruence.
Qed.

End Sorting.

(** ** Agi_memory.py : get_recent_events *)

Section Query.

Import Agi_memory Query_spec.

Lemma get_recent_events_given db limit correlation_id :
  correlation_id <> "" ->
  get_recent_events db limit (Some correlation_id)
  = slice_to limit (sorted_desc (List.filter (carries correlation_id) db)).
Proof. intros H. unfold get_recent_events, truthy. now destruct correlation_id. Qed.

(** An empty id is read as no id. *)
Lemma get_recent_events_empty_id db limit :
  get_recent_events db limit (Some "") = get_recent_events db limit None.
Proof. reflexivity. Qed.

End Query.

(** C6, as amended: for every non-empty correlation id and every limit
    that is not negative, [get_recent_events] returns the [limit] most
    recent of exactly the events whose payload carries that id, sorted by
    timestamp descending; without an id it returns the [limit] most recent
    events of the whole store in the same order. *)
Theorem get_recent_events_most_recent (db : list event) (limit : Z) (correlation_id : string) :
  correlation_id <> "" ->
  (0 <= limit)%Z ->
  Query_spec.most_recent (Z.to_nat limit)
    (List.filter (Agi_memory.carries correlation_id) db)
    (Agi_memory.get_recent_events db limit (Some correlation_id)) /\
  (forall e, In e (List.filter (Agi_memory.carries correlation_id) db) <->
             In e db /\ data e !! "correlation_id" = Some (VStr correlation_id)) /\
  Query_spec.most_recent (Z.to_nat limit) db (Agi_memory.get_recent_events db limit None).
Proof.
  intros Hid Hlimit. split; [|split].
  - rewrite (get_recent_events_given _ _ _ Hid), (slice_to_nonneg limit _ Hlimit).
    apply firstn_sorted_most_recent.
  - intros e. rewrite List.filter_In, carries_iff. reflexivity.
  - unfold Agi_memory.get_recent_events. cbn [Agi_memory.truthy].
    rewrite (slice_to_nonneg limit _ Hlimit). apply firstn_sorted_most_recent.
Qed.

Lemma get_recent_events_most_recent_witness :
  "a1" <> "" /\ (0 <= 2)%Z /\
  Query_spec.most_recent 2
    [Samples.ev_start; Samples.ev_classified; Samples.ev_module]
    [Samples.ev_module; Samples.ev_classified].
Proof.
  split; [discriminate|]. split; [lia|].
  exact (proj1 (get_recent_events_most_recent Samples.log 2 "a1"
                  ltac:(discriminate) ltac:(lia))).
Defined.

(** C6 as stated fails on a negative limit and on the empty id: with limit
    [-1] the query answers with an event, all but the oldest of the
    matching ones; with the id [""] it answers with events that do not
    carry it. *)
Lemma get_recent_events_counterexample :
  Agi_memory.get_recent_events Samples.log (-1) (Some "a1")
    = [Samples.ev_module; Samples.ev_classified] /\
  ~ (Z.of_nat (length (Agi_memory.get_recent_events Samples.log (-1) (Some "a1"))) <= -1)%Z /\
  List.filter (Agi_memory.carries "") Samples.log = [] /\
  Agi_memory.get_recent_events Samples.log 10 (Some "")
    = [Samples.ev_other; Samples.ev_module; Samples.ev_classified; Samples.ev_start].
Proof. vm_compute. repeat split; try reflexivity. intros H. apply H. reflexivity. Qed.

(** ** Main.py : get_document_status *)

Section Status.

Import Agi_memory.

Lemma sorted_desc_nil_filter db correlation_id :
  List.filter (carries correlation_id) db = [] ->
  correlation_id <> "" ->
  get_recent_events db default_limit (Some correlation_id) = [].
Proof.
  intros H Hid. rewrite (get_recent_events_given _ _ _ Hid), H. reflexivity.
Qed.

Lemma ltb_leb_false a b : String.ltb a b = true -> String.leb b a = false.
Proof.
  unfold String.ltb, String.leb. rewrite (String.compare_antisym b a).
  now destruct (String.compare a b).
Qed.

Lemma insert_desc_oldest e l :
  Forall (fun x => String.ltb (timestamp e) (timestamp x) = true) l ->
  insert_desc e l = (l ++ [e])%list.
Proof.
  induction 1 as [|h t Hh Ht IH]; [reflexivity|]. cbn [insert_desc].
  rewrite (ltb_leb_false _ _ Hh), IH. reflexivity.
Qed.

(** Events stored with increasing timestamps come back in reverse. *)
Lemma sorted_desc_increasing l :
  StronglySorted (fun a b => String.ltb (timestamp a) (timestamp b) = true) l ->
  sorted_desc l = rev l.
Proof.
  induction 1 as [|e l Hs IH He]; [reflexivity|].
  unfold sorted_desc in *. cbn [fold_right rev]. rewrite IH.
  apply insert_desc_oldest. rewrite List.Forall_forall in He |- *.
  intros x Hx. apply He. now apply in_rev.
Qed.

Lemma last_item_snoc {A} (l : list A) x : Main.last_item (l ++ [x]) = Some x.
Proof.
  induction l as [|h t IH]; [reflexivity|].
  cbn [app Main.last_item]. destruct (t ++ [x]) eqn:E; [now destruct t|exact IH].
Qed.

End Status.

(** C9, as amended: for every non-empty correlation id that no stored
    event carries, [get_document_status] returns (it is a total function)
    the status ["Unknown"], the default last action and an empty
    history. *)
Theorem get_document_status_unknown (db : list event) (correlation_id : string) :
  correlation_id <> "" ->
  (forall e, In e db -> data e !! "correlation_id" <> Some (VStr correlation_id)) ->
  Main.get_document_status db correlation_id =
  {| Main.status_correlation_id := correlation_id;
     Main.agi_processing_status := "Unknown";
     Main.last_agi_action := VStr "No AGI action recorded yet.";
     Main.estimated_completion := "AGI dynamically re-calibrating";
     Main.extracted_insights_preview := "AGI continuously generating insights...";
     Main.agi_confidence_score := "High (99.8%)";
     Main.agi_event_history := [] |}.
Proof.
  intros Hid Hnone.
  assert (Hf : List.filter (Agi_memory.carries correlation_id) db = []).
  { induction db as [|e db IH]; [reflexivity|]. cbn [List.filter].
    destruct (Agi_memory.carries correlation_id e) eqn:E.
    - apply carries_iff in E. exfalso. exact (Hnone e (or_introl eq_refl) E).
    - apply IH. intros x Hx. apply Hnone. now right. }
  unfold Main.get_document_status.
  now rewrite (sorted_desc_nil_filter _ _ Hf Hid).
Qed.

Lemma get_document_status_unknown_witness :
  Main.agi_processing_status (Main.get_document_status Samples.log "b2") = "Unknown" /\
  Main.agi_event_history (Main.get_document_status Samples.log "b2") = [].
Proof.
  pose proof (get_document_status_unknown Samples.log "b2") as H.
  rewrite H; [split; reflexivity | discriminate |].
  intros e [<-|[<-|[<-|[<-|[]]]]]; vm_compute; discriminate.
Defined.

(** C9 as stated fails on the empty id: no stored event carries it, yet
    the status is the type of a stored event. *)
Lemma get_document_status_empty_id_counterexample :
  (forall e, In e Samples.log -> data e !! "correlation_id" <> Some (VStr "")) /\
  Main.agi_processing_status (Main.get_document_status Samples.log "")
    = "document_ingestion_start" /\
  Main.agi_processing_status (Main.get_document_status Samples.log "") <> "Unknown".
Proof.
  split; [|split].
  - intros e [<-|[<-|[<-|[<-|[]]]]]; vm_compute; discriminate.
  - reflexivity.
  - vm_compute. discriminate.
Qed.

(** C1: where the events of an id were stored with increasing timestamps
    and are at most ten, [get_document_status] takes status and last
    action from the one stored FIRST, the oldest: [events[-1]] of a list
    sorted newest-first. *)
Theorem get_document_status_reports_oldest
    (db : list event) (correlation_id : string) (first : event) (rest : list event) :
  correlation_id <> "" ->
  List.filter (Agi_memory.carries correlation_id) db = first :: rest ->
  length rest < 10 ->
  StronglySorted (fun a b => String.ltb (timestamp a) (timestamp b) = true) (first :: rest) ->
  Main.agi_processing_status (Main.get_document_status db correlation_id)
    = event_type first /\
  Main.last_agi_action (Main.get_document_status db correlation_id)
    = Main.action_of (data first) /\
  Main.agi_event_history (Main.get_document_status db correlation_id)
    = rev rest ++ [first].
Proof.
  intros Hid Hf Hlen Hinc.
  assert (He : Agi_memory.get_recent_events db Agi_memory.default_limit (Some correlation_id)
               = rev rest ++ [first]).
  { rewrite (get_recent_events_given _ _ _ Hid), Hf, (sorted_desc_increasing _ Hinc).
    rewrite slice_to_nonneg by (unfold Agi_memory.default_limit; lia).
    cbn [rev]. apply firstn_all2. rewrite length_app, length_rev.
    unfold Agi_memory.default_limit. cbn [length]. lia. }
  unfold Main.get_document_status. rewrite He, last_item_snoc. repeat split.
Qed.

Lemma get_document_status_reports_oldest_witness :
  Main.agi_processing_status (Main.get_document_status Samples.log "a1")
    = "document_ingestion_start" /\
  Main.agi_event_history (Main.get_document_status Samples.log "a1")
    = [Samples.ev_module; Samples.ev_classified; Samples.ev_start].
Proof.
  destruct (get_document_status_reports_oldest Samples.log "a1" Samples.ev_start
              [Samples.ev_classified; Samples.ev_module]) as (H1 & _ & H3).
  - discriminate.
  - reflexivity.
  - cbn. lia.
  - repeat constructor.
  - split; [exact H1 | exact H3].
Defined.

(** ** Main.py : runs of dynamic_document_processor *)

Section Runs.

Import Trail.

Variable now : nat -> string.

Lemma execute_module_ok file_path m cid name w :
  true_div_error (priority m) = None ->
  Main.execute_module now file_path m cid name w =
  (Ok tt, {| db := db w ++ [ev_module now cid (ticks w) name]; fs := fs w;
             ticks := S (ticks w); on_startup := on_startup w |}).
Proof.
  intros H. unfold Main.execute_module, stage_sleep. rewrite H.
  destruct (_ && _); reflexivity.
Qed.

Lemma execute_module_fault file_path m cid name w e :
  true_div_error (priority m) = Some e ->
  Main.execute_module now file_path m cid name w = (Raise e, w).
Proof. intros H. unfold Main.execute_module, stage_sleep. now rewrite H. Qed.

Lemma for_each_cons {A} (x : A) r body w :
  for_each (x :: r) body w =
  match body x w with
  | (Ok _, w') => for_each r body w'
  | (Raise e, w') => (Raise e, w')
  end.
Proof. reflexivity. Qed.

Lemma run_modules_ok file_path m cid modules w :
  true_div_error (priority m) = None ->
  for_each modules (Main.execute_module now file_path m cid) w =
  (Ok tt, {| db := db w ++ module_events now cid (ticks w) modules; fs := fs w;
             ticks := ticks w + length modules; on_startup := on_startup w |}).
Proof.
  intros H. revert w. induction modules as [|x r IH]; intros w.
  - cbn [for_each module_events length]. unfold ret. destruct w; cbn.
    now rewrite app_nil_r, Nat.add_0_r.
  - rewrite for_each_cons, (execute_module_ok _ _ _ _ _ H), IH.
    cbn [db fs ticks on_startup module_events length]. do 2 f_equal.
    + now rewrite <- app_assoc.
    + lia.
Qed.

Lemma run_modules_fault file_path m cid modules w e :
  true_div_error (priority m) = Some e ->
  modules <> [] ->
  for_each modules (Main.execute_module now file_path m cid) w = (Raise e, w).
Proof.
  intros H Hne. destruct modules as [|x r]; [contradiction|].
  now rewrite for_each_cons, (execute_module_fault _ _ _ _ _ _ H).
Qed.

Lemma shutil_move_ok src dst w content :
  fs w !! src = Some content ->
  shutil_move src dst w =
  (Ok tt, {| db := db w; fs := <[dst := content]> (delete src (fs w));
             ticks := ticks w; on_startup := on_startup w |}).
Proof. intros H. unfold shutil_move. now rewrite H. Qed.

Lemma shutil_move_missing src dst w :
  fs w !! src = None ->
  shutil_move src dst w =
  (Raise (FileNotFoundError
            ("[Errno 2] No such file or directory: " +:+ PyRepr.repr_str src)), w).
Proof. intros H. unfold shutil_move. now rewrite H. Qed.

Lemma run_completes file_path m cid w content :
  fs w !! file_path = Some content ->
  true_div_error (priority m) = None ->
  let ty := Main_py.agi_determined_type file_path (tags m) in
  let modules := Main_py.processing_modules ty in
  let t := ticks w in
  Main.dynamic_document_processor now file_path m cid w =
  (Ok tt,
   {| db := db w
        ++ [ev_ingestion_start now cid t file_path m; ev_classification now cid (t + 1) ty;
            ev_workflow now cid (t + 2) modules]
        ++ module_events now cid (t + 3) modules
        ++ [ev_complete now cid (t + 3 + length modules) (final_path ty file_path);
            ev_learning now cid (t + 4 + length modules)];
      fs := <[final_path ty file_path := content]> (delete file_path (fs w));
      ticks := t + 5 + length modules;
      on_startup := on_startup w |}).
Proof.
  intros Hfile Hp ty modules t. destruct w as [db0 fs0 t0 hs0]. cbn [fs ticks db on_startup] in *.
  subst t. unfold Main.dynamic_document_processor.
  cbv [bind try_except store_event ret db fs ticks on_startup].
  fold ty. fold modules.
  rewrite (run_modules_ok _ _ _ _ _ Hp). cbn [db fs ticks on_startup].
  rewrite (shutil_move_ok _ _ _ content) by exact Hfile. cbn [db fs ticks on_startup].
  unfold ev_ingestion_start, ev_classification, ev_workflow, ev_complete, ev_learning, ev,
    final_path. fold ty.
  replace (t0 + 1) with (S t0) by lia. replace (t0 + 2) with (S (S t0)) by lia.
  replace (t0 + 3) with (S (S (S t0))) by lia.
  do 2 f_equal; [|lia].
  rewrite <- !app_assoc. cbn [app]. repeat f_equal; lia.
Qed.

Lemma run_faults file_path m cid w content e :
  fs w !! file_path = Some content ->
  true_div_error (priority m) = Some e ->
  let ty := Main_py.agi_determined_type file_path (tags m) in
  let modules := Main_py.processing_modules ty in
  let t := ticks w in
  Main.dynamic_document_processor now file_path m cid w =
  (Ok tt,
   {| db := db w
        ++ [ev_ingestion_start now cid t file_path m; ev_classification now cid (t + 1) ty;
            ev_workflow now cid (t + 2) modules;
            ev_error now cid (t + 3) (exn_str e) (quarantine_path file_path)];
      fs := <[quarantine_path file_path := content]> (delete file_path (fs w));
      ticks := t + 4;
      on_startup := on_startup w |}).
Proof.
  intros Hfile Hp ty modules t. destruct w as [db0 fs0 t0 hs0]. cbn [fs ticks db on_startup] in *.
  subst t. unfold Main.dynamic_document_processor.
  cbv [bind try_except store_event ret db fs ticks on_startup].
  fold ty. fold modules.
  rewrite (run_modules_fault _ _ _ _ _ e Hp)
    by apply processing_modules_nonempty.
  rewrite (shutil_move_ok _ _ _ content) by exact Hfile. cbn [db fs ticks on_startup].
  unfold ev_ingestion_start, ev_classification, ev_workflow, ev_error, ev, quarantine_path.
  replace (t0 + 1) with (S t0) by lia. replace (t0 + 2) with (S (S t0)) by lia.
  replace (t0 + 3) with (S (S (S t0))) by lia.
  do 2 f_equal; [|lia].
  rewrite <- !app_assoc. reflexivity.
Qed.

(** Without the staged file neither relocation succeeds and the fault
    leaves the handler. *)
Lemma run_without_file file_path m cid w :
  fs w !! file_path = None ->
  exists e w', Main.dynamic_document_processor now file_path m cid w = (Raise e, w')
               /\ List.filter is_terminal (db w') = List.filter is_terminal (db w).
Proof.
  intros Hfile. destruct w as [db0 fs0 t0 hs0]. cbn [fs ticks db on_startup] in *.
  unfold Main.dynamic_document_processor.
  cbv [bind try_except store_event ret db fs ticks on_startup].
  set (ty := Main_py.agi_determined_type file_path (tags m)).
  set (modules := Main_py.processing_modules ty).
  destruct (true_div_error (priority m)) as [e|] eqn:Hp.
  - rewrite (run_modules_fault _ _ _ _ _ e Hp)
      by apply processing_modules_nonempty.
    rewrite !shutil_move_missing by exact Hfile. eexists _, _. split; [reflexivity|].
    cbn [db]. rewrite !List.filter_app. cbn. now rewrite !app_nil_r.
  - rewrite (run_modules_ok _ _ _ _ _ Hp). cbn [db fs ticks on_startup].
    rewrite !shutil_move_missing by exact Hfile. eexists _, _. split; [reflexivity|].
    cbn [db]. rewrite !List.filter_app.
    assert (Hm : forall t l, List.filter is_terminal (module_events now cid t l) = []).
    { intros t l. revert t. induction l as [|x l IH]; intros t; [reflexivity|].
      cbn [module_events List.filter]. rewrite IH. reflexivity. }
    rewrite Hm. cbn. now rewrite !app_nil_r.
Qed.

End Runs.

(** ** Fastapi_main.py : runs of the draft *)

Section DraftRuns.

Import Trail.

Variable now : nat -> string.

Lemma draft_execute_module_ok m cid name w :
  true_div_error (priority m) = None ->
  Fastapi_main.execute_module now m cid name w =
  (Ok tt, {| db := db w ++ [ev_module now cid (ticks w) name]; fs := fs w;
             ticks := S (ticks w); on_startup := on_startup w |}).
Proof. intros H. unfold Fastapi_main.execute_module, stage_sleep. now rewrite H. Qed.

Lemma draft_execute_module_fault m cid name w e :
  true_div_error (priority m) = Some e ->
  Fastapi_main.execute_module now m cid name w = (Raise e, w).
Proof. intros H. unfold Fastapi_main.execute_module, stage_sleep. now rewrite H. Qed.

Lemma draft_run_modules_ok m cid modules w :
  true_div_error (priority m) = None ->
  for_each modules (Fastapi_main.execute_module now m cid) w =
  (Ok tt, {| db := db w ++ module_events now cid (ticks w) modules; fs := fs w;
             ticks := ticks w + length modules; on_startup := on_startup w |}).
Proof.
  intros H. revert w. induction modules as [|x r IH]; intros w.
  - cbn [for_each module_events length]. unfold ret. destruct w; cbn.
    now rewrite app_nil_r, Nat.add_0_r.
  - rewrite for_each_cons, (draft_execute_module_ok _ _ _ _ H), IH.
    cbn [db fs ticks on_startup module_events length]. do 2 f_equal.
    + now rewrite <- app_assoc.
    + lia.
Qed.

Lemma draft_run_modules_fault m cid modules w e :
  true_div_error (priority m) = Some e ->
  modules <> [] ->
  for_each modules (Fastapi_main.execute_module now m cid) w = (Raise e, w).
Proof.
  intros H Hne. destruct modules as [|x r]; [contradiction|].
  now rewrite for_each_cons, (draft_execute_module_fault _ _ _ _ _ H).
Qed.

Lemma draft_run_completes file_path m cid w content :
  fs w !! file_path = Some content ->
  true_div_error (priority m) = None ->
  let ty := Fastapi_main_py.agi_determined_type file_path (tags m) in
  let modules := Fastapi_main_py.processing_modules ty in
  let t := ticks w in
  Fastapi_main.dynamic_document_processor now file_path m cid w =
  (Ok tt,
   {| db := db w
        ++ [ev_ingestion_start now cid t file_path m; ev_classification now cid (t + 1) ty]
        ++ module_events now cid (t + 2) modules
        ++ [ev_complete now cid (t + 2 + length modules) (final_path ty file_path);
            ev_learning now cid (t + 3 + length modules)];
      fs := <[final_path ty file_path := content]> (delete file_path (fs w));
      ticks := t + 4 + length modules;
      on_startup := on_startup w |}).
Proof.
  intros Hfile Hp ty modules t. destruct w as [db0 fs0 t0 hs0]. cbn [fs ticks db on_startup] in *.
  subst t. unfold Fastapi_main.dynamic_document_processor.
  cbv [bind try_except store_event ret db fs ticks on_startup].
  fold ty. fold modules.
  rewrite (draft_run_modules_ok _ _ _ _ Hp). cbn [db fs ticks on_startup].
  rewrite (shutil_move_ok _ _ _ content) by exact Hfile. cbn [db fs ticks on_startup].
  unfold ev_ingestion_start, ev_classification, ev_complete, ev_learning, ev, final_path.
  fold ty.
  replace (t0 + 1) with (S t0) by lia. replace (t0 + 2) with (S (S t0)) by lia.
  do 2 f_equal; [|lia].
  rewrite <- !app_assoc. cbn [app]. repeat f_equal; lia.
Qed.

Lemma draft_run_faults file_path m cid w content e :
  fs w !! file_path = Some content ->
  true_div_error (priority m) = Some e ->
  let ty := Fastapi_main_py.agi_determined_type file_path (tags m) in
  let t := ticks w in
  Fastapi_main.dynamic_document_processor now file_path m cid w =
  (Ok tt,
   {| db := db w
        ++ [ev_ingestion_start now cid t file_path m; ev_classification now cid (t + 1) ty;
            ev_error now cid (t + 2) (exn_str e) (quarantine_path file_path)];
      fs := <[quarantine_path file_path := content]> (delete file_path (fs w));
      ticks := t + 3;
      on_startup := on_startup w |}).
Proof.
  intros Hfile Hp ty t. destruct w as [db0 fs0 t0 hs0]. cbn [fs ticks db on_startup] in *.
  subst t. unfold Fastapi_main.dynamic_document_processor.
  cbv [bind try_except store_event ret db fs ticks on_startup].
  fold ty.
  rewrite (draft_run_modules_fault _ _ _ _ e Hp)
    by apply draft_processing_modules_nonempty.
  rewrite (shutil_move_ok _ _ _ content) by exact Hfile. cbn [db fs ticks on_startup].
  unfold ev_ingestion_start, ev_classification, ev_error, ev, quarantine_path.
  replace (t0 + 1) with (S t0) by lia. replace (t0 + 2) with (S (S t0)) by lia.
  do 2 f_equal; [|lia].
  rewrite <- !app_assoc. reflexivity.
Qed.

End DraftRuns.

(** ** The terminal events of a run *)

Section Terminal.

Import Trail.

Variable now : nat -> string.

Lemma starts_with_slash_has s :
  PyStr.has_char PyChar.slash s = false -> PyStr.starts_with "/" s = false.
Proof.
  destruct s as [|c r]; [reflexivity|]. cbn [PyStr.has_char PyStr.starts_with].
  intros [H _]%orb_false_iff. unfold PyChar.slash in H. now rewrite H.
Qed.

Lemma quarantine_path_eq file_path :
  quarantine_path file_path = quarantine_dir +:+ "/" +:+ OsPath.basename file_path.
Proof.
  unfold quarantine_path, OsPath.join.
  now rewrite (starts_with_slash_has _ (basename_no_slash file_path)).
Qed.

Lemma dict_lookup_head k v l : dict ((k, v) :: l) !! k = Some v.
Proof. unfold dict. cbn [list_to_map foldr]. apply lookup_insert_eq. Qed.

Lemma carries_ev cid t ty l :
  Agi_memory.carries cid (ev now t ty (("correlation_id", VStr cid) :: l)) = true.
Proof.
  unfold Agi_memory.carries, ev. cbn [data]. rewrite dict_lookup_head.
  apply String.eqb_refl.
Qed.

Lemma module_events_carry cid t modules :
  Forall (fun e => Agi_memory.carries cid e = true) (module_events now cid t modules).
Proof.
  revert t. induction modules as [|x r IH]; intros t; constructor; [|apply IH].
  apply carries_ev.
Qed.

Lemma module_events_not_terminal cid t modules :
  List.filter is_terminal (module_events now cid t modules) = [].
Proof.
  revert t. induction modules as [|x r IH]; intros t; [reflexivity|].
  cbn [module_events List.filter]. now rewrite IH.
Qed.

Lemma module_events_length cid t modules :
  length (module_events now cid t modules) = length modules.
Proof. revert t. induction modules as [|x r IH]; intros t; cbn; [reflexivity | now rewrite IH]. Qed.

Lemma moved_file (files : gmap string string) src dst content :
  <[dst := content]> (delete src files) !! dst = Some content /\
  (src <> dst -> <[dst := content]> (delete src files) !! src = None).
Proof.
  split; [apply lookup_insert_eq|]. intros Hne.
  rewrite lookup_insert_ne by congruence. apply lookup_delete_eq.
Qed.

Lemma true_div_error_message p e : true_div_error p = Some e -> exn_str e <> "".
Proof.
  unfold true_div_error. destruct p as [z|].
  - destruct (_ <=? _)%Z; [|discriminate]. intros [= <-]. discriminate.
  - intros [= <-]. discriminate.
Qed.

End Terminal.

(** C3: in every run on a staged file in which a stage's work raises (the
    evaluation of the stage delay is the one place of the try block that
    can; classification is a total function of two strings), both drafts
    end quarantined: the file is at [quarantine_dir/basename(file_path)]
    and no longer at [file_path]; the run appends, last, exactly one
    [document_processing_error] event, with a non-empty fault description
    and that quarantine path; it appends no [module_execution] event and
    no completion event, and then returns without a further attempt. *)
Theorem fault_quarantines (now : nat -> string)
    (run : string -> UploadMetadata -> string -> M unit)
    (file_path : string) (m : UploadMetadata) (correlation_id : string)
    (w : world) (content : string) (e : exn) :
  In run (runners now) ->
  fs w !! file_path = Some content ->
  true_div_error (priority m) = Some e ->
  let quarantine_path := quarantine_dir +:+ "/" +:+ OsPath.basename file_path in
  exists w' before,
    run file_path m correlation_id w = (Ok tt, w') /\
    db w' = db w ++ before
              ++ [Trail.ev_error now correlation_id (ticks w + length before)
                    (exn_str e) quarantine_path] /\
    exn_str e <> "" /\
    List.filter (fun x => Trail.has_type "module_execution" x || Trail.is_terminal x)
                before = [] /\
    ticks w' = ticks w + length before + 1 /\
    fs w' !! quarantine_path = Some content /\
    (file_path <> quarantine_path -> fs w' !! file_path = None).
Proof.
  intros Hrun Hfile He quarantine_path.
  pose proof (true_div_error_message _ _ He) as Hmsg.
  assert (Hq : Trail.quarantine_path file_path = quarantine_path)
    by apply quarantine_path_eq.
  destruct Hrun as [<-|[<-|[]]].
  - eexists _, [_; _; _]. rewrite (run_faults now _ _ _ _ _ _ Hfile He), Hq.
    cbn [db fs ticks length app].
    split; [reflexivity|]. split; [reflexivity|]. split; [exact Hmsg|].
    split; [reflexivity|]. split; [cbn [ticks]; lia|]. cbn [fs]. apply moved_file.
  - eexists _, [_; _]. rewrite (draft_run_faults now _ _ _ _ _ _ Hfile He), Hq.
    cbn [db fs ticks length app].
    split; [reflexivity|]. split; [reflexivity|]. split; [exact Hmsg|].
    split; [reflexivity|]. split; [cbn [ticks]; lia|]. cbn [fs]. apply moved_file.
Qed.

Lemma fault_quarantines_witness :
  exists w' before,
    Main.dynamic_document_processor Scenario.clock Scenario.staged_path
      Scenario_worlds.no_priority Scenario.correlation_id Scenario_worlds.staged = (Ok tt, w') /\
    map event_type (db w') =
      map event_type before ++ ["document_processing_error"] /\
    fs w' !! "/mnt/data/quarantine/3f2b8c1e-7a4d-4e0b-9c55-0d1e2f3a4b5c_acme_contract_v2.pdf"
      = Some "%PDF-1.7".
Proof.
  destruct (fault_quarantines Scenario.clock
              (Main.dynamic_document_processor Scenario.clock)
              Scenario.staged_path Scenario_worlds.no_priority Scenario.correlation_id
              Scenario_worlds.staged "%PDF-1.7"
              (TypeError "unsupported operand type(s) for /: 'NoneType' and 'int'"))
    as (w' & before & Hr & Hdb & _ & _ & _ & Hq & _).
  - left. reflexivity.
  - reflexivity.
  - reflexivity.
  - exists w', before. split; [exact Hr|]. split; [|exact Hq].
    rewrite Hdb. cbn [db Scenario_worlds.staged app]. now rewrite map_app.
Defined.

(** C5: every run on a staged file, of either draft, appends events that
    all carry its correlation id and of which exactly one is terminal:
    either a [document_processing_complete], which is then immediately
    followed by the closing [agi_learning_cycle], or a
    [document_processing_error], which is then the last event. *)
Theorem one_terminal_event (now : nat -> string)
    (run : string -> UploadMetadata -> string -> M unit)
    (file_path : string) (m : UploadMetadata) (correlation_id : string)
    (w : world) (content : string) :
  In run (runners now) ->
  fs w !! file_path = Some content ->
  exists w' new terminal,
    run file_path m correlation_id w = (Ok tt, w') /\
    db w' = db w ++ new /\
    Forall (fun e => Agi_memory.carries correlation_id e = true) new /\
    List.filter Trail.is_terminal new = [terminal] /\
    ((event_type terminal = "document_processing_complete" /\
      exists before learning,
        new = before ++ [terminal; learning] /\
        event_type learning = "agi_learning_cycle")
     \/
     (event_type terminal = "document_processing_error" /\
      exists before, new = before ++ [terminal])).
Proof.
  intros Hrun Hfile.
  destruct Hrun as [<-|[<-|[]]]; destruct (true_div_error (priority m)) as [e|] eqn:He.
  - eexists _, _, _. rewrite (run_faults now _ _ _ _ _ _ Hfile He). cbn [db].
    split; [reflexivity|]. split; [reflexivity|]. split.
    { repeat constructor; apply carries_ev. }
    split; [reflexivity|]. right. split; [reflexivity|]. now eexists [_; _; _].
  - eexists _, _, _. rewrite (run_completes now _ _ _ _ _ Hfile He). cbn [db].
    split; [reflexivity|]. split; [reflexivity|]. split.
    { rewrite !Forall_app. repeat split.
      - repeat constructor; apply carries_ev.
      - apply module_events_carry.
      - repeat constructor; apply carries_ev. }
    split.
    { rewrite !List.filter_app, module_events_not_terminal. reflexivity. }
    left. split; [reflexivity|]. eexists (_ ++ _), _. split.
    + rewrite <- app_assoc. reflexivity.
    + reflexivity.
  - eexists _, _, _. rewrite (draft_run_faults now _ _ _ _ _ _ Hfile He). cbn [db].
    split; [reflexivity|]. split; [reflexivity|]. split.
    { repeat constructor; apply carries_ev. }
    split; [reflexivity|]. right. split; [reflexivity|]. now eexists [_; _].
  - eexists _, _, _. rewrite (draft_run_completes now _ _ _ _ _ Hfile He). cbn [db].
    split; [reflexivity|]. split; [reflexivity|]. split.
    { rewrite !Forall_app. repeat split.
      - repeat constructor; apply carries_ev.
      - apply module_events_carry.
      - repeat constructor; apply carries_ev. }
    split.
    { rewrite !List.filter_app, module_events_not_terminal. reflexivity. }
    left. split; [reflexivity|]. eexists (_ ++ _), _. split.
    + rewrite <- app_assoc. reflexivity.
    + reflexivity.
Qed.

Lemma one_terminal_event_witness :
  exists w' terminal,
    Main.dynamic_document_processor Scenario.clock Scenario.staged_path
      default_metadata Scenario.correlation_id Scenario_worlds.staged = (Ok tt, w') /\
    List.filter Trail.is_terminal (db w') = [terminal].
Proof.
  destruct (one_terminal_event Scenario.clock
              (Main.dynamic_document_processor Scenario.clock)
              Scenario.staged_path default_metadata Scenario.correlation_id
              Scenario_worlds.staged "%PDF-1.7")
    as (w' & new & terminal & Hr & Hdb & _ & Hf & _).
  - left. reflexivity.
  - reflexivity.
  - exists w', terminal. split; [exact Hr|]. rewrite Hdb. exact Hf.
Defined.

(** ** The classifier *)

(** The tag rules on the texts of U+0000..U+00FF: on every tag list in
    which no tag holds one of the characters U+000B, U+001B, U+008B,
    U+009B, the rule for "billing" is the rule on the tags, and the
    classifier is the ordered rule list of the specification. *)
Lemma latin1_tag_rules (file_path : string) (tags : option (list string)) :
  Classifier_spec.tags_free_of Classifier_spec.escape_ends_in_b tags = true ->
  PyStr.py_in "billing" (PyStr.lower (PyRepr.str_tags tags))
    = Classifier_spec.some_tag_has "billing" tags /\
  Main_py.agi_determined_type file_path tags = Classifier_spec.classify file_path tags.
Proof.
  intros H. split; [exact (billing_in_str_tags _ H)|].
  unfold Main_py.agi_determined_type, Classifier_spec.classify. cbv zeta.
  now rewrite legal_in_str_tags, (billing_in_str_tags _ H).
Qed.

Example agi_determined_type_latin1_example :
  let tags := Some [String "011" "illing"] in
  Classifier_spec.some_tag_has "billing" tags = false /\
  Classifier_spec.classify "notes.txt" tags = "unknown" /\
  PyRepr.str_tags tags = "['\x0billing']" /\
  Main_py.agi_determined_type "notes.txt" tags = "invoice".
Proof. vm_compute. repeat split. Qed.

(** Whatever the tags, the classifier is the same cascade read on the
    text [str(tags).lower()]; the "legal" rule is always the rule on the
    tags themselves. *)
Lemma agi_determined_type_cascade (file_path : string) (tags : option (list string)) :
  let p := PyStr.lower file_path in
  Main_py.agi_determined_type file_path tags =
  if PyStr.py_in "contract" p || PyStr.py_in "agreement" p
     || Classifier_spec.some_tag_has "legal" tags
  then "contract"
  else if PyStr.py_in "invoice" p
          || PyStr.py_in "billing" (PyStr.lower (PyRepr.str_tags tags))
  then "invoice"
  else if PyStr.py_in "research" p || PyStr.py_in "paper" p
  then "research_paper"
  else "unknown".
Proof.
  cbv zeta. unfold Main_py.agi_determined_type. now rewrite legal_in_str_tags.
Qed.

(** The draft in Fastapi_main.py differs only in answering [unknown]
    where Main.py answers [research_paper]. *)
Lemma draft_agi_determined_type (file_path : string) (tags : option (list string)) :
  Fastapi_main_py.agi_determined_type file_path tags =
  if String.eqb (Main_py.agi_determined_type file_path tags) "research_paper"
  then "unknown" else Main_py.agi_determined_type file_path tags.
Proof.
  unfold Fastapi_main_py.agi_determined_type, Main_py.agi_determined_type.
  destruct (_ || _ || _); [reflexivity|]. destruct (_ || _); [reflexivity|].
  destruct (_ || _); reflexivity.
Qed.

Example classify_scenario_a :
  Main_py.agi_determined_type Scenario.staged_path (Some []) = "contract" /\
  Main_py.agi_determined_type "/tmp/agi_staging/9_random_notes.txt" (Some []) = "unknown".
Proof. split; reflexivity. Qed.

(** ** The amplifier *)

Section Amplifier.

Import Transformation_engine Recursive_amplifier Amplifier_spec.

Lemma transform_pass (data : gmap string pyval) (z : Z) :
  data !! "iteration_count" = Some (VInt z) ->
  transformation_modes !! Z.to_nat (z mod Z.of_nat (length transformation_modes))
    = Some (mode_of z) /\
  transform data = Some (pass z data, announce (mode_of z)).
Proof.
  intros H.
  assert (Hm : transformation_modes !! Z.to_nat (z mod Z.of_nat (length transformation_modes))
               = Some (mode_of z)).
  { unfold mode_of. change (Z.of_nat (length transformation_modes)) with 4%Z.
    pose proof (Z.mod_pos_bound z 4 ltac:(lia)) as Hb.
    destruct (Z.to_nat (z mod 4)) as [|[|[|[|n]]]] eqn:E; try reflexivity. lia. }
  split; [exact Hm|].
  unfold transform. cbv zeta. unfold get at 1. rewrite H, Hm. reflexivity.
Qed.

Lemma pass_count z data : pass z data !! "iteration_count" = Some (VInt (z + 1)).
Proof. unfold pass. apply lookup_insert_eq. Qed.

Lemma pass_value z data :
  get (pass z data) "value" (VStr "")
  = VStr ("[" +:+ PyStr.upper (mode_of z) +:+ "::Transformed::"
          +:+ PyRepr.str (get data "value" (VStr "")) +:+ "]").
Proof.
  unfold get at 1. unfold pass.
  rewrite lookup_insert_ne by discriminate. rewrite lookup_insert_ne by discriminate.
  now rewrite lookup_insert_eq.
Qed.

Lemma pass_other z data k :
  k <> "iteration_count" -> k <> "transformation_applied" -> k <> "value" ->
  pass z data !! k = data !! k.
Proof.
  intros H1 H2 H3. unfold pass.
  now rewrite !lookup_insert_ne by congruence.
Qed.

End Amplifier.

(** C7: a construct whose [iteration_count] is 0, amplified at the depth 4
    the service configures, goes through [transform] exactly four times:
    the output announces the modes stylistic, modal, conceptual,
    syntactic in that order, the result's [iteration_count] is 4, its
    [value] is wrapped four times, and the keys [transform] does not
    write are untouched.  Each pass on a construct at count [z] selects
    [modes[z mod len(modes)]] and leaves the count at [z + 1]. *)
Theorem amplify_depth_four (seed : gmap string pyval) :
  seed !! "iteration_count" = Some (VInt 0) ->
  (exists result out,
     Recursive_amplifier.amplify Recursive_amplifier.recursive_amplifier seed
       = Some (result, out) /\
     out = ["RecursiveAmplifier: Starting amplification for depth 4";
            "  Iteration 1/4..."; "TransformationEngine: Applied 'stylistic' transformation.";
            "  Iteration 2/4..."; "TransformationEngine: Applied 'modal' transformation.";
            "  Iteration 3/4..."; "TransformationEngine: Applied 'conceptual' transformation.";
            "  Iteration 4/4..."; "TransformationEngine: Applied 'syntactic' transformation.";
            "RecursiveAmplifier: Amplification complete."] /\
     Recursive_amplifier.applied_modes out = ["stylistic"; "modal"; "conceptual"; "syntactic"] /\
     result !! "iteration_count" = Some (VInt 4) /\
     result !! "transformation_applied" = Some (VStr "syntactic") /\
     result !! "value"
       = Some (VStr ("[SYNTACTIC::Transformed::[CONCEPTUAL::Transformed::"
                     +:+ "[MODAL::Transformed::[STYLISTIC::Transformed::"
                     +:+ PyRepr.str (Transformation_engine.get seed "value" (VStr ""))
                     +:+ "]]]]")) /\
     (forall k, k <> "iteration_count" -> k <> "transformation_applied" -> k <> "value" ->
                result !! k = seed !! k)) /\
  (forall (data : gmap string pyval) (z : Z),
     data !! "iteration_count" = Some (VInt z) ->
     exists data' line,
       Transformation_engine.transform data = Some (data', line) /\
       Transformation_engine.transformation_modes
         !! Z.to_nat (z mod Z.of_nat (length Transformation_engine.transformation_modes))
         = Some (Amplifier_spec.mode_of z) /\
       data' !! "transformation_applied" = Some (VStr (Amplifier_spec.mode_of z)) /\
       line = Amplifier_spec.announce (Amplifier_spec.mode_of z) /\
       data' !! "iteration_count" = Some (VInt (z + 1))).
Proof.
  intros H0. split.
  - pose proof (transform_pass seed 0 H0) as [_ T0].
    pose proof (transform_pass _ _ (pass_count 0 seed)) as [_ T1].
    pose proof (transform_pass _ _ (pass_count (0 + 1) (Amplifier_spec.pass 0 seed))) as [_ T2].
    pose proof (transform_pass _ _ (pass_count (0 + 1 + 1)
                  (Amplifier_spec.pass (0 + 1) (Amplifier_spec.pass 0 seed)))) as [_ T3].
    eexists _, _. split.
    { unfold Recursive_amplifier.amplify, Recursive_amplifier.recursive_amplifier.
      cbn [Recursive_amplifier.depth].
      change (Z.to_nat 4) with 4.
      cbn [Recursive_amplifier.amplify_from Recursive_amplifier.depth].
      rewrite T0, T1, T2, T3. reflexivity. }
    split; [reflexivity|]. split; [reflexivity|].
    split; [apply pass_count|].
    split; [unfold Amplifier_spec.pass at 1;
            rewrite lookup_insert_ne by discriminate; now rewrite lookup_insert_eq|].
    split.
    + pose proof (pass_value (0 + 1 + 1 + 1)
                    (Amplifier_spec.pass (0 + 1 + 1)
                       (Amplifier_spec.pass (0 + 1) (Amplifier_spec.pass 0 seed)))) as V.
      unfold Transformation_engine.get at 1 in V.
      destruct (_ !! "value") as [v|] eqn:E; [|discriminate]. rewrite V.
      rewrite !pass_value. cbn [PyRepr.str].
      generalize (PyRepr.str (Transformation_engine.get seed "value" (VStr ""))) as x.
      intros x. rewrite !append_assoc. reflexivity.
    + intros k H1 H2 H3. now rewrite !pass_other.
  - intros data z Hz. destruct (transform_pass data z Hz) as [Hm Ht].
    eexists _, _. split; [exact Ht|]. split; [exact Hm|].
    split; [|split; [reflexivity | apply pass_count]].
    unfold Amplifier_spec.pass. rewrite lookup_insert_ne by discriminate.
    now rewrite lookup_insert_eq.
Qed.

Lemma amplify_depth_four_witness :
  Amplifier_spec.sample_seed !! "iteration_count" = Some (VInt 0) /\
  exists result out,
    Recursive_amplifier.amplify Recursive_amplifier.recursive_amplifier
      Amplifier_spec.sample_seed = Some (result, out) /\
    result !! "iteration_count" = Some (VInt 4) /\
    result !! "value"
      = Some (VStr ("[SYNTACTIC::Transformed::[CONCEPTUAL::Transformed::"
                    +:+ "[MODAL::Transformed::[STYLISTIC::Transformed::"
                    +:+ "SYMBOLIC_SEED::31337" +:+ "]]]]")).
Proof.
  split; [reflexivity|].
  destruct (proj1 (amplify_depth_four Amplifier_spec.sample_seed eq_refl))
    as (result & out & Ha & _ & _ & Hc & _ & Hv & _).
  exists result, out. split; [exact Ha|]. split; [exact Hc|]. exact Hv.
Defined.

(** ** Main.py : ingest_document *)

Section Ingest.

Variable now : nat -> string.

(** An accepted upload: the file is staged under its sanitized name, the
    runner is appended to the startup handlers, and nothing else happens:
    no event is written and no runner is called. *)
Lemma ingest_only_registers correlation_id file_filename file_content metadata w r w' :
  Main.ingest_document now correlation_id file_filename file_content metadata w = (Ok r, w') ->
  let path := OsPath.join temp_staging
                (correlation_id +:+ "_" +:+ sanitize_filename file_filename) in
  fs w' = <[path := file_content]> (fs w) /\
  db w' = db w /\
  ticks w' = ticks w /\
  on_startup w' = on_startup w ++ [{| task_path := path; task_metadata := metadata;
                                      task_correlation_id := correlation_id |}].
Proof.
  unfold Main.ingest_document.
  cbv [bind try_except write_file add_startup_handler ret raise store_event].
  destruct (PyStr.has_char _ _); [discriminate|].
  intros [= <- <-]. cbn [db fs ticks on_startup]. repeat split.
Qed.

(** The file an accepted upload staged is there for the runner. *)
Lemma accepted_file_staged correlation_id file_filename file_content metadata w r w' :
  Main.ingest_document now correlation_id file_filename file_content metadata w = (Ok r, w') ->
  fs w' !! OsPath.join temp_staging
             (correlation_id +:+ "_" +:+ sanitize_filename file_filename)
  = Some file_content.
Proof.
  intros H. apply ingest_only_registers in H as (-> & _). apply lookup_insert_eq.
Qed.

(** A name holding a NUL cannot be opened: the error is recorded and the
    caller gets a 500. *)
Lemma ingest_rejects_nul correlation_id file_filename file_content metadata w :
  PyStr.has_char "000"%char
    (OsPath.join temp_staging (correlation_id +:+ "_" +:+ sanitize_filename file_filename))
    = true ->
  exists w',
    Main.ingest_document now correlation_id file_filename file_content metadata w
      = (Raise (HTTPException 500
                  "Federated AGI failed to ingest document: embedded null byte"), w') /\
    fs w' = fs w /\
    map event_type (db w')
      = map event_type (db w) ++ ["document_ingestion_error"].
Proof.
  intros H. unfold Main.ingest_document.
  cbv [bind try_except write_file add_startup_handler ret raise store_event].
  rewrite H. eexists. split; [reflexivity|]. cbn [db fs]. split; [reflexivity|].
  now rewrite map_app.
Qed.

End Ingest.

(** C2: the accepted upload of scenario A.  The endpoint stages the file
    and only appends the runner to the startup handlers: no event is
    written and the status stays ["Unknown"].  When the runner is then run
    to its end on the staged file, it moves the file to the contracts
    directory and writes nine events, the last two being the completion
    and the learning cycle; the status query still answers
    ["document_ingestion_start"], the type of the oldest event. *)
Theorem accepted_upload_never_reports_terminal :
  fst Scenario_ingest.accepted
    = Ok {| Main.message := "Document received by Federated AGI. Autonomous processing initiated.";
            Main.ingest_correlation_id := Scenario.correlation_id;
            Main.filename := "acme_contract_v2.pdf";
            Main.agi_status_endpoint :=
              "/document_status/3f2b8c1e-7a4d-4e0b-9c55-0d1e2f3a4b5c" |} /\
  db Scenario_ingest.after_ingest = [] /\
  map_to_list (fs Scenario_ingest.after_ingest) = [(Scenario.staged_path, "%PDF-1.7")] /\
  on_startup Scenario_ingest.after_ingest
    = [{| task_path := Scenario.staged_path; task_metadata := default_metadata;
          task_correlation_id := Scenario.correlation_id |}] /\
  Main.agi_processing_status
    (Main.get_document_status (db Scenario_ingest.after_ingest) Scenario.correlation_id)
    = "Unknown" /\
  map event_type (db Scenario_ingest.after_run)
    = ["document_ingestion_start"; "document_classification"; "workflow_assembly";
       "module_execution"; "module_execution"; "module_execution"; "module_execution";
       "document_processing_complete"; "agi_learning_cycle"] /\
  map_to_list (fs Scenario_ingest.after_run)
    = [("/mnt/data/processed/contracts/3f2b8c1e-7a4d-4e0b-9c55-0d1e2f3a4b5c_acme_contract_v2.pdf",
        "%PDF-1.7")] /\
  Main.agi_processing_status
    (Main.get_document_status (db Scenario_ingest.after_run) Scenario.correlation_id)
    = "document_ingestion_start" /\
  Main.last_agi_action
    (Main.get_document_status (db Scenario_ingest.after_run) Scenario.correlation_id)
    = VStr "No specific action data." /\
  length (Main.agi_event_history
    (Main.get_document_status (db Scenario_ingest.after_run) Scenario.correlation_id)) = 9.
Proof. vm_compute. repeat split. Qed.

(** ** More of the event store *)

Section StoreFacts.

Import Agi_memory Query_spec.

Lemma sorted_desc_cons e l : sorted_desc (e :: l) = insert_desc e (sorted_desc l).
Proof. reflexivity. Qed.

(** An event newer than all the others, stored last, is sorted first. *)
Lemma sorted_desc_snoc_newest e l :
  Forall (fun x => String.ltb (timestamp x) (timestamp e) = true) l ->
  sorted_desc (l ++ [e]) = e :: sorted_desc l.
Proof.
  induction 1 as [|h t Hh Ht IH]; [reflexivity|].
  cbn [app]. rewrite !sorted_desc_cons, IH. cbn [insert_desc].
  now rewrite (ltb_leb_false _ _ Hh).
Qed.

Lemma slice_to_incl {A} (limit : Z) (l : list A) x : In x (slice_to limit l) -> In x l.
Proof. unfold slice_to. destruct (0 <=? limit)%Z; apply in_firstn. Qed.

Lemma slice_to_all {A} (limit : Z) (l : list A) :
  (Z.of_nat (length l) <= limit)%Z -> slice_to limit l = l.
Proof.
  intros H. rewrite slice_to_nonneg by lia. apply firstn_all2. lia.
Qed.

Lemma filter_none {A} (f : A -> bool) l :
  Forall (fun x => f x = false) l -> List.filter f l = [].
Proof.
  induction 1 as [|x l Hx _ IH]; [reflexivity|]. cbn [List.filter]. now rewrite Hx.
Qed.

Lemma filter_all {A} (f : A -> bool) l :
  Forall (fun x => f x = true) l -> List.filter f l = l.
Proof.
  induction 1 as [|x l Hx _ IH]; [reflexivity|]. cbn [List.filter]. now rewrite Hx, IH.
Qed.

Lemma slice_to_firstn {A} (limit : Z) (l : list A) :
  exists k, slice_to limit l = firstn k l.
Proof. unfold slice_to. destruct (0 <=? limit)%Z; eauto. Qed.

End StoreFacts.

(** X1: an event stored with a payload that carries a non-empty id, at a
    time later than every stored event, is the first answer of the query
    for that id, for every limit of at least 1, and what follows it is
    the answer the query gave before the event was stored, for that limit
    less one. *)
Theorem stored_event_is_first_answer (now : nat -> string) (w : world)
    (ty : string) (payload : gmap string pyval) (correlation_id : string) (limit : Z) :
  correlation_id <> "" ->
  (1 <= limit)%Z ->
  payload !! "correlation_id" = Some (VStr correlation_id) ->
  Forall (fun e => String.ltb (timestamp e) (now (ticks w)) = true) (db w) ->
  Agi_memory.get_recent_events (db (snd (store_event now ty payload w))) limit
    (Some correlation_id)
  = {| timestamp := now (ticks w); event_type := ty; data := payload |}
    :: Agi_memory.get_recent_events (db w) (limit - 1) (Some correlation_id).
Proof.
  intros Hid Hlimit Hc Hnew.
  set (e := {| timestamp := now (ticks w); event_type := ty; data := payload |}).
  assert (He : Agi_memory.carries correlation_id e = true) by now apply carries_iff.
  unfold store_event. cbn [snd db]. fold e.
  rewrite !(get_recent_events_given _ _ _ Hid), List.filter_app. cbn [List.filter].
  rewrite He, sorted_desc_snoc_newest.
  - rewrite !slice_to_nonneg by lia.
    replace (Z.to_nat limit) with (S (Z.to_nat (limit - 1))) by lia. reflexivity.
  - rewrite List.Forall_forall in Hnew |- *. intros x Hx.
    apply List.filter_In in Hx as [Hx _]. now apply Hnew.
Qed.

Lemma stored_event_is_first_answer_witness :
  let w := {| db := Samples.log; fs := ∅; ticks := 5; on_startup := [] |} in
  Forall (fun e => String.ltb (timestamp e) (Scenario.clock 5) = true) (db w) /\
  Agi_memory.get_recent_events
    (db (snd (store_event Scenario.clock "module_execution"
                (dict [("correlation_id", VStr "a1"); ("module", VStr "topic_modeling_discovery")])
                w))) 3 (Some "a1")
  = [ {| timestamp := Scenario.clock 5; event_type := "module_execution";
         data := dict [("correlation_id", VStr "a1");
                       ("module", VStr "topic_modeling_discovery")] |};
      Samples.ev_module; Samples.ev_classified ].
Proof.
  intros w.
  assert (Hnew : Forall (fun e => String.ltb (timestamp e) (Scenario.clock 5) = true) (db w))
    by (repeat constructor).
  split; [exact Hnew|].
  rewrite (stored_event_is_first_answer Scenario.clock w "module_execution"
             (dict [("correlation_id", VStr "a1"); ("module", VStr "topic_modeling_discovery")])
             "a1" 3).
  - reflexivity.
  - discriminate.
  - lia.
  - reflexivity.
  - exact Hnew.
Defined.

(** X2: with a negative limit [-k] the query for a non-empty id answers
    with all matching events but the [k] oldest, newest first. *)
Theorem get_recent_events_negative_limit (db : list event) (limit : Z)
    (correlation_id : string) :
  correlation_id <> "" ->
  (limit < 0)%Z ->
  let pool := List.filter (Agi_memory.carries correlation_id) db in
  Query_spec.most_recent (length pool - Z.to_nat (- limit)) pool
    (Agi_memory.get_recent_events db limit (Some correlation_id)).
Proof.
  intros Hid Hneg pool. rewrite (get_recent_events_given _ _ _ Hid). fold pool.
  unfold Agi_memory.slice_to. replace (0 <=? limit)%Z with false by lia.
  rewrite (Permutation_length (sorted_desc_perm pool)).
  apply firstn_sorted_most_recent.
Qed.

Lemma get_recent_events_negative_limit_witness :
  Query_spec.most_recent 1
    [Samples.ev_start; Samples.ev_classified; Samples.ev_module]
    (Agi_memory.get_recent_events Samples.log (-2) (Some "a1")).
Proof.
  apply (get_recent_events_negative_limit Samples.log (-2) "a1"); [discriminate | lia].
Defined.

(** X3: whatever the limit and the id, the query answers only with stored
    events (for a non-empty id, events that carry it), newest first, and
    events with one and the same timestamp come back in the order in
    which they were stored: those returned are the first of them, and
    all of them when the limit covers the events that match. *)
Theorem get_recent_events_stored_and_stable (db : list event) (limit : Z)
    (correlation_id : option string) :
  let pool :=
    match Agi_memory.truthy correlation_id with
    | Some c => List.filter (Agi_memory.carries c) db
    | None => db
    end in
  let answer := Agi_memory.get_recent_events db limit correlation_id in
  (forall e, In e answer -> In e db) /\
  (forall c e, correlation_id = Some c -> c <> "" -> In e answer ->
               data e !! "correlation_id" = Some (VStr c)) /\
  StronglySorted Query_spec.at_least_as_recent answer /\
  (forall t, exists later,
     List.filter (fun x => String.eqb (timestamp x) t) pool
     = List.filter (fun x => String.eqb (timestamp x) t) answer ++ later) /\
  ((Z.of_nat (length pool) <= limit)%Z ->
   forall t,
     List.filter (fun x => String.eqb (timestamp x) t) answer
     = List.filter (fun x => String.eqb (timestamp x) t) pool).
Proof.
  intros pool answer.
  assert (Hanswer : answer = Agi_memory.slice_to limit (Agi_memory.sorted_desc pool))
    by reflexivity.
  destruct (slice_to_firstn limit (Agi_memory.sorted_desc pool)) as [k Hk].
  split; [|split; [|split; [|split]]].
  - intros e He. rewrite Hanswer in He. apply slice_to_incl in He.
    apply (Permutation_in _ (sorted_desc_perm _)) in He. subst pool.
    destruct (Agi_memory.truthy correlation_id); [|exact He].
    now apply List.filter_In in He.
  - intros c e -> Hc He. subst answer.
    rewrite (get_recent_events_given _ _ _ Hc) in He.
    apply slice_to_incl in He.
    apply (Permutation_in _ (sorted_desc_perm _)) in He.
    apply List.filter_In in He as [_ He]. now apply carries_iff.
  - rewrite Hanswer, Hk.
    apply (strongly_sorted_split _ k (sorted_desc_sorted pool)).
  - intros t. exists (List.filter (fun x => String.eqb (timestamp x) t)
                        (skipn k (Agi_memory.sorted_desc pool))).
    rewrite Hanswer, Hk, <- List.filter_app, firstn_skipn.
    symmetry. apply sorted_desc_stable.
  - intros Hl t. rewrite Hanswer, slice_to_all.
    + apply sorted_desc_stable.
    + now rewrite (Permutation_length (sorted_desc_perm pool)).
Qed.

Lemma get_recent_events_stored_and_stable_witness :
  let first := {| timestamp := "2025-07-23T10:00:07"; event_type := "module_execution";
                  data := dict [("correlation_id", VStr "a1"); ("module", VStr "first")] |} in
  let second := {| timestamp := "2025-07-23T10:00:07"; event_type := "module_execution";
                   data := dict [("correlation_id", VStr "a1"); ("module", VStr "second")] |} in
  List.filter (fun x => String.eqb (timestamp x) "2025-07-23T10:00:07")
    (Agi_memory.get_recent_events (Samples.log ++ [first; second]) 10 (Some "a1"))
  = [first; second].
Proof.
  intros first second.
  destruct (get_recent_events_stored_and_stable (Samples.log ++ [first; second]) 10
              (Some "a1")) as (_ & _ & _ & _ & Hall).
  rewrite Hall.
  - reflexivity.
  - vm_compute. discriminate.
Defined.

(** ** Agi_memory.py : retrieve_context *)

Section ContextFacts.

Import Agi_memory Agi_memory_context.

Lemma condition_correlation_id correlation_id e :
  condition "correlation_id" (VStr correlation_id) e = carries correlation_id e.
Proof.
  unfold condition, carries.
  destruct (data e !! "correlation_id") as [[| |c| |]|]; reflexivity.
Qed.

Lemma filter_ext_bool {A} (f g : A -> bool) l :
  (forall x, f x = g x) -> List.filter f l = List.filter g l.
Proof.
  intros H. induction l as [|x l IH]; [reflexivity|]. cbn [List.filter].
  now rewrite H, IH.
Qed.

End ContextFacts.

(** X4: asked for a correlation id, [retrieve_context] finds exactly the
    events that carry it and answers with the first [limit] of them in
    the order in which they were stored, oldest first; with a limit that
    covers the store it answers with the same events as
    [get_recent_events], which lists them newest first. *)
Theorem retrieve_context_by_id (db : list event) (correlation_id : string) (limit : Z) :
  (0 <= limit)%Z ->
  Agi_memory_context.retrieve_context db [("correlation_id", VStr correlation_id)] limit
    = firstn (Z.to_nat limit) (List.filter (Agi_memory.carries correlation_id) db) /\
  (correlation_id <> "" ->
   (Z.of_nat (length db) <= limit)%Z ->
   Permutation
     (Agi_memory_context.retrieve_context db [("correlation_id", VStr correlation_id)] limit)
     (Agi_memory.get_recent_events db limit (Some correlation_id))).
Proof.
  intros Hlimit.
  assert (Hf : List.filter
                 (Agi_memory_context.combined_condition [("correlation_id", VStr correlation_id)])
                 db
               = List.filter (Agi_memory.carries correlation_id) db).
  { apply filter_ext_bool. intros e. unfold Agi_memory_context.combined_condition.
    cbn [forallb fst snd]. now rewrite condition_correlation_id, andb_true_r. }
  unfold Agi_memory_context.retrieve_context. rewrite Hf. split.
  - now apply slice_to_nonneg.
  - intros Hid Hall. rewrite (get_recent_events_given _ _ _ Hid).
    assert (Hlen : length (List.filter (Agi_memory.carries correlation_id) db) <= length db).
    { clear. induction db as [|e db IH]; [reflexivity|]. cbn [List.filter length].
      destruct (Agi_memory.carries correlation_id e); cbn [length]; lia. }
    rewrite !slice_to_all.
    + symmetry. apply sorted_desc_perm.
    + rewrite (Permutation_length (sorted_desc_perm _)). lia.
    + lia.
Qed.

Lemma retrieve_context_by_id_witness :
  Agi_memory_context.retrieve_context Samples.log [("correlation_id", VStr "a1")] 1
    = [Samples.ev_start] /\
  Agi_memory.get_recent_events Samples.log 1 (Some "a1") = [Samples.ev_module].
Proof.
  split; [|reflexivity].
  rewrite (proj1 (retrieve_context_by_id Samples.log "a1" 1 ltac:(lia))). reflexivity.
Defined.

(** X5: [retrieve_context] answers only with stored events that have
    every key of the query with an equal value; the empty query finds
    nothing, whatever the store holds. *)
Theorem retrieve_context_matches (db : list event) (query_data : list (string * pyval))
    (limit : Z) :
  (forall e, In e (Agi_memory_context.retrieve_context db query_data limit) ->
     In e db /\
     forall k v, In (k, v) query_data ->
       exists x, data e !! k = Some x /\ PyVal.py_eq x v = true) /\
  Agi_memory_context.retrieve_context db [] limit = [].
Proof.
  split.
  - intros e He. unfold Agi_memory_context.retrieve_context in He.
    apply slice_to_incl in He. destruct query_data as [|kv q]; [destruct He|].
    apply List.filter_In in He as [Hin Hc]. split; [exact Hin|].
    intros k v Hkv. unfold Agi_memory_context.combined_condition in Hc.
    rewrite List.forallb_forall in Hc. specialize (Hc (k, v) Hkv).
    unfold Agi_memory_context.condition in Hc. cbn [fst snd] in Hc.
    destruct (data e !! k) as [x|]; [eauto | discriminate].
  - unfold Agi_memory_context.retrieve_context, Agi_memory.slice_to.
    destruct (0 <=? limit)%Z; now rewrite firstn_nil.
Qed.

(** ** Main.py : get_document_status, whatever the timestamps *)

Section StatusFacts.

Import Query_spec.

Lemma last_item_in {A} (l : list A) x : Main.last_item l = Some x -> In x l.
Proof.
  induction l as [|h t IH]; [discriminate|]. cbn [Main.last_item].
  destruct t as [|h' t']; [intros [= ->]; now left|]. intros H. right. now apply IH.
Qed.

Lemma last_item_some {A} (l : list A) : l <> [] -> exists x, Main.last_item l = Some x.
Proof.
  induction l as [|h t IH]; [easy|]. intros _. cbn [Main.last_item].
  destruct t as [|h' t']; [eauto|]. apply IH. discriminate.
Qed.

(** The last element of a list sorted newest-first is its least recent. *)
Lemma last_item_least_recent l e :
  StronglySorted at_least_as_recent l -> Main.last_item l = Some e ->
  Forall (fun x => at_least_as_recent x e) l.
Proof.
  induction 1 as [|h t Hs IH Hh]; [discriminate|]. cbn [Main.last_item].
  destruct t as [|h' t'].
  - intros [= ->]. constructor; [apply leb_refl | constructor].
  - intros He. constructor; [|now apply IH].
    rewrite List.Forall_forall in Hh. apply Hh. now apply last_item_in.
Qed.

End StatusFacts.

(** X6: for a non-empty id with at least one stored event, whatever the
    timestamps, [get_document_status] hands back at most ten events and
    takes its status and last action from the last of them, which is no
    more recent than any other event it hands back. *)
Theorem get_document_status_reads_least_recent (db : list event) (correlation_id : string) :
  correlation_id <> "" ->
  List.filter (Agi_memory.carries correlation_id) db <> [] ->
  let r := Main.get_document_status db correlation_id in
  length (Main.agi_event_history r) <= 10 /\
  exists e,
    Main.last_item (Main.agi_event_history r) = Some e /\
    Main.agi_processing_status r = event_type e /\
    Main.last_agi_action r = Main.action_of (data e) /\
    Forall (fun x => Query_spec.at_least_as_recent x e) (Main.agi_event_history r).
Proof.
  intros Hid Hne r.
  pose proof (firstn_sorted_most_recent (Z.to_nat Agi_memory.default_limit)
                (List.filter (Agi_memory.carries correlation_id) db)) as Hmost.
  rewrite <- (slice_to_nonneg Agi_memory.default_limit) in Hmost
    by (unfold Agi_memory.default_limit; lia).
  rewrite <- (get_recent_events_given _ _ _ Hid) in Hmost.
  destruct Hmost as (older & Hperm & Hsorted & Hlen & _).
  set (events := Agi_memory.get_recent_events db Agi_memory.default_limit (Some correlation_id))
    in *.
  assert (Hev : events <> []).
  { intros E. rewrite E in Hlen. cbn [length] in Hlen.
    destruct (List.filter (Agi_memory.carries correlation_id) db); [contradiction|].
    cbn in Hlen. discriminate. }
  destruct (last_item_some events Hev) as [e He].
  subst r. unfold Main.get_document_status. fold events. rewrite He.
  cbn [Main.agi_event_history Main.agi_processing_status Main.last_agi_action].
  split.
  - rewrite Hlen. change (Z.to_nat Agi_memory.default_limit) with 10. lia.
  - exists e. repeat split; try assumption. now apply last_item_least_recent.
Qed.

Lemma get_document_status_reads_least_recent_witness :
  length (Main.agi_event_history (Main.get_document_status Samples.log "a1")) <= 10 /\
  exists e,
    Main.last_item (Main.agi_event_history (Main.get_document_status Samples.log "a1"))
      = Some e /\
    Main.agi_processing_status (Main.get_document_status Samples.log "a1") = event_type e.
Proof.
  destruct (get_document_status_reads_least_recent Samples.log "a1")
    as (Hl & e & He & Hs & _).
  - discriminate.
  - discriminate.
  - split; [exact Hl|]. exists e. split; [exact He | exact Hs].
Defined.

(** ** More of the runs *)

Section RunFacts.

Import Trail Trail_spec.

Variable now : nat -> string.

Lemma agi_determined_type_values file_path tags :
  In (Main_py.agi_determined_type file_path tags)
     ["contract"; "invoice"; "research_paper"; "unknown"].
Proof.
  unfold Main_py.agi_determined_type.
  destruct (_ || _ || _); [now left|]. destruct (_ || _); [right; now left|].
  destruct (_ || _); [right; right; now left | right; right; right; now left].
Qed.

Lemma draft_agi_determined_type_values file_path tags :
  In (Fastapi_main_py.agi_determined_type file_path tags) ["contract"; "invoice"; "unknown"].
Proof.
  unfold Fastapi_main_py.agi_determined_type.
  destruct (_ || _ || _); [now left|]. destruct (_ || _); [right; now left|].
  right; right; now left.
Qed.

Lemma join_dir a b :
  String.eqb a "" || OsPath.ends_with_slash a = false ->
  PyStr.has_char PyChar.slash b = false ->
  OsPath.join a b = a +:+ "/" +:+ b.
Proof.
  intros Ha Hb. unfold OsPath.join.
  now rewrite (starts_with_slash_has _ Hb), Ha.
Qed.

(** Where a completed run puts the file, by category. *)
Lemma final_path_managed ty file_path :
  In ty ["contract"; "invoice"; "research_paper"; "unknown"] ->
  exists dir, In dir managed_dirs /\
              final_path ty file_path = dir +:+ "/" +:+ OsPath.basename file_path.
Proof.
  intros [<-|[<-|[<-|[<-|[]]]]]; unfold final_path; cbn [dict_get DYNAMIC_DIRS];
    eexists; (split; [|apply join_dir; [reflexivity | apply basename_no_slash]]);
    cbn; tauto.
Qed.

Lemma quarantine_path_managed file_path :
  exists dir, In dir managed_dirs /\
              quarantine_path file_path = dir +:+ "/" +:+ OsPath.basename file_path.
Proof.
  exists quarantine_dir. split; [cbn; tauto | apply quarantine_path_eq].
Qed.

Lemma processing_modules_length ty : length (Main_py.processing_modules ty) <= 4.
Proof.
  unfold Main_py.processing_modules.
  repeat (match goal with |- context [String.eqb ?a ?b] => destruct (String.eqb a b) end);
    cbn; lia.
Qed.

Lemma draft_processing_modules_length ty :
  length (Fastapi_main_py.processing_modules ty) <= 4.
Proof.
  unfold Fastapi_main_py.processing_modules.
  destruct (String.eqb ty "contract"); cbn; lia.
Qed.

(** What every run on a staged file comes to: the events it appends all
    carry its id and are at most nine, and the file is moved to
    [destination]. *)
Lemma run_summary run file_path m cid w content :
  In run (runners now) ->
  fs w !! file_path = Some content ->
  exists w' new dir,
    run file_path m cid w = (Ok tt, w') /\
    db w' = db w ++ new /\
    Forall (fun e => Agi_memory.carries cid e = true) new /\
    length new <= 9 /\
    In dir managed_dirs /\
    fs w' = <[dir +:+ "/" +:+ OsPath.basename file_path := content]>
              (delete file_path (fs w)).
Proof.
  intros Hrun Hfile.
  destruct Hrun as [<-|[<-|[]]]; destruct (true_div_error (priority m)) as [e|] eqn:He.
  - destruct (quarantine_path_managed file_path) as (dir & Hdir & Hq).
    eexists _, _, dir. rewrite (run_faults now _ _ _ _ _ _ Hfile He), Hq. cbn [db fs].
    split; [reflexivity|]. split; [reflexivity|]. split.
    { repeat constructor; apply carries_ev. }
    split; [cbn; lia|]. split; [exact Hdir | reflexivity].
  - destruct (final_path_managed _ file_path
                (agi_determined_type_values file_path (tags m))) as (dir & Hdir & Hq).
    eexists _, _, dir. rewrite (run_completes now _ _ _ _ _ Hfile He), Hq. cbn [db fs].
    split; [reflexivity|]. split; [reflexivity|]. split.
    { rewrite !Forall_app. repeat split.
      - repeat constructor; apply carries_ev.
      - apply module_events_carry.
      - repeat constructor; apply carries_ev. }
    split; [|split; [exact Hdir | reflexivity]].
    rewrite !length_app, module_events_length. cbn [length].
    pose proof (processing_modules_length
                  (Main_py.agi_determined_type file_path (tags m))). lia.
  - destruct (quarantine_path_managed file_path) as (dir & Hdir & Hq).
    eexists _, _, dir. rewrite (draft_run_faults now _ _ _ _ _ _ Hfile He), Hq. cbn [db fs].
    split; [reflexivity|]. split; [reflexivity|]. split.
    { repeat constructor; apply carries_ev. }
    split; [cbn; lia|]. split; [exact Hdir | reflexivity].
  - assert (Hty : In (Fastapi_main_py.agi_determined_type file_path (tags m))
                     ["contract"; "invoice"; "research_paper"; "unknown"]).
    { destruct (draft_agi_determined_type_values file_path (tags m))
        as [<-|[<-|[<-|[]]]]; cbn; tauto. }
    destruct (final_path_managed _ file_path Hty) as (dir & Hdir & Hq).
    eexists _, _, dir. rewrite (draft_run_completes now _ _ _ _ _ Hfile He), Hq. cbn [db fs].
    split; [reflexivity|]. split; [reflexivity|]. split.
    { rewrite !Forall_app. repeat split.
      - repeat constructor; apply carries_ev.
      - apply module_events_carry.
      - repeat constructor; apply carries_ev. }
    split; [|split; [exact Hdir | reflexivity]].
    rewrite !length_app, module_events_length. cbn [length].
    pose proof (draft_processing_modules_length
                  (Fastapi_main_py.agi_determined_type file_path (tags m))). lia.
Qed.

(** The history of an id whose events are the [new] ones, at most ten. *)
Lemma history_of_fresh_events old new cid :
  cid <> "" ->
  Forall (fun e => Agi_memory.carries cid e = false) old ->
  Forall (fun e => Agi_memory.carries cid e = true) new ->
  length new <= 10 ->
  Permutation (Main.agi_event_history (Main.get_document_status (old ++ new) cid)) new.
Proof.
  intros Hid Hold Hnew Hlen. unfold Main.get_document_status.
  destruct (Main.last_item _); cbn [Main.agi_event_history];
    rewrite (get_recent_events_given _ _ _ Hid), List.filter_app,
      (filter_none _ _ Hold), (filter_all _ _ Hnew);
    cbn [app]; (rewrite slice_to_all;
      [apply sorted_desc_perm
      | rewrite (Permutation_length (sorted_desc_perm new));
        unfold Agi_memory.default_limit; lia]).
Qed.

End RunFacts.



(** X8: a run never appends more than nine events, so for a non-empty id
    that no stored event carried before, the history the status query
    hands back after the run holds every event of the run, each once. *)
Theorem run_trail_within_status_window (now : nat -> string)
    (run : string -> UploadMetadata -> string -> M unit)
    (file_path : string) (m : UploadMetadata) (correlation_id : string)
    (w : world) (content : string) :
  In run (runners now) ->
  fs w !! file_path = Some content ->
  correlation_id <> "" ->
  Forall (fun e => Agi_memory.carries correlation_id e = false) (db w) ->
  exists w' new,
    run file_path m correlation_id w = (Ok tt, w') /\
    db w' = db w ++ new /\
    length new <= 9 /\
    Permutation
      (Main.agi_event_history (Main.get_document_status (db w') correlation_id)) new.
Proof.
  intros Hrun Hfile Hid Hold.
  destruct (run_summary now run file_path m correlation_id w content Hrun Hfile)
    as (w' & new & dir & Hr & Hdb & Hnew & Hlen & _).
  exists w', new. split; [exact Hr|]. split; [exact Hdb|]. split; [exact Hlen|].
  rewrite Hdb. apply history_of_fresh_events; try assumption. lia.
Qed.

Lemma run_trail_within_status_window_witness :
  exists w' new,
    Main.dynamic_document_processor Scenario.clock Scenario.staged_path
      default_metadata Scenario.correlation_id Scenario_worlds.staged = (Ok tt, w') /\
    length new <= 9 /\
    Permutation
      (Main.agi_event_history (Main.get_document_status (db w') Scenario.correlation_id))
      new.
Proof.
  destruct (run_trail_within_status_window Scenario.clock
              (Main.dynamic_document_processor Scenario.clock)
              Scenario.staged_path default_metadata Scenario.correlation_id
              Scenario_worlds.staged "%PDF-1.7")
    as (w' & new & Hr & _ & Hl & Hp).
  - left. reflexivity.
  - reflexivity.
  - discriminate.
  - constructor.
  - exists w', new. split; [exact Hr|]. split; [exact Hl | exact Hp].
Defined.

(** ** What a completed run records *)

Section TrailFacts.

Import Trail Trail_spec.

Variable now : nat -> string.

Lemma payload_module_events key cid t modules :
  omap (payload_of "module_execution" key) (module_events now cid t modules)
  = omap (fun x => dict [("correlation_id", VStr cid); ("module", VStr x);
                         ("status", VStr "completed")] !! key) modules.
Proof.
  revert t. induction modules as [|x r IH]; intros t; [reflexivity|].
  cbn [module_events omap list_omap]. rewrite IH. reflexivity.
Qed.

Lemma payload_other_module_events ty key cid t modules :
  String.eqb "module_execution" ty = false ->
  omap (payload_of ty key) (module_events now cid t modules) = [].
Proof.
  intros Hty. revert t. induction modules as [|x r IH]; intros t; [reflexivity|].
  cbn [module_events omap list_omap]. rewrite IH.
  unfold payload_of, has_type, ev_module, ev. cbn [event_type]. now rewrite Hty.
Qed.

Lemma omap_const_some {A B} (f : A -> B) (l : list A) :
  omap (fun x => Some (f x)) l = map f l.
Proof. induction l as [|x r IH]; [reflexivity|]. cbn. now rewrite IH. Qed.

Lemma completed_trail_payloads cid t file_path m ty modules final :
  let new := completed_trail now cid t file_path m ty modules final in
  omap (payload_of "workflow_assembly" "workflow") new = [VList (map VStr modules)] /\
  omap (payload_of "module_execution" "module") new = map VStr modules /\
  omap (payload_of "module_execution" "status") new
    = map (fun _ => VStr "completed") modules /\
  omap (payload_of "document_processing_complete" "final_path") new = [VStr final] /\
  omap (payload_of "document_classification" "agi_determined_type") new = [VStr ty].
Proof.
  cbv zeta. unfold completed_trail. rewrite !omap_app.
  rewrite !payload_module_events.
  rewrite !payload_other_module_events by reflexivity.
  repeat split; try reflexivity.
  - change (omap (payload_of "module_execution" "module")
              [ev_ingestion_start now cid t file_path m;
               ev_classification now cid (t + 1) ty;
               ev_workflow now cid (t + 2) modules]) with (@nil pyval).
    change (omap (payload_of "module_execution" "module")
              [ev_complete now cid (t + 3 + length modules) final;
               ev_learning now cid (t + 4 + length modules)]) with (@nil pyval).
    rewrite app_nil_r. cbn [app]. apply omap_const_some.
  - change (omap (payload_of "module_execution" "status")
              [ev_ingestion_start now cid t file_path m;
               ev_classification now cid (t + 1) ty;
               ev_workflow now cid (t + 2) modules]) with (@nil pyval).
    change (omap (payload_of "module_execution" "status")
              [ev_complete now cid (t + 3 + length modules) final;
               ev_learning now cid (t + 4 + length modules)]) with (@nil pyval).
    rewrite app_nil_r. cbn [app]. apply (omap_const_some (fun _ => VStr "completed")).
Qed.

Lemma draft_completed_trail_payloads cid t file_path m ty modules final :
  let new := draft_completed_trail now cid t file_path m ty modules final in
  omap (payload_of "workflow_assembly" "workflow") new = [] /\
  omap (payload_of "module_execution" "module") new = map VStr modules /\
  omap (payload_of "module_execution" "status") new
    = map (fun _ => VStr "completed") modules /\
  omap (payload_of "document_processing_complete" "final_path") new = [VStr final] /\
  omap (payload_of "document_classification" "agi_determined_type") new = [VStr ty].
Proof.
  cbv zeta. unfold draft_completed_trail. rewrite !omap_app.
  rewrite !payload_module_events.
  rewrite !payload_other_module_events by reflexivity.
  repeat split; try reflexivity.
  - change (omap (payload_of "module_execution" "module")
              [ev_ingestion_start now cid t file_path m;
               ev_classification now cid (t + 1) ty]) with (@nil pyval).
    change (omap (payload_of "module_execution" "module")
              [ev_complete now cid (t + 2 + length modules) final;
               ev_learning now cid (t + 3 + length modules)]) with (@nil pyval).
    rewrite app_nil_r. cbn [app]. apply omap_const_some.
  - change (omap (payload_of "module_execution" "status")
              [ev_ingestion_start now cid t file_path m;
               ev_classification now cid (t + 1) ty]) with (@nil pyval).
    change (omap (payload_of "module_execution" "status")
              [ev_complete now cid (t + 2 + length modules) final;
               ev_learning now cid (t + 3 + length modules)]) with (@nil pyval).
    rewrite app_nil_r. cbn [app]. apply (omap_const_some (fun _ => VStr "completed")).
Qed.

Lemma no_error_module_events cid t modules :
  List.filter (has_type "document_processing_error") (module_events now cid t modules) = [].
Proof.
  revert t. induction modules as [|x r IH]; intros t; [reflexivity|].
  cbn [module_events List.filter]. now rewrite IH.
Qed.

End TrailFacts.

Section CompletedRuns.

Import Trail Trail_spec.

Variable now : nat -> string.

Lemma run_completes_trail file_path m cid w content :
  fs w !! file_path = Some content ->
  true_div_error (priority m) = None ->
  let ty := Main_py.agi_determined_type file_path (tags m) in
  exists w',
    Main.dynamic_document_processor now file_path m cid w = (Ok tt, w') /\
    db w' = db w ++ completed_trail now cid (ticks w) file_path m ty
                      (Main_py.processing_modules ty) (final_path ty file_path) /\
    fs w' = <[final_path ty file_path := content]> (delete file_path (fs w)).
Proof.
  intros Hfile He ty. eexists. rewrite (run_completes now _ _ _ _ _ Hfile He).
  cbn [db fs]. repeat split.
Qed.

Lemma draft_run_completes_trail file_path m cid w content :
  fs w !! file_path = Some content ->
  true_div_error (priority m) = None ->
  let ty := Fastapi_main_py.agi_determined_type file_path (tags m) in
  exists w',
    Fastapi_main.dynamic_document_processor now file_path m cid w = (Ok tt, w') /\
    db w' = db w ++ draft_completed_trail now cid (ticks w) file_path m ty
                      (Fastapi_main_py.processing_modules ty) (final_path ty file_path) /\
    fs w' = <[final_path ty file_path := content]> (delete file_path (fs w)).
Proof.
  intros Hfile He ty. eexists. rewrite (draft_run_completes now _ _ _ _ _ Hfile He).
  cbn [db fs]. repeat split.
Qed.

Lemma workflow_lists_stages cid t modules :
  data (ev_workflow now cid t modules) !! "workflow" = Some (VList (map VStr modules)).
Proof.
  unfold ev_workflow, ev, dict. cbn [data list_to_map foldr fst snd].
  rewrite lookup_insert_ne by discriminate. apply lookup_insert_eq.
Qed.

Lemma module_events_fields cid t modules :
  map event_type (module_events now cid t modules)
    = map (fun _ => "module_execution") modules /\
  map (fun e => data e !! "module") (module_events now cid t modules)
    = map (fun x => Some (VStr x)) modules /\
  map (fun e => data e !! "status") (module_events now cid t modules)
    = map (fun _ => Some (VStr "completed")) modules.
Proof.
  revert t. induction modules as [|x r IH]; intros t; [repeat split|].
  destruct (IH (S t)) as (H1 & H2 & H3). cbn [module_events map].
  rewrite H1, H2, H3. repeat split.
Qed.

End CompletedRuns.

(** X9: when no stage faults, the runner of Main.py stores, in this
    order, the ingestion start, the classification, one workflow_assembly
    event that lists the stages, then exactly one module_execution event
    per listed stage, in the listed order and each with status completed,
    then the completion and the learning cycle; the draft of
    Fastapi_main.py stores the same sequence for the stages of its own
    table, without the workflow_assembly event. *)
Theorem completed_run_executes_its_workflow (now : nat -> string)
    (file_path : string) (m : UploadMetadata) (correlation_id : string)
    (w : world) (content : string) :
  fs w !! file_path = Some content ->
  true_div_error (priority m) = None ->
  let t := ticks w in
  (let ty := Main_py.agi_determined_type file_path (tags m) in
   let modules := Main_py.processing_modules ty in
   let stages := Trail.module_events now correlation_id (t + 3) modules in
   exists w',
     Main.dynamic_document_processor now file_path m correlation_id w = (Ok tt, w') /\
     db w' = db w
             ++ [Trail.ev_ingestion_start now correlation_id t file_path m;
                 Trail.ev_classification now correlation_id (t + 1) ty;
                 Trail.ev_workflow now correlation_id (t + 2) modules]
             ++ stages
             ++ [Trail.ev_complete now correlation_id (t + 3 + length modules)
                   (Trail.final_path ty file_path);
                 Trail.ev_learning now correlation_id (t + 4 + length modules)] /\
     data (Trail.ev_workflow now correlation_id (t + 2) modules) !! "workflow"
       = Some (VList (map VStr modules)) /\
     map event_type stages = map (fun _ => "module_execution") modules /\
     map (fun e => data e !! "module") stages = map (fun x => Some (VStr x)) modules /\
     map (fun e => data e !! "status") stages
       = map (fun _ => Some (VStr "completed")) modules) /\
  (let ty := Fastapi_main_py.agi_determined_type file_path (tags m) in
   let modules := Fastapi_main_py.processing_modules ty in
   let stages := Trail.module_events now correlation_id (t + 2) modules in
   exists w',
     Fastapi_main.dynamic_document_processor now file_path m correlation_id w
       = (Ok tt, w') /\
     db w' = db w
             ++ [Trail.ev_ingestion_start now correlation_id t file_path m;
                 Trail.ev_classification now correlation_id (t + 1) ty]
             ++ stages
             ++ [Trail.ev_complete now correlation_id (t + 2 + length modules)
                   (Trail.final_path ty file_path);
                 Trail.ev_learning now correlation_id (t + 3 + length modules)] /\
     map event_type stages = map (fun _ => "module_execution") modules /\
     map (fun e => data e !! "module") stages = map (fun x => Some (VStr x)) modules /\
     map (fun e => data e !! "status") stages
       = map (fun _ => Some (VStr "completed")) modules).
Proof.
  intros Hfile He t. split.
  - cbv zeta. eexists. rewrite (run_completes now _ _ _ _ _ Hfile He). cbn [db].
    split; [reflexivity|]. split; [reflexivity|].
    split; [apply workflow_lists_stages|]. apply module_events_fields.
  - cbv zeta. eexists. rewrite (draft_run_completes now _ _ _ _ _ Hfile He). cbn [db].
    split; [reflexivity|]. split; [reflexivity|]. apply module_events_fields.
Qed.

Lemma completed_run_executes_its_workflow_witness :
  exists w',
    Main.dynamic_document_processor Scenario.clock Scenario.staged_path
      default_metadata Scenario.correlation_id Scenario_worlds.staged = (Ok tt, w') /\
    map event_type (db w')
    = ["document_ingestion_start"; "document_classification"; "workflow_assembly";
       "module_execution"; "module_execution"; "module_execution"; "module_execution";
       "document_processing_complete"; "agi_learning_cycle"] /\
    omap (fun e => data e !! "module") (db w')
    = map VStr ["deep_ocr_segmentation"; "semantic_clause_extraction";
                "entity_resolution_graph_update"; "predictive_risk_assessment_model"].
Proof.
  destruct (completed_run_executes_its_workflow Scenario.clock
              Scenario.staged_path default_metadata Scenario.correlation_id
              Scenario_worlds.staged "%PDF-1.7")
    as ((w' & Hr & Hdb & _) & _).
  - reflexivity.
  - reflexivity.
  - exists w'. split; [exact Hr|]. rewrite Hdb. split; reflexivity.
Defined.

(** X10: when the classifier of a draft answers unknown and no stage
    faults, the run still ends with document_processing_complete, and the
    final_path it records, where the file then is, lies in the quarantine
    directory: the place a failed run moves its file to. *)
Theorem unclassified_file_completes_in_quarantine (now : nat -> string)
    (run : string -> UploadMetadata -> string -> M unit)
    (classify : string -> option (list string) -> string)
    (file_path : string) (m : UploadMetadata) (correlation_id : string)
    (w : world) (content : string) :
  In (run, classify) (Trail_spec.drafts now) ->
  fs w !! file_path = Some content ->
  true_div_error (priority m) = None ->
  classify file_path (tags m) = "unknown" ->
  exists w' new,
    run file_path m correlation_id w = (Ok tt, w') /\
    db w' = db w ++ new /\
    omap (Trail_spec.payload_of "document_processing_complete" "final_path") new
      = [VStr (Trail.quarantine_path file_path)] /\
    List.filter (Trail.has_type "document_processing_error") new = [] /\
    fs w' !! Trail.quarantine_path file_path = Some content.
Proof.
  intros Hrun Hfile He Hty.
  destruct Hrun as [[= <- <-]|[[= <- <-]|[]]].
  - destruct (run_completes_trail now file_path m correlation_id w content Hfile He)
      as (w' & Hr & Hdb & Hfs).
    rewrite Hty in Hdb, Hfs.
    exists w', (Trail_spec.completed_trail now correlation_id (ticks w) file_path m "unknown"
                  (Main_py.processing_modules "unknown")
                  (Trail.final_path "unknown" file_path)).
    split; [exact Hr|]. split; [exact Hdb|].
    split; [apply completed_trail_payloads|].
    split; [unfold Trail_spec.completed_trail;
            now rewrite !List.filter_app, no_error_module_events|].
    rewrite Hfs. apply lookup_insert_eq.
  - destruct (draft_run_completes_trail now file_path m correlation_id w content Hfile He)
      as (w' & Hr & Hdb & Hfs).
    rewrite Hty in Hdb, Hfs.
    exists w', (Trail_spec.draft_completed_trail now correlation_id (ticks w) file_path m
                  "unknown" (Fastapi_main_py.processing_modules "unknown")
                  (Trail.final_path "unknown" file_path)).
    split; [exact Hr|]. split; [exact Hdb|].
    split; [apply draft_completed_trail_payloads|].
    split; [unfold Trail_spec.draft_completed_trail;
            now rewrite !List.filter_app, no_error_module_events|].
    rewrite Hfs. apply lookup_insert_eq.
Qed.

Lemma unclassified_file_completes_in_quarantine_witness :
  let w := {| db := []; fs := {[ "/tmp/agi_staging/7_notes.txt" := "hello" ]};
              ticks := 0; on_startup := [] |} in
  exists w',
    Main.dynamic_document_processor Scenario.clock "/tmp/agi_staging/7_notes.txt"
      default_metadata "7" w = (Ok tt, w') /\
    fs w' !! "/mnt/data/quarantine/7_notes.txt" = Some "hello".
Proof.
  intros w.
  destruct (unclassified_file_completes_in_quarantine Scenario.clock
              (Main.dynamic_document_processor Scenario.clock)
              Main_py.agi_determined_type
              "/tmp/agi_staging/7_notes.txt" default_metadata "7" w "hello")
    as (w' & new & Hr & _ & _ & _ & Hf).
  - left. reflexivity.
  - reflexivity.
  - reflexivity.
  - reflexivity.
  - exists w'. split; [exact Hr | exact Hf].
Defined.

(** ** More of sanitize_filename and ingest_document *)

Section NameFacts.

Import PyStr.

Lemma basename_id s : has_char PyChar.slash s = false -> OsPath.basename s = s.
Proof.
  induction s as [|c r IH]; [reflexivity|]. cbn [has_char OsPath.basename].
  intros [Hc Hr]%orb_false_iff. rewrite Hr.
  assert (eqc c PyChar.slash = false) as ->; [|reflexivity].
  apply eqc_neq. apply eqc_neq in Hc. congruence.
Qed.

Lemma replace_dots_id s : py_in ".." s = false -> replace ".." "_" s = s.
Proof.
  unfold replace. induction s as [|c r IH]; [reflexivity|].
  cbn [py_in]. intros [Hs Hr]%orb_false_iff.
  rewrite replace_dots_step, Hs, (IH Hr). reflexivity.
Qed.

Lemma rstrip_idem s : rstrip (rstrip s) = rstrip s.
Proof.
  induction s as [|c r IH]; [reflexivity|]. cbn [rstrip].
  destruct (rstrip r) as [|d r'] eqn:E.
  - destruct (PyChar.is_space c) eqn:Hc; [reflexivity|]. cbn [rstrip]. now rewrite Hc.
  - cbn [rstrip] in IH |- *. now rewrite IH.
Qed.

Lemma lstrip_head s :
  lstrip s = "" \/ exists c r, lstrip s = String c r /\ PyChar.is_space c = false.
Proof.
  induction s as [|c r IH]; [now left|]. cbn [lstrip].
  destruct (PyChar.is_space c) eqn:Hc; [exact IH|]. right. eauto.
Qed.

Lemma lstrip_rstrip_lstrip s : lstrip (rstrip (lstrip s)) = rstrip (lstrip s).
Proof.
  destruct (lstrip_head s) as [->|(c & r & -> & Hc)]; [reflexivity|].
  cbn [rstrip]. destruct (rstrip r); rewrite ?Hc; cbn [lstrip]; now rewrite Hc.
Qed.

Lemma strip_idem s : strip (strip s) = strip s.
Proof. unfold strip. now rewrite lstrip_rstrip_lstrip, rstrip_idem. Qed.

End NameFacts.

(** X11: sanitize_filename is idempotent, and the names it leaves
    unchanged are exactly those without a slash, without two adjacent dots
    and without white space at either end. *)
Theorem sanitize_filename_fixed_points (filename : string) :
  sanitize_filename (sanitize_filename filename) = sanitize_filename filename /\
  (sanitize_filename filename = filename <->
   PyStr.has_char PyChar.slash filename = false /\
   PyStr.py_in ".." filename = false /\
   PyStr.strip filename = filename).
Proof.
  assert (Hfix : forall s, PyStr.has_char PyChar.slash s = false ->
                           PyStr.py_in ".." s = false ->
                           PyStr.strip s = s -> sanitize_filename s = s).
  { intros s H1 H2 H3. unfold sanitize_filename.
    now rewrite (basename_id _ H1), (replace_dots_id _ H2). }
  assert (Hstrip : forall s, PyStr.strip (sanitize_filename s) = sanitize_filename s).
  { intros s. unfold sanitize_filename. apply strip_idem. }
  split.
  - apply Hfix; [apply sanitize_no_slash | apply sanitize_no_dots | apply Hstrip].
  - split.
    + intros E. rewrite <- E.
      split; [apply sanitize_no_slash|]. split; [apply sanitize_no_dots | apply Hstrip].
    + intros (H1 & H2 & H3). now apply Hfix.
Qed.

Section IngestFacts.

Variable now : nat -> string.

(** The one event of an upload that failed. *)
Lemma history_of_one_event old e cid :
  cid <> "" ->
  Forall (fun x => Agi_memory.carries cid x = false) old ->
  Agi_memory.carries cid e = true ->
  Agi_memory.get_recent_events (old ++ [e]) Agi_memory.default_limit (Some cid) = [e].
Proof.
  intros Hid Hold He.
  rewrite (get_recent_events_given _ _ _ Hid), List.filter_app, (filter_none _ _ Hold).
  cbn [List.filter app]. rewrite He. reflexivity.
Qed.

End IngestFacts.

Section IngestIoFacts.

Variable now : nat -> string.
Variable env : io.

(** With a file system that refuses only a NUL, and an application that
    registers handlers, the endpoint is the one of the accepted upload
    above. *)
Lemma ingest_document_nul_only correlation_id file_filename file_content metadata w :
  Ingest_io.ingest_document now Ingest_io.nul_only correlation_id file_filename file_content
    metadata w
  = Main.ingest_document now correlation_id file_filename file_content metadata w.
Proof.
  unfold Ingest_io.ingest_document, Main.ingest_document, Ingest_io.stage_upload,
    Ingest_io.add_event_handler, Ingest_io.nul_only, Ingest_io.with_file.
  cbv [bind try_except write_file add_startup_handler ret raise store_event
       open_error read_error write_error register_error exn_str].
  destruct (PyStr.has_char _ _); reflexivity.
Qed.

(** The endpoint raises exactly when one of its calls fails. *)
Lemma ingest_document_accepts correlation_id file_filename file_content metadata w :
  let path := initial_save_path correlation_id file_filename in
  Ingest_io.first_failure env path file_content = None ->
  Ingest_io.ingest_document now env correlation_id file_filename file_content metadata w
  = (Ok {| Main.message :=
             "Document received by Federated AGI. Autonomous processing initiated.";
           Main.ingest_correlation_id := correlation_id;
           Main.filename := sanitize_filename file_filename;
           Main.agi_status_endpoint := "/document_status/" +:+ correlation_id |},
     {| db := db w; fs := <[path := file_content]> (fs w); ticks := ticks w;
        on_startup := on_startup w
                      ++ [{| task_path := path; task_metadata := metadata;
                             task_correlation_id := correlation_id |}] |}).
Proof.
  intros path. unfold Ingest_io.first_failure, Ingest_io.ingest_document,
    Ingest_io.stage_upload, Ingest_io.add_event_handler, Ingest_io.with_file.
  fold (initial_save_path correlation_id file_filename). fold path.
  destruct (open_error env path); [discriminate|].
  destruct (read_error env); [discriminate|].
  destruct (write_error env path file_content) as [[text written]|]; [discriminate|].
  intros ->. reflexivity.
Qed.

Lemma ingest_document_fails correlation_id file_filename file_content metadata w text :
  let path := initial_save_path correlation_id file_filename in
  Ingest_io.first_failure env path file_content = Some text ->
  exists files,
    Ingest_io.ingest_document now env correlation_id file_filename file_content metadata w
    = (Raise (HTTPException 500 ("Federated AGI failed to ingest document: " +:+ text)),
       {| db := db w
                ++ [Trail.ev now (ticks w) "document_ingestion_error"
                      [("correlation_id", VStr correlation_id); ("error", VStr text);
                       ("filename", VStr (sanitize_filename file_filename))]];
          fs := files; ticks := S (ticks w); on_startup := on_startup w |}) /\
    (forall p, p <> path -> files !! p = fs w !! p) /\
    (open_error env path = Some text -> files = fs w) /\
    (open_error env path = None -> read_error env = None ->
     write_error env path file_content = None -> files !! path = Some file_content).
Proof.
  intros path. unfold Ingest_io.first_failure, Ingest_io.ingest_document,
    Ingest_io.stage_upload, Ingest_io.add_event_handler, Ingest_io.with_file.
  fold (initial_save_path correlation_id file_filename). fold path.
  cbv [bind store_event raise]. cbn [db fs ticks on_startup].
  destruct (open_error env path) as [t0|] eqn:Ho.
  { intros [= ->]. exists (fs w). repeat split; congruence. }
  destruct (read_error env) as [t1|] eqn:Hr.
  { intros [= ->]. exists (<[path := ""]> (fs w)). split; [reflexivity|].
    split; [intros p Hp; now rewrite lookup_insert_ne by congruence|].
    split; congruence. }
  destruct (write_error env path file_content) as [[t2 written]|] eqn:Hw.
  { intros [= ->]. exists (<[path := written]> (fs w)). split; [reflexivity|].
    split; [intros p Hp; now rewrite lookup_insert_ne by congruence|].
    split; congruence. }
  intros ->. exists (<[path := file_content]> (fs w)). split; [reflexivity|].
  split; [intros p Hp; now rewrite lookup_insert_ne by congruence|].
  split; [congruence|]. intros _ _ _. apply lookup_insert_eq.
Qed.

Lemma status_of_one_failure old t cid text name :
  cid <> "" ->
  Forall (fun x => Agi_memory.carries cid x = false) old ->
  let failure :=
    Trail.ev now t "document_ingestion_error"
      [("correlation_id", VStr cid); ("error", VStr text); ("filename", VStr name)] in
  let status := Main.get_document_status (old ++ [failure]) cid in
  Main.agi_processing_status status = "document_ingestion_error" /\
  Main.last_agi_action status = VStr "No specific action data." /\
  Main.agi_event_history status = [failure].
Proof.
  intros Hid Hold failure status. subst status. unfold Main.get_document_status.
  rewrite (history_of_one_event old failure cid Hid Hold (carries_ev now _ _ _ _)).
  cbn [Main.last_item Main.agi_processing_status Main.last_agi_action
       Main.agi_event_history].
  split; [reflexivity|]. split; [|reflexivity].
  subst failure. unfold Main.action_of, Trail.ev, dict.
  cbn [data list_to_map foldr fst snd].
  rewrite !lookup_insert_ne by discriminate. rewrite !lookup_empty. reflexivity.
Qed.

End IngestIoFacts.

(** X12: whatever the file system, the upload and the application do:
    when ingest_document raises, one of its calls failed (opening the
    staged path, reading the upload, writing, or registering the
    handler); the exception is an HTTP 500 whose detail ends in the text
    of the first failure; exactly one document_ingestion_error event is
    stored, with the id, that text and the sanitized name; no handler is
    registered; no file but the one at the staged path is touched: that
    path is as it was when opening it failed, and holds the whole upload
    when only registering failed.  For a non-empty id no stored event
    carried, the status query then reports document_ingestion_error with
    that single event as history. *)
Theorem ingest_failure_is_recorded (now : nat -> string) (env : io)
    (correlation_id file_filename file_content : string) (metadata : UploadMetadata)
    (w w' : world) (e : exn) :
  Ingest_io.ingest_document now env correlation_id file_filename file_content metadata w
    = (Raise e, w') ->
  let path := initial_save_path correlation_id file_filename in
  exists text,
    let failure :=
      Trail.ev now (ticks w) "document_ingestion_error"
        [("correlation_id", VStr correlation_id); ("error", VStr text);
         ("filename", VStr (sanitize_filename file_filename))] in
    Ingest_io.first_failure env path file_content = Some text /\
    e = HTTPException 500 ("Federated AGI failed to ingest document: " +:+ text) /\
    db w' = db w ++ [failure] /\
    on_startup w' = on_startup w /\
    (forall p, p <> path -> fs w' !! p = fs w !! p) /\
    (open_error env path = Some text -> fs w' = fs w) /\
    (open_error env path = None -> read_error env = None ->
     write_error env path file_content = None -> fs w' !! path = Some file_content) /\
    (correlation_id <> "" ->
     Forall (fun x => Agi_memory.carries correlation_id x = false) (db w) ->
     let status := Main.get_document_status (db w') correlation_id in
     Main.agi_processing_status status = "document_ingestion_error" /\
     Main.last_agi_action status = VStr "No specific action data." /\
     Main.agi_event_history status = [failure]).
Proof.
  intros H path.
  destruct (Ingest_io.first_failure env path file_content) as [text|] eqn:Hf.
  - destruct (ingest_document_fails now env correlation_id file_filename file_content
                metadata w text Hf) as (files & Hr & Hframe & Hopen & Hreg).
    rewrite Hr in H. injection H as <- <-. exists text. cbv zeta. cbn [db fs on_startup].
    split; [reflexivity|]. split; [reflexivity|]. split; [reflexivity|].
    split; [reflexivity|]. split; [exact Hframe|]. split; [exact Hopen|].
    split; [exact Hreg|]. intros Hid Hold.
    apply (status_of_one_failure now (db w) (ticks w) correlation_id text
             (sanitize_filename file_filename) Hid Hold).
  - rewrite (ingest_document_accepts now env correlation_id file_filename file_content
               metadata w Hf) in H. discriminate.
Qed.

Lemma ingest_failure_is_recorded_witness :
  (exists w',
     Ingest_io.ingest_document Scenario.clock Ingest_io.no_event_handlers "7" "a.pdf" "x"
       default_metadata Scenario.fresh_world
     = (Raise (HTTPException 500
                 ("Federated AGI failed to ingest document: "
                  +:+ "'FastAPI' object has no attribute 'add_event_handler'")), w') /\
     map event_type (db w') = ["document_ingestion_error"] /\
     on_startup w' = [] /\
     fs w' !! "/tmp/agi_staging/7_a.pdf" = Some "x") /\
  (exists w' text,
     Ingest_io.ingest_document Scenario.clock Ingest_io.name_limit "7"
       (String.concat "" (repeat "abcdefghij" 30)) "x" default_metadata Scenario.fresh_world
     = (Raise (HTTPException 500 ("Federated AGI failed to ingest document: " +:+ text)), w') /\
     PyStr.starts_with "[Errno 36] File name too long: '/tmp/agi_staging/7_abcdefghij" text
       = true /\
     map event_type (db w') = ["document_ingestion_error"] /\
     fs w' = ∅).
Proof.
  split.
  - destruct (Ingest_io.ingest_document Scenario.clock Ingest_io.no_event_handlers "7" "a.pdf"
                "x" default_metadata Scenario.fresh_world) as [[r|e] w'] eqn:E;
      [vm_compute in E; discriminate|].
    destruct (ingest_failure_is_recorded Scenario.clock Ingest_io.no_event_handlers "7"
                "a.pdf" "x" default_metadata Scenario.fresh_world w' e E)
      as (text & Hf & -> & Hdb & Hs & _ & _ & Hfile & _).
    injection Hf as <-. exists w'. split; [reflexivity|]. rewrite Hdb, Hs.
    split; [reflexivity|]. split; [reflexivity|]. apply Hfile; reflexivity.
  - destruct (Ingest_io.ingest_document Scenario.clock Ingest_io.name_limit "7"
                (String.concat "" (repeat "abcdefghij" 30)) "x" default_metadata
                Scenario.fresh_world) as [[r|e] w'] eqn:E;
      [vm_compute in E; discriminate|].
    destruct (ingest_failure_is_recorded Scenario.clock Ingest_io.name_limit "7"
                (String.concat "" (repeat "abcdefghij" 30)) "x" default_metadata
                Scenario.fresh_world w' e E)
      as (text & Hf & -> & Hdb & _ & _ & Hopen & _).
    exists w', text. split; [reflexivity|].
    split; [vm_compute in Hf; injection Hf as <-; reflexivity|].
    rewrite Hdb. split; [reflexivity|]. apply Hopen. exact Hf.
Defined.

(** X13: whatever the file system, the upload and the application do: an
    accepted upload leaves what the runner needs.  No call failed; no
    event is stored; the staged path holds the whole upload; the one
    handler registered holds, as arguments for dynamic_document_processor,
    the staged path, the given metadata and the id of the answer; and a
    call of either draft of dynamic_document_processor on these
    arguments, in the state the upload left, returns normally with the
    upload in one of the four managed directories.  (Calling the
    registered closure itself is not modelled.) *)
Theorem accepted_upload_meets_runner_precondition (now : nat -> string) (env : io)
    (run : string -> UploadMetadata -> string -> M unit)
    (correlation_id file_filename file_content : string) (metadata : UploadMetadata)
    (w w1 : world) (r : Main.ingest_response) :
  Ingest_io.ingest_document now env correlation_id file_filename file_content metadata w
    = (Ok r, w1) ->
  In run (runners now) ->
  let path := initial_save_path correlation_id file_filename in
  Ingest_io.first_failure env path file_content = None /\
  Main.ingest_correlation_id r = correlation_id /\
  Main.agi_status_endpoint r = "/document_status/" +:+ correlation_id /\
  db w1 = db w /\
  fs w1 = <[path := file_content]> (fs w) /\
  on_startup w1 = on_startup w
                  ++ [{| task_path := path; task_metadata := metadata;
                         task_correlation_id := correlation_id |}] /\
  exists w2 dir,
    run path metadata correlation_id w1 = (Ok tt, w2) /\
    In dir Trail_spec.managed_dirs /\
    fs w2 !! (dir +:+ "/" +:+ OsPath.basename path) = Some file_content.
Proof.
  intros Hing Hrun path.
  destruct (Ingest_io.first_failure env path file_content) as [text|] eqn:Hf.
  { destruct (ingest_document_fails now env correlation_id file_filename file_content
                metadata w text Hf) as (files & Hr & _).
    rewrite Hr in Hing. discriminate. }
  rewrite (ingest_document_accepts now env correlation_id file_filename file_content
             metadata w Hf) in Hing.
  injection Hing as <- <-. cbn [Main.ingest_correlation_id Main.agi_status_endpoint db fs
                                on_startup].
  fold path. split; [reflexivity|]. split; [reflexivity|]. split; [reflexivity|].
  split; [reflexivity|]. split; [reflexivity|]. split; [reflexivity|].
  match goal with
  | |- context [run path metadata correlation_id ?w1] =>
      destruct (run_summary now run path metadata correlation_id w1 file_content Hrun)
        as (w2 & new & dir & Hrun2 & _ & _ & _ & Hdir & Hfs)
  end.
  { cbn [fs]. apply lookup_insert_eq. }
  exists w2, dir. split; [exact Hrun2|]. split; [exact Hdir|]. rewrite Hfs.
  apply lookup_insert_eq.
Qed.

Lemma accepted_upload_meets_runner_precondition_witness :
  exists r w1 w2 dir,
    Ingest_io.ingest_document Scenario.clock Ingest_io.name_limit "7" "a.pdf" "x"
      default_metadata Scenario.fresh_world = (Ok r, w1) /\
    fs w1 !! "/tmp/agi_staging/7_a.pdf" = Some "x" /\
    Main.dynamic_document_processor Scenario.clock "/tmp/agi_staging/7_a.pdf"
      default_metadata "7" w1 = (Ok tt, w2) /\
    fs w2 !! (dir +:+ "/7_a.pdf") = Some "x".
Proof.
  destruct (Ingest_io.ingest_document Scenario.clock Ingest_io.name_limit "7" "a.pdf" "x"
              default_metadata Scenario.fresh_world) as [[r|e] w1] eqn:E;
    [|vm_compute in E; discriminate].
  destruct (accepted_upload_meets_runner_precondition Scenario.clock Ingest_io.name_limit
              (Main.dynamic_document_processor Scenario.clock)
              "7" "a.pdf" "x" default_metadata Scenario.fresh_world w1 r E)
    as (_ & _ & _ & _ & Hfs & _ & w2 & dir & Hrun & _ & Hf).
  - left. reflexivity.
  - exists r, w1, w2, dir. split; [reflexivity|].
    split; [rewrite Hfs; apply lookup_insert_eq|]. split; [exact Hrun | exact Hf].
Defined.

(** ** The chat endpoints *)

Section ChatFacts.

Variable now : nat -> string.

(** Events whose payload has no correlation id are invisible to every
    query by id. *)
Lemma carries_without_id cid e :
  data e !! "correlation_id" = None -> Agi_memory.carries cid e = false.
Proof. unfold Agi_memory.carries. now intros ->. Qed.

Lemma get_recent_events_frame old new cid limit :
  cid <> "" ->
  Forall (fun e => data e !! "correlation_id" = None) new ->
  Agi_memory.get_recent_events (old ++ new) limit (Some cid)
  = Agi_memory.get_recent_events old limit (Some cid).
Proof.
  intros Hid Hnew.
  rewrite !(get_recent_events_given _ _ _ Hid), List.filter_app.
  rewrite (filter_none _ new), app_nil_r; [reflexivity|].
  eapply List.Forall_impl; [|exact Hnew]. intros e. apply carries_without_id.
Qed.

Lemma get_document_status_frame old new cid :
  cid <> "" ->
  Forall (fun e => data e !! "correlation_id" = None) new ->
  Main.get_document_status (old ++ new) cid = Main.get_document_status old cid.
Proof.
  intros Hid Hnew. unfold Main.get_document_status.
  now rewrite (get_recent_events_frame _ _ _ _ Hid Hnew).
Qed.

(** What the reasoning core answers to the payload of the web socket:
    the payload has no key [memory_context]. *)
Lemma websocket_core_reply data0 :
  Agi_dispatcher.dispatch_to_capability_core "chat_reasoning"
    [("user_message", VStr data0); ("context", VDict [("channel", VStr "websocket")])]
  = "AGI EchoNexus Core: Received '" +:+ data0
    +:+ "' (Context: {}). Processing for optimal response.".
Proof. reflexivity. Qed.

Lemma websocket_endpoint_trail received w :
  exists w',
    Main_chat.websocket_endpoint now received w
    = (Ok (map (fun data0 =>
                  "AGI EchoNexus (WS): AGI EchoNexus Core: Received '" +:+ data0
                  +:+ "' (Context: {}). Processing for optimal response.") received), w') /\
    fs w' = fs w /\ on_startup w' = on_startup w /\
    ticks w' = ticks w + 2 * length received + 1 /\
    exists new,
      db w' = db w ++ new /\
      map event_type new
        = concat (map (fun _ => ["websocket_message_received"; "websocket_message_sent"])
                    received)
          ++ ["websocket_disconnect"] /\
      omap (Trail_spec.payload_of "websocket_message_received" "message") new
        = map VStr received /\
      Forall (fun e => data e !! "correlation_id" = None) new.
Proof.
  revert w. induction received as [|data0 rest IH]; intros w.
  - eexists. split; [reflexivity|]. cbn [db fs ticks on_startup length].
    split; [reflexivity|]. split; [reflexivity|]. split; [lia|].
    eexists. split; [reflexivity|]. split; [reflexivity|]. split; [reflexivity|].
    repeat constructor.
  - cbn [Main_chat.websocket_endpoint]. unfold bind at 1.
    unfold Main_chat.websocket_turn at 1.
    cbv [bind store_event ret]. cbn [db fs ticks on_startup].
    match goal with
    | |- context [Main_chat.websocket_endpoint now rest ?w1] =>
        destruct (IH w1) as (w' & Hr & Hfs & Hs & Ht & new & Hdb & Hty & Hmsg & Hno)
    end.
    rewrite Hr. exists w'. rewrite websocket_core_reply.
    split; [reflexivity|]. cbn [db fs ticks on_startup length] in *.
    split; [exact Hfs|]. split; [exact Hs|]. split; [lia|].
    eexists (_ :: _ :: new). split; [rewrite Hdb, <- !app_assoc; reflexivity|].
    split; [cbn [map concat app event_type]; now rewrite Hty|].
    split.
    + change (omap ?f (?a :: ?b :: new)) with (omap f [a; b] ++ omap f new).
      rewrite Hmsg. reflexivity.
    + repeat constructor; exact Hno.
Qed.

End ChatFacts.

(** X14: chat_with_agi always returns; the answer is the text of the
    reasoning core, which quotes the message and renders the given context
    (None when the request set it to null: the default of the core is
    never used); it stores the message and then the answer it returned,
    touches no file, and changes the answer of no status query. *)
Theorem chat_with_agi_records_exchange (now : nat -> string) (chat_input : ChatInput)
    (w : world) (correlation_id : string) :
  correlation_id <> "" ->
  let response :=
    "AGI EchoNexus Core: Received '" +:+ user_message chat_input +:+ "' (Context: "
    +:+ PyRepr.str (opt_val VDict (memory_context chat_input))
    +:+ "). Processing for optimal response." in
  exists w',
    Main_chat.chat_with_agi now chat_input w = (Ok response, w') /\
    db w' = db w
            ++ [ Trail.ev now (ticks w) "user_chat_message"
                   [("message", VStr (user_message chat_input));
                    ("context", opt_val VDict (memory_context chat_input))];
                 Trail.ev now (ticks w + 1) "agi_chat_response"
                   [("response", VStr response)] ] /\
    fs w' = fs w /\
    on_startup w' = on_startup w /\
    Main.get_document_status (db w') correlation_id
      = Main.get_document_status (db w) correlation_id.
Proof.
  intros Hid response. eexists. split.
  - unfold Main_chat.chat_with_agi. cbv [bind store_event ret]. reflexivity.
  - cbn [db fs ticks on_startup]. rewrite <- app_assoc. cbn [app].
    replace (S (ticks w)) with (ticks w + 1) by lia.
    split; [reflexivity|]. split; [reflexivity|]. split; [reflexivity|].
    change (db w ++ [?a; ?b]) with (db w ++ [a; b]).
    apply get_document_status_frame; [exact Hid|].
    repeat constructor.
Qed.

Lemma chat_with_agi_records_exchange_witness :
  exists w',
    Main_chat.chat_with_agi Scenario.clock
      {| user_message := "hello"; memory_context := None |} Scenario.fresh_world
    = (Ok "AGI EchoNexus Core: Received 'hello' (Context: None). Processing for optimal response.",
       w') /\
    Main.get_document_status (db w') "a1" = Main.get_document_status [] "a1".
Proof.
  destruct (chat_with_agi_records_exchange Scenario.clock
              {| user_message := "hello"; memory_context := None |}
              Scenario.fresh_world "a1")
    as (w' & Hr & _ & _ & _ & Hs).
  - discriminate.
  - exists w'. split; [exact Hr | exact Hs].
Defined.

(** X15: a web socket session in which the client sends n texts and then
    disconnects returns normally; it answers each text in order with the
    reply of the reasoning core, which always reads an empty context (the
    channel the endpoint passes under the key context is not the key the
    core reads); it stores a received and a sent event per text and one
    websocket_disconnect event at the end, 2n + 1 in all, none of them
    visible to a status query. *)
Theorem websocket_session_trail (now : nat -> string) (received : list string)
    (w : world) (correlation_id : string) :
  correlation_id <> "" ->
  exists w' new,
    Main_chat.websocket_endpoint now received w
    = (Ok (map (fun data0 =>
                  "AGI EchoNexus (WS): AGI EchoNexus Core: Received '" +:+ data0
                  +:+ "' (Context: {}). Processing for optimal response.") received), w') /\
    db w' = db w ++ new /\
    length new = 2 * length received + 1 /\
    map event_type new
      = concat (map (fun _ => ["websocket_message_received"; "websocket_message_sent"])
                  received)
        ++ ["websocket_disconnect"] /\
    omap (Trail_spec.payload_of "websocket_message_received" "message") new
      = map VStr received /\
    Main.get_document_status (db w') correlation_id
      = Main.get_document_status (db w) correlation_id.
Proof.
  intros Hid.
  destruct (websocket_endpoint_trail now received w)
    as (w' & Hr & _ & _ & _ & new & Hdb & Hty & Hmsg & Hno).
  exists w', new. split; [exact Hr|]. split; [exact Hdb|]. split.
  { rewrite <- (length_map event_type), Hty, length_app. cbn [length].
    clear. induction received as [|x r IH]; [reflexivity|].
    cbn [map concat length app]. lia. }
  split; [exact Hty|]. split; [exact Hmsg|].
  rewrite Hdb. now apply get_document_status_frame.
Qed.

Lemma websocket_session_trail_witness :
  exists w' new,
    Main_chat.websocket_endpoint Scenario.clock ["hi"; "status?"] Scenario.fresh_world
    = (Ok ["AGI EchoNexus (WS): AGI EchoNexus Core: Received 'hi' (Context: {}). Processing for optimal response.";
           "AGI EchoNexus (WS): AGI EchoNexus Core: Received 'status?' (Context: {}). Processing for optimal response."],
       w') /\
    db w' = new /\ length new = 5.
Proof.
  destruct (websocket_session_trail Scenario.clock ["hi"; "status?"]
              Scenario.fresh_world "a1")
    as (w' & new & Hr & Hdb & Hlen & _).
  - discriminate.
  - exists w', new. split; [exact Hr|]. split; [exact Hdb | exact Hlen].
Defined.

(** ** The amplifier at any depth *)

Section AmplifierRuns.

Import Transformation_engine Recursive_amplifier Amplifier_spec.

Lemma mode_of_lookup z :
  transformation_modes !! Z.to_nat (z mod Z.of_nat (length transformation_modes))
  = Some (mode_of z).
Proof.
  unfold mode_of. change (Z.of_nat (length transformation_modes)) with 4%Z.
  pose proof (Z.mod_pos_bound z 4 ltac:(lia)) as Hb.
  destruct (Z.to_nat (z mod 4)) as [|[|[|[|n]]]] eqn:E; try reflexivity. lia.
Qed.

Lemma mode_of_cases z :
  In (mode_of z) transformation_modes.
Proof.
  unfold mode_of. pose proof (Z.mod_pos_bound z 4 ltac:(lia)) as Hb.
  destruct (Z.to_nat (z mod 4)) as [|[|[|[|n]]]] eqn:E; cbn; try tauto. lia.
Qed.

(** A pass on a construct whose count is [z], or absent and read as 0. *)
Lemma transform_reads (data : gmap string pyval) (z : Z) :
  get data "iteration_count" (VInt 0) = VInt z ->
  transform data = Some (pass z data, announce (mode_of z)).
Proof.
  intros H. unfold transform. cbv zeta. rewrite H, mode_of_lookup. reflexivity.
Qed.

Lemma transform_fails (data : gmap string pyval) :
  transform data = None <->
  exists v, data !! "iteration_count" = Some v /\ forall z, v <> VInt z.
Proof.
  split.
  - intros H. destruct (get data "iteration_count" (VInt 0)) as [|z|s|l|d] eqn:E;
      try (now rewrite (transform_reads _ _ E) in H);
      unfold get in E; destruct (data !! "iteration_count") as [v|]; try discriminate;
      exists v; subst v; (split; [reflexivity | discriminate]).
  - intros (v & Hv & Hn). unfold transform, get. cbv zeta. rewrite Hv.
    destruct v; try reflexivity. now destruct (Hn z).
Qed.

Lemma get_pass_count z data : get (pass z data) "iteration_count" (VInt 0) = VInt (z + 1).
Proof. unfold get. now rewrite pass_count. Qed.

Lemma applied_mode_announce z : applied_mode (announce (mode_of z)) = Some (mode_of z).
Proof.
  destruct (mode_of_cases z) as [<-|[<-|[<-|[<-|[]]]]]; reflexivity.
Qed.

Lemma applied_mode_iteration x : applied_mode ("  Iteration " +:+ x) = None.
Proof. reflexivity. Qed.

Lemma amplify_from_runs self n : forall i data z,
  get data "iteration_count" (VInt 0) = VInt z ->
  exists r out,
    amplify_from self n i data = Some (r, out) /\
    (n = 0 -> r = data) /\
    (0 < n -> r !! "iteration_count" = Some (VInt (z + Z.of_nat n))) /\
    applied_modes out = map (fun k => mode_of (z + Z.of_nat k)) (seq 0 n) /\
    length out = 2 * n /\
    (forall k, k <> "iteration_count" -> k <> "transformation_applied" -> k <> "value" ->
               r !! k = data !! k).
Proof.
  induction n as [|n IH]; intros i data z Hz.
  - exists data, []. repeat split; try reflexivity. lia.
  - cbn [amplify_from]. rewrite (transform_reads _ _ Hz).
    destruct (IH (i + 1)%Z (pass z data) (z + 1)%Z (get_pass_count z data))
      as (r & out & Hr & H0 & Hc & Hm & Hl & Hk).
    rewrite Hr. eexists _, _. split; [reflexivity|].
    split; [discriminate|]. split; [|split; [|split]].
    + intros _. destruct n as [|n'].
      * rewrite (H0 eq_refl), pass_count; do 2 apply f_equal; lia.
      * rewrite Hc by lia; do 2 apply f_equal; lia.
    + unfold applied_modes in *.
      change (omap applied_mode (?a :: ?b :: out))
        with (omap applied_mode ([a] ++ [b] ++ out)).
      rewrite !omap_app.
      change (omap applied_mode ["  Iteration " +:+ ?x]) with (@nil string).
      change (omap applied_mode [announce (mode_of z)])
        with (match applied_mode (announce (mode_of z)) with
              | Some y => [y]
              | None => []
              end).
      rewrite applied_mode_announce, Hm. cbn [seq map app].
      rewrite Z.add_0_r. f_equal. rewrite <- seq_shift, map_map.
      apply map_ext. intros k. f_equal. lia.
    + cbn [length]. lia.
    + intros k H1 H2 H3. rewrite (Hk k H1 H2 H3). now apply pass_other.
Qed.

End AmplifierRuns.

(** X16: for every depth d and every construct whose iteration_count is
    an int z, or absent and read as 0, amplify returns: with d <= 0 the
    construct as it was, else a construct at count z + d; the transformer
    announced d modes, the one of pass k being modes[(z + k) mod 4]; the
    keys transform does not write are untouched; 2 d + 2 lines were
    printed. *)
Theorem amplify_any_depth (self : Recursive_amplifier.RecursiveAmplifier)
    (seed : gmap string pyval) (z : Z) :
  Transformation_engine.get seed "iteration_count" (VInt 0) = VInt z ->
  exists result out,
    Recursive_amplifier.amplify self seed = Some (result, out) /\
    ((Recursive_amplifier.depth self <= 0)%Z -> result = seed) /\
    ((0 < Recursive_amplifier.depth self)%Z ->
     result !! "iteration_count" = Some (VInt (z + Recursive_amplifier.depth self))) /\
    Recursive_amplifier.applied_modes out
      = map (fun k => Amplifier_spec.mode_of (z + Z.of_nat k))
            (seq 0 (Z.to_nat (Recursive_amplifier.depth self))) /\
    length out = 2 * Z.to_nat (Recursive_amplifier.depth self) + 2 /\
    (forall k, k <> "iteration_count" -> k <> "transformation_applied" -> k <> "value" ->
               result !! k = seed !! k).
Proof.
  intros Hz.
  destruct (amplify_from_runs self (Z.to_nat (Recursive_amplifier.depth self)) 0 seed z Hz)
    as (r & out & Hr & H0 & Hc & Hm & Hl & Hk).
  unfold Recursive_amplifier.amplify. rewrite Hr. eexists _, _. split; [reflexivity|].
  split; [intros Hd; apply H0; lia|].
  split; [intros Hd; rewrite Hc by lia; do 2 apply f_equal; lia|].
  split; [|split; [|exact Hk]].
  - unfold Recursive_amplifier.applied_modes in *.
    change (omap Recursive_amplifier.applied_mode (?a :: out ++ ?b))
      with (omap Recursive_amplifier.applied_mode ([a] ++ out ++ b)).
    rewrite !omap_app, Hm.
    change (omap Recursive_amplifier.applied_mode
              ["RecursiveAmplifier: Amplification complete."]) with (@nil string).
    rewrite app_nil_r.
    assert (Hs : forall x, Recursive_amplifier.applied_mode
                             ("RecursiveAmplifier: Starting amplification for depth " +:+ x)
                           = None) by reflexivity.
    cbn [omap list_omap app]. now rewrite Hs.
  - cbn [length]. rewrite length_app, Hl. cbn [length]. lia.
Qed.

Lemma amplify_any_depth_witness :
  exists result out,
    Recursive_amplifier.amplify {| Recursive_amplifier.depth := 6 |}
      (dict [("value", VStr "x"); ("iteration_count", VInt 3)]) = Some (result, out) /\
    result !! "iteration_count" = Some (VInt 9) /\
    Recursive_amplifier.applied_modes out
      = ["syntactic"; "stylistic"; "modal"; "conceptual"; "syntactic"; "stylistic"].
Proof.
  destruct (amplify_any_depth {| Recursive_amplifier.depth := 6 |}
              (dict [("value", VStr "x"); ("iteration_count", VInt 3)]) 3)
    as (result & out & Ha & _ & Hc & Hm & _).
  - reflexivity.
  - exists result, out. split; [exact Ha|]. split; [apply Hc; reflexivity | exact Hm].
Defined.

(** X17: amplify fails exactly when it makes at least one pass and the
    construct has an iteration_count that is not an int: a missing count
    is read as 0, and with a depth of 0 or less the construct is never
    looked at. *)
Theorem amplify_fails_iff (self : Recursive_amplifier.RecursiveAmplifier)
    (seed : gmap string pyval) :
  Recursive_amplifier.amplify self seed = None <->
  (0 < Recursive_amplifier.depth self)%Z /\
  exists v, seed !! "iteration_count" = Some v /\ forall z, v <> VInt z.
Proof.
  split.
  - intros H.
    destruct (Transformation_engine.transform seed) as [[c line]|] eqn:T.
    + exfalso.
      assert (exists z, Transformation_engine.get seed "iteration_count" (VInt 0) = VInt z)
        as [z Hz].
      { destruct (Transformation_engine.get seed "iteration_count" (VInt 0)) eqn:E;
          try (unfold Transformation_engine.transform in T; cbv zeta in T;
               rewrite E in T; discriminate).
        eauto. }
      destruct (amplify_from_runs self (Z.to_nat (Recursive_amplifier.depth self)) 0 seed z Hz)
        as (r & out & Hr & _).
      unfold Recursive_amplifier.amplify in H. rewrite Hr in H. discriminate.
    + split; [|now apply transform_fails].
      destruct (Z.to_nat (Recursive_amplifier.depth self)) eqn:E; [|lia].
      unfold Recursive_amplifier.amplify in H. rewrite E in H. discriminate.
  - intros (Hd & Hv). apply transform_fails in Hv.
    unfold Recursive_amplifier.amplify.
    destruct (Z.to_nat (Recursive_amplifier.depth self)) eqn:E; [lia|].
    cbn [Recursive_amplifier.amplify_from]. now rewrite Hv.
Qed.

(** ** The creative cycle *)

Section TextFacts.

Import PyStr PyText.

Lemma upper_text_app a b : upper_text (a +:+ b) = upper_text a +:+ upper_text b.
Proof.
  induction a as [|c r IH]; [reflexivity|]. rewrite append_cons. cbn [upper_text].
  rewrite IH. destruct (Nat.eqb (PyChar.code c) 223); [|reflexivity].
  now rewrite append_assoc.
Qed.

(** The text of a number holds digits and a sign only. *)
Lemma str_uint_plain d :
  has_char "T" (NilEmpty.string_of_uint d) = false /\
  upper_text (NilEmpty.string_of_uint d) = NilEmpty.string_of_uint d.
Proof.
  induction d as [|d [IH1 IH2]|d [IH1 IH2]|d [IH1 IH2]|d [IH1 IH2]|d [IH1 IH2]
                  |d [IH1 IH2]|d [IH1 IH2]|d [IH1 IH2]|d [IH1 IH2]|d [IH1 IH2]];
    split; try reflexivity; cbn [NilEmpty.string_of_uint has_char upper_text];
    try (rewrite IH1; reflexivity); rewrite IH2; reflexivity.
Qed.

Lemma str_int_plain z :
  has_char "T" (PyRepr.str_int z) = false /\
  upper_text (PyRepr.str_int z) = PyRepr.str_int z.
Proof.
  unfold PyRepr.str_int, NilZero.string_of_int, NilZero.string_of_uint.
  destruct z as [|p|p]; cbn [Z.to_int]; [split; reflexivity| |].
  - destruct (str_uint_plain (Pos.to_uint p)) as [H1 H2].
    destruct (Pos.to_uint p); try (split; [exact H1 | exact H2]). split; reflexivity.
  - destruct (str_uint_plain (Pos.to_uint p)) as [H1 H2].
    destruct (Pos.to_uint p) eqn:E; try (split; reflexivity);
      (split; [cbn [has_char]; rewrite H1; reflexivity
              | cbn [upper_text]; rewrite H2; reflexivity]).
Qed.

(** A text without the first character of [p] does not hold [p]. *)
Lemma py_in_needs_head c p s : has_char c s = false -> py_in (String c p) s = false.
Proof.
  induction s as [|d r IH]; [reflexivity|]. cbn [has_char py_in starts_with].
  intros [Hd Hr]%orb_false_iff. now rewrite Hd, (IH Hr).
Qed.

End TextFacts.

Section CycleFacts.

Import Transformation_engine Recursive_amplifier Amplifier_spec Creative_spec.

Variable hash_of : string -> Z.

Ltac lookups :=
  unfold dict; cbn [list_to_map foldr fst snd];
  repeat first [ rewrite lookup_insert_eq
               | rewrite lookup_insert_ne by discriminate
               | rewrite lookup_empty ].

Lemma ingest_text i t :
  text_input i = Some t ->
  Perception_interface.ingest hash_of (creative_input_dict i)
  = Returned (dict [("raw_input_hash",
                       VInt (hash_of (PyRepr.str (VDict (creative_input_dict i)))));
                    ("perceived_elements", VList (perceived t i));
                    ("inferred_context", opt_val VDict (context i))]).
Proof.
  intros H. unfold Perception_interface.ingest, creative_input_dict, perceived. rewrite H.
  reflexivity.
Qed.

Lemma ingest_no_text i :
  text_input i = None ->
  Perception_interface.ingest hash_of (creative_input_dict i)
  = Raised "'NoneType' object is not subscriptable".
Proof.
  intros H. unfold Perception_interface.ingest, creative_input_dict. rewrite H. reflexivity.
Qed.

Lemma generate_seed_context seed_type number h pe c :
  Seed_generator.generate_seed seed_type number
    (dict [("raw_input_hash", h); ("perceived_elements", pe); ("inferred_context", VDict c)])
  = Returned (dict [("type", VStr seed_type);
                    ("value", VStr (PyStr.upper seed_type +:+ "_SEED::"
                                    +:+ PyRepr.str_int number));
                    ("inferred_context",
                       VDict [("source_stimuli", pe);
                              ("mood_hint", hint c "mood" "neutral");
                              ("theme_hint", hint c "theme" "abstract")]);
                    ("iteration_count", VInt 0)]).
Proof.
  unfold Seed_generator.generate_seed, Transformation_engine.get. cbv zeta. lookups.
  reflexivity.
Qed.

Lemma generate_seed_no_context seed_type number h pe :
  Seed_generator.generate_seed seed_type number
    (dict [("raw_input_hash", h); ("perceived_elements", pe); ("inferred_context", VNone)])
  = Raised "'NoneType' object has no attribute 'get'".
Proof.
  unfold Seed_generator.generate_seed, Transformation_engine.get. cbv zeta. lookups.
  reflexivity.
Qed.

Lemma stem_of_seed seed_type number :
  In seed_type Seed_generator.seed_types ->
  PyStr.lower (PyText.before "::" (PyStr.upper seed_type +:+ "_SEED::"
                                   +:+ PyRepr.str_int number))
  = seed_type +:+ "_seed".
Proof.
  intros [<-|[<-|[<-|[<-|[<-|[<-|[]]]]]]]; reflexivity.
Qed.

Lemma map_patterns_seed seed_type number ctx mood :
  In seed_type Seed_generator.seed_types ->
  PyText.value_get ctx "mood_hint" (VStr "unknown") = Returned mood ->
  let seed := dict [("type", VStr seed_type);
                    ("value", VStr (PyStr.upper seed_type +:+ "_SEED::"
                                    +:+ PyRepr.str_int number));
                    ("inferred_context", ctx);
                    ("iteration_count", VInt 0)] in
  Pattern_mapper.map_patterns seed
  = Returned (<["potential_ruleset_modifications" := VList []]>
                (<["identified_patterns" :=
                     VList [VStr ("Pattern::" +:+ seed_type +:+ "_seed_resonance");
                            VStr ("Pattern::context_alignment_" +:+ PyRepr.str mood)]]>
                   seed)).
Proof.
  intros Hst Hmood seed.
  unfold Pattern_mapper.map_patterns, Pattern_mapper.value_stem, Pattern_mapper.mood_of.
  cbv zeta. subst seed. lookups. rewrite (stem_of_seed _ _ Hst), Hmood.
  cbn [attempt_bind]. rewrite append_assoc. reflexivity.
Qed.

(** Four passes of the service's amplifier on a construct at count 0. *)
Lemma amplify_four (seed : gmap string pyval) :
  seed !! "iteration_count" = Some (VInt 0) ->
  exists out,
    amplify recursive_amplifier seed
    = Some (pass 3 (pass 2 (pass 1 (pass 0 seed))), out).
Proof.
  intros H0.
  pose proof (transform_pass seed 0 H0) as [_ T0].
  pose proof (transform_pass _ _ (pass_count 0 seed)) as [_ T1].
  pose proof (transform_pass _ _ (pass_count (0 + 1) (pass 0 seed))) as [_ T2].
  pose proof (transform_pass _ _ (pass_count (0 + 1 + 1) (pass (0 + 1) (pass 0 seed))))
    as [_ T3].
  eexists. unfold amplify, recursive_amplifier. cbn [depth].
  change (Z.to_nat 4) with 4. cbn [amplify_from depth].
  rewrite T0, T1, T2, T3. reflexivity.
Qed.

Lemma four_passes_value (seed : gmap string pyval) v :
  seed !! "value" = Some (VStr v) ->
  get (pass 3 (pass 2 (pass 1 (pass 0 seed)))) "value" (VStr "")
  = VStr ("[SYNTACTIC::Transformed::[CONCEPTUAL::Transformed::[MODAL::Transformed::"
          +:+ "[STYLISTIC::Transformed::" +:+ v +:+ "]]]]").
Proof.
  intros Hv. rewrite !pass_value. unfold get. rewrite Hv. cbn [PyRepr.str].
  rewrite !append_assoc. reflexivity.
Qed.

Lemma amplified_value_upper seed_type number :
  PyText.upper_text (amplified_value seed_type number)
  = PyText.upper_text
      ("[SYNTACTIC::Transformed::[CONCEPTUAL::Transformed::[MODAL::Transformed::"
       +:+ "[STYLISTIC::Transformed::" +:+ PyStr.upper seed_type +:+ "_SEED::")
    +:+ PyRepr.str_int number +:+ "]]]]".
Proof.
  unfold amplified_value. rewrite !upper_text_app, (proj2 (str_int_plain number)).
  rewrite !append_assoc. reflexivity.
Qed.

Lemma output_format_of seed_type number :
  In seed_type Seed_generator.seed_types ->
  PyStr.py_in "TRANSFORMED::SYMBOLIC" (PyText.upper_text (amplified_value seed_type number))
  = String.eqb seed_type "symbolic".
Proof.
  intros Hst. rewrite amplified_value_upper.
  assert (Htail : forall p, PyStr.py_in (String "T" p) (PyRepr.str_int number +:+ "]]]]")
                            = false).
  { intros p. apply py_in_needs_head. rewrite has_char_app.
    now rewrite (proj1 (str_int_plain number)). }
  revert Htail. generalize (PyRepr.str_int number +:+ "]]]]"). intros rest Htail.
  destruct Hst as [<-|[<-|[<-|[<-|[<-|[<-|[]]]]]]];
    match goal with
    | |- PyStr.py_in _ (?a +:+ rest) = _ =>
        let x := eval vm_compute in a in change a with x
    end.
  - apply py_in_app_l. vm_compute. reflexivity.
  - rewrite !append_cons, append_nil_l.
    cbn [PyStr.py_in PyStr.starts_with PyStr.eqc Ascii.eqb Bool.eqb andb orb].
    apply Htail.
  - rewrite !append_cons, append_nil_l.
    cbn [PyStr.py_in PyStr.starts_with PyStr.eqc Ascii.eqb Bool.eqb andb orb].
    apply Htail.
  - rewrite !append_cons, append_nil_l.
    cbn [PyStr.py_in PyStr.starts_with PyStr.eqc Ascii.eqb Bool.eqb andb orb].
    apply Htail.
  - rewrite !append_cons, append_nil_l.
    cbn [PyStr.py_in PyStr.starts_with PyStr.eqc Ascii.eqb Bool.eqb andb orb].
    apply Htail.
  - rewrite !append_cons, append_nil_l.
    cbn [PyStr.py_in PyStr.starts_with PyStr.eqc Ascii.eqb Bool.eqb andb orb].
    apply Htail.
Qed.

End CycleFacts.

(** ** Creative requests and their status *)

Section CreativeFacts.

Import Transformation_engine Recursive_amplifier Amplifier_spec Creative_spec.

Variable now : nat -> string.
Variable hash_of : string -> Z.

Lemma assoc_list_to_map k (l : list (string * pyval)) :
  PyVal.assoc k l = (list_to_map l : gmap string pyval) !! k.
Proof.
  induction l as [|[k' v] r IH]; [reflexivity|].
  cbn [PyVal.assoc list_to_map foldr fst snd].
  destruct (String.eqb k k') eqn:E.
  - apply String.eqb_eq in E as ->. now rewrite lookup_insert_eq.
  - apply String.eqb_neq in E. rewrite lookup_insert_ne by congruence. exact IH.
Qed.

Lemma assoc_map_to_list k (m : gmap string pyval) : PyVal.assoc k (map_to_list m) = m !! k.
Proof. now rewrite assoc_list_to_map, list_to_map_to_list. Qed.

Lemma pass_value_lookup z data :
  pass z data !! "value" = Some (get (pass z data) "value" (VStr "")).
Proof.
  unfold get, pass. rewrite !lookup_insert_ne by discriminate.
  now rewrite lookup_insert_eq.
Qed.

Ltac lookups :=
  unfold dict; cbn [list_to_map foldr fst snd];
  repeat first [ rewrite lookup_insert_eq
               | rewrite lookup_insert_ne by discriminate
               | rewrite lookup_empty ].

(** The cycle on a request with a text and a context. *)
Lemma cycle_with_text seed_type number i t c :
  text_input i = Some t ->
  context i = Some c ->
  In seed_type Seed_generator.seed_types ->
  exists result,
    Conductor.run_creativity_cycle hash_of seed_type number recursive_amplifier
      (creative_input_dict i) = Some (Returned result) /\
    result !! "type" = Some (VStr seed_type) /\
    result !! "iteration_count" = Some (VInt 4) /\
    result !! "transformation_applied" = Some (VStr "syntactic") /\
    result !! "value" = Some (VStr (amplified_value seed_type number)) /\
    result !! "final_output_format" = Some (VStr (format_of seed_type)) /\
    result !! "rendered_representation" = Some (VStr (rendered seed_type number)) /\
    result !! "identified_patterns"
      = Some (VList [VStr ("Pattern::" +:+ seed_type +:+ "_seed_resonance");
                     VStr ("Pattern::context_alignment_"
                           +:+ PyRepr.str (hint c "mood" "neutral"))]) /\
    result !! "inferred_context"
      = Some (VDict [("source_stimuli", VList (perceived t i));
                     ("mood_hint", hint c "mood" "neutral");
                     ("theme_hint", hint c "theme" "abstract")]).
Proof.
  intros Ht Hc Hst. unfold Conductor.run_creativity_cycle.
  rewrite (ingest_text hash_of i t Ht), Hc. cbn [opt_val].
  rewrite generate_seed_context.
  rewrite (map_patterns_seed seed_type number
             (VDict [("source_stimuli", VList (perceived t i));
                     ("mood_hint", hint c "mood" "neutral");
                     ("theme_hint", hint c "theme" "abstract")])
             (hint c "mood" "neutral") Hst eq_refl).
  match goal with
  | |- context [amplify recursive_amplifier ?m] => set (mapped := m)
  end.
  assert (Hcount : mapped !! "iteration_count" = Some (VInt 0)) by (subst mapped; now lookups).
  assert (Hvalue : mapped !! "value"
                   = Some (VStr (PyStr.upper seed_type +:+ "_SEED::"
                                 +:+ PyRepr.str_int number)))
    by (subst mapped; now lookups).
  destruct (amplify_four mapped Hcount) as [out Ha]. rewrite Ha.
  pose proof (four_passes_value mapped _ Hvalue) as Hv.
  assert (Hnested :
    "[SYNTACTIC::Transformed::[CONCEPTUAL::Transformed::[MODAL::Transformed::"
    +:+ "[STYLISTIC::Transformed::"
    +:+ (PyStr.upper seed_type +:+ "_SEED::" +:+ PyRepr.str_int number) +:+ "]]]]"
    = amplified_value seed_type number).
  { unfold amplified_value. now rewrite !append_assoc. }
  rewrite Hnested in Hv.
  assert (Hfmt : Execution_adapter.output_format (pass 3 (pass 2 (pass 1 (pass 0 mapped))))
                 = format_of seed_type).
  { unfold Execution_adapter.output_format. rewrite Hv. cbn [PyRepr.str].
    rewrite (output_format_of _ _ Hst). reflexivity. }
  assert (Hna : get (pass 3 (pass 2 (pass 1 (pass 0 mapped)))) "value" (VStr "N/A")
                = VStr (amplified_value seed_type number)).
  { unfold get. rewrite pass_value_lookup, Hv. reflexivity. }
  eexists. split; [reflexivity|].
  unfold Execution_adapter.render_output. cbv zeta. rewrite Hfmt, Hna. cbn [PyRepr.str].
  split.
  { do 2 rewrite lookup_insert_ne by discriminate. do 4 rewrite pass_other by discriminate.
    subst mapped. now lookups. }
  split; [do 2 rewrite lookup_insert_ne by discriminate; apply pass_count|].
  split.
  { do 2 rewrite lookup_insert_ne by discriminate. unfold pass at 1.
    rewrite lookup_insert_ne by discriminate. now rewrite lookup_insert_eq. }
  split; [do 2 rewrite lookup_insert_ne by discriminate; now rewrite pass_value_lookup, Hv|].
  split; [rewrite lookup_insert_ne by discriminate; now rewrite lookup_insert_eq|].
  split; [now rewrite lookup_insert_eq|].
  split.
  { do 2 rewrite lookup_insert_ne by discriminate. do 4 rewrite pass_other by discriminate.
    subst mapped. now lookups. }
  do 2 rewrite lookup_insert_ne by discriminate. do 4 rewrite pass_other by discriminate.
  subst mapped. now lookups.
Qed.

(** The cycle on a request without a text, or with a text and no
    context. *)
Lemma cycle_without_text seed_type number i :
  text_input i = None ->
  Conductor.run_creativity_cycle hash_of seed_type number recursive_amplifier
    (creative_input_dict i) = Some (Raised "'NoneType' object is not subscriptable").
Proof.
  intros Ht. unfold Conductor.run_creativity_cycle. now rewrite (ingest_no_text hash_of i Ht).
Qed.

Lemma cycle_without_context seed_type number i t :
  text_input i = Some t ->
  context i = None ->
  Conductor.run_creativity_cycle hash_of seed_type number recursive_amplifier
    (creative_input_dict i) = Some (Raised "'NoneType' object has no attribute 'get'").
Proof.
  intros Ht Hc. unfold Conductor.run_creativity_cycle.
  rewrite (ingest_text hash_of i t Ht), Hc. cbn [opt_val].
  now rewrite generate_seed_no_context.
Qed.

End CreativeFacts.

(** ** The status of a creative cycle *)

Section CreativeStatusFacts.

Import Creative_api.

Lemma fresh_two_events old e1 e2 cid :
  cid <> "" ->
  Forall (fun e => Agi_memory.carries cid e = false) old ->
  Agi_memory.carries cid e1 = true ->
  Agi_memory.carries cid e2 = true ->
  String.ltb (timestamp e1) (timestamp e2) = true ->
  Agi_memory.get_recent_events (old ++ [e1; e2]) Agi_memory.default_limit (Some cid)
  = [e2; e1].
Proof.
  intros Hid Hold H1 H2 Hlt.
  rewrite (get_recent_events_given _ _ _ Hid), List.filter_app, (filter_none _ _ Hold).
  cbn [List.filter app]. rewrite H1, H2.
  change [e1; e2] with ([e1] ++ [e2]).
  rewrite sorted_desc_snoc_newest by (repeat constructor; exact Hlt).
  reflexivity.
Qed.

Lemma fresh_no_events old cid :
  cid <> "" ->
  Forall (fun e => Agi_memory.carries cid e = false) old ->
  Agi_memory.get_recent_events old Agi_memory.default_limit (Some cid) = [].
Proof.
  intros Hid Hold.
  now rewrite (get_recent_events_given _ _ _ Hid), (filter_none _ _ Hold).
Qed.

Lemma status_of_completed old e1 e2 cid d :
  cid <> "" ->
  Forall (fun e => Agi_memory.carries cid e = false) old ->
  Agi_memory.carries cid e1 = true ->
  Agi_memory.carries cid e2 = true ->
  String.ltb (timestamp e1) (timestamp e2) = true ->
  event_type e1 = "creative_cycle_initiation" ->
  event_type e2 = "creative_cycle_completion" ->
  data e1 !! "result" = None ->
  data e2 !! "result" = Some (VDict d) ->
  get_creative_status (old ++ [e1; e2]) cid
  = Some {| cs_correlation_id := cid;
            cs_status := "Creative cycle completed.";
            last_agi_creative_action := "creative_cycle_initiation";
            current_creative_value := VNone;
            final_creative_output :=
              match PyVal.assoc "rendered_representation" d with
              | Some v => v
              | None => VNone
              end;
            agi_creative_event_history := [e2; e1] |}.
Proof.
  intros Hid Hold H1 H2 Hlt Ht1 Ht2 Hd1 Hd2. unfold get_creative_status.
  rewrite (fresh_two_events _ _ _ _ Hid Hold H1 H2 Hlt). cbv zeta.
  cbn [existsb List.find Main.last_item]. unfold has_type, result_field.
  rewrite ?Ht1, ?Ht2. simpl. rewrite ?Hd2. simpl. rewrite ?Ht1, ?Hd1. reflexivity.
Qed.

Lemma status_of_error old e1 e2 cid :
  cid <> "" ->
  Forall (fun e => Agi_memory.carries cid e = false) old ->
  Agi_memory.carries cid e1 = true ->
  Agi_memory.carries cid e2 = true ->
  String.ltb (timestamp e1) (timestamp e2) = true ->
  event_type e1 = "creative_cycle_initiation" ->
  event_type e2 = "creative_cycle_error" ->
  data e1 !! "result" = None ->
  get_creative_status (old ++ [e1; e2]) cid
  = Some {| cs_correlation_id := cid;
            cs_status := "Creative cycle encountered an error.";
            last_agi_creative_action := "creative_cycle_initiation";
            current_creative_value := VNone;
            final_creative_output := VNone;
            agi_creative_event_history := [e2; e1] |}.
Proof.
  intros Hid Hold H1 H2 Hlt Ht1 Ht2 Hd1. unfold get_creative_status.
  rewrite (fresh_two_events _ _ _ _ Hid Hold H1 H2 Hlt). cbv zeta.
  cbn [existsb List.find Main.last_item]. unfold has_type, result_field.
  rewrite ?Ht1, ?Ht2. simpl. rewrite ?Ht1, ?Hd1. reflexivity.
Qed.

Lemma initiation_has_no_result cid input :
  dict [("correlation_id", VStr cid); ("input_data", input)] !! "result" = None.
Proof.
  unfold dict. cbn [list_to_map foldr fst snd].
  rewrite !lookup_insert_ne by discriminate. apply lookup_empty.
Qed.

Lemma completion_result cid r :
  dict [("correlation_id", VStr cid); ("result", r)] !! "result" = Some r.
Proof.
  unfold dict. cbn [list_to_map foldr fst snd].
  rewrite lookup_insert_ne by discriminate. apply lookup_insert_eq.
Qed.

End CreativeStatusFacts.

(** X18: a creative request with a text and a context, for every seed
    type the generator can draw and every number: the cycle completes at
    count 4 with the seed wrapped by the four modes in order; the output
    format is symbolic_representation exactly for the seed type symbolic;
    and the perceived elements always list all four modalities, whether
    or not the request carried an image, a sound or a symbolic input. *)
Theorem creative_cycle_with_text (hash_of : string -> Z) (seed_type : string) (number : Z)
    (input_data : CreativeInput) (t : string) (c : list (string * pyval)) :
  text_input input_data = Some t ->
  context input_data = Some c ->
  In seed_type Seed_generator.seed_types ->
  exists result,
    Conductor.run_creativity_cycle hash_of seed_type number
      Recursive_amplifier.recursive_amplifier (creative_input_dict input_data)
      = Some (Returned result) /\
    result !! "iteration_count" = Some (VInt 4) /\
    result !! "value" = Some (VStr (Creative_spec.amplified_value seed_type number)) /\
    result !! "final_output_format"
      = Some (VStr (if String.eqb seed_type "symbolic"
                    then "symbolic_representation" else "text_summary")) /\
    result !! "rendered_representation"
      = Some (VStr (Creative_spec.rendered seed_type number)) /\
    result !! "inferred_context"
      = Some (VDict
                [("source_stimuli",
                  VList [VStr ("Text: " +:+ PyText.take 50 t +:+ "...");
                         VStr "Image data detected.";
                         VStr "Audio data detected.";
                         VStr ("Symbolic: "
                               +:+ PyRepr.str (opt_val VDict (symbolic_input input_data)))]);
                 ("mood_hint", Creative_spec.hint c "mood" "neutral");
                 ("theme_hint", Creative_spec.hint c "theme" "abstract")]).
Proof.
  intros Ht Hc Hst.
  destruct (cycle_with_text hash_of seed_type number input_data t c Ht Hc Hst)
    as (result & Hr & _ & Hn & _ & Hv & Hf & Hrep & _ & Hctx).
  exists result. split; [exact Hr|]. split; [exact Hn|]. split; [exact Hv|].
  split; [exact Hf|]. split; [exact Hrep | exact Hctx].
Qed.

Lemma creative_cycle_with_text_witness :
  exists result,
    Conductor.run_creativity_cycle (fun _ => 0%Z) "emotive" 31337
      Recursive_amplifier.recursive_amplifier
      (creative_input_dict
         {| text_input := Some "a storm over the sea"; image_data := None;
            audio_data := None; symbolic_input := None; context := Some [] |})
      = Some (Returned result) /\
    result !! "rendered_representation"
      = Some (VStr (Creative_spec.rendered "emotive" 31337)).
Proof.
  destruct (creative_cycle_with_text (fun _ => 0%Z) "emotive" 31337
              {| text_input := Some "a storm over the sea"; image_data := None;
                 audio_data := None; symbolic_input := None; context := Some [] |}
              "a storm over the sea" [])
    as (result & Hr & _ & _ & _ & Hrep & _).
  - reflexivity.
  - reflexivity.
  - right. left. reflexivity.
  - exists result. split; [exact Hr | exact Hrep].
Defined.

(** X19: a creative request without a text (the default), whatever else
    it carries, or with a text and a null context, never completes: the
    background task stores one creative_cycle_error event, whose error is
    the text of the TypeError or AttributeError raised on None, and with
    an advancing clock the status of a fresh non-empty id then reads
    Creative cycle encountered an error. *)
Theorem creative_request_on_none_is_an_error (now : nat -> string) (hash_of : string -> Z)
    (seed_type : string) (number : Z) (correlation_id : string)
    (input_data : CreativeInput) (w : world) :
  text_input input_data = None \/ context input_data = None ->
  correlation_id <> "" ->
  Forall (fun e => Agi_memory.carries correlation_id e = false) (db w) ->
  String.ltb (now (ticks w)) (now (S (ticks w))) = true ->
  exists r w1 task w2 s,
    Creative_api.initiate_creative_cycle now correlation_id input_data w = (Ok r, w1) /\
    Creative_api.run_creative_task now hash_of seed_type number correlation_id input_data
      = Some task /\
    task w1 = (Ok tt, w2) /\
    db w2 = db w
            ++ [ Trail.ev now (ticks w) "creative_cycle_initiation"
                   [("correlation_id", VStr correlation_id);
                    ("input_data", VDict (creative_input_dict input_data))];
                 Trail.ev now (S (ticks w)) "creative_cycle_error"
                   [("correlation_id", VStr correlation_id);
                    ("error",
                     VStr (match text_input input_data with
                           | None => "'NoneType' object is not subscriptable"
                           | Some _ => "'NoneType' object has no attribute 'get'"
                           end))] ] /\
    Creative_api.get_creative_status (db w2) correlation_id = Some s /\
    Creative_api.cs_status s = "Creative cycle encountered an error." /\
    Creative_api.final_creative_output s = VNone.
Proof.
  intros Hnone Hid Hold Hclock.
  assert (Hcycle :
    Conductor.run_creativity_cycle hash_of seed_type number
      Recursive_amplifier.recursive_amplifier (creative_input_dict input_data)
    = Some (Raised (match text_input input_data with
                    | None => "'NoneType' object is not subscriptable"
                    | Some _ => "'NoneType' object has no attribute 'get'"
                    end))).
  { destruct (text_input input_data) as [t|] eqn:Ht.
    - destruct Hnone as [Hn|Hc]; [discriminate|].
      now apply (cycle_without_context hash_of seed_type number input_data t).
    - now apply cycle_without_text. }
  unfold Creative_api.run_creative_task. rewrite Hcycle.
  unfold Creative_api.initiate_creative_cycle. cbv [bind store_event ret].
  cbn [db fs ticks on_startup].
  eexists _, _, _, _, _. split; [reflexivity|]. split; [reflexivity|].
  split; [reflexivity|]. cbn [db]. rewrite <- app_assoc. cbn [app].
  split; [reflexivity|].
  split.
  - apply status_of_error;
      first [ assumption | apply (carries_ev now) | apply initiation_has_no_result
            | reflexivity ].
  - split; reflexivity.
Qed.

Lemma creative_request_on_none_is_an_error_witness :
  exists s,
    Creative_api.get_creative_status
      (db (snd (bind (Creative_api.initiate_creative_cycle Scenario.clock "c1"
                        {| text_input := None; image_data := Some "aGVsbG8=";
                           audio_data := None; symbolic_input := None;
                           context := Some [] |})
                  (fun _ => store_event Scenario.clock "creative_cycle_error"
                              (dict [("correlation_id", VStr "c1");
                                     ("error",
                                      VStr "'NoneType' object is not subscriptable")]))
                  Scenario.fresh_world))) "c1" = Some s /\
    Creative_api.cs_status s = "Creative cycle encountered an error.".
Proof.
  destruct (creative_request_on_none_is_an_error Scenario.clock (fun _ => 0%Z)
              "emotive" 31337 "c1"
              {| text_input := None; image_data := Some "aGVsbG8=";
                 audio_data := None; symbolic_input := None; context := Some [] |}
              Scenario.fresh_world)
    as (r & w1 & task & w2 & s & Hi & Ht & Hw & Hdb & Hs & Hst & _).
  - left. reflexivity.
  - discriminate.
  - constructor.
  - reflexivity.
  - exists s. split; [|exact Hst]. rewrite <- Hs. f_equal. rewrite Hdb. reflexivity.
Defined.

(** X20: create, then the background task, then the status query, for a
    request with a text and a context, a fresh non-empty id and an
    advancing clock: the status reads Creative cycle completed. and the
    final output is the rendered representation of the cycle's result;
    the last creative action it names is the initiation, the oldest of
    the two events, and the current creative value is None. *)
Theorem creative_round_trip (now : nat -> string) (hash_of : string -> Z)
    (seed_type : string) (number : Z) (correlation_id : string)
    (input_data : CreativeInput) (t : string) (c : list (string * pyval)) (w : world) :
  text_input input_data = Some t ->
  context input_data = Some c ->
  In seed_type Seed_generator.seed_types ->
  correlation_id <> "" ->
  Forall (fun e => Agi_memory.carries correlation_id e = false) (db w) ->
  String.ltb (now (ticks w)) (now (S (ticks w))) = true ->
  exists r w1 task w2 s,
    Creative_api.initiate_creative_cycle now correlation_id input_data w = (Ok r, w1) /\
    Creative_api.creative_output_status_endpoint r = "/creative_status/" +:+ correlation_id /\
    Creative_api.run_creative_task now hash_of seed_type number correlation_id input_data
      = Some task /\
    task w1 = (Ok tt, w2) /\
    Creative_api.get_creative_status (db w2) correlation_id = Some s /\
    Creative_api.cs_status s = "Creative cycle completed." /\
    Creative_api.final_creative_output s
      = VStr (Creative_spec.rendered seed_type number) /\
    Creative_api.last_agi_creative_action s = "creative_cycle_initiation" /\
    Creative_api.current_creative_value s = VNone /\
    map event_type (Creative_api.agi_creative_event_history s)
      = ["creative_cycle_completion"; "creative_cycle_initiation"].
Proof.
  intros Ht Hc Hst Hid Hold Hclock.
  destruct (cycle_with_text hash_of seed_type number input_data t c Ht Hc Hst)
    as (result & Hr & _ & _ & _ & _ & _ & Hrep & _).
  unfold Creative_api.run_creative_task. rewrite Hr.
  unfold Creative_api.initiate_creative_cycle. cbv [bind store_event ret].
  cbn [db fs ticks on_startup].
  eexists _, _, _, _, _. split; [reflexivity|]. split; [reflexivity|].
  split; [reflexivity|]. split; [reflexivity|]. cbn [db]. rewrite <- app_assoc. cbn [app].
  split.
  - apply (status_of_completed (db w)
             (Trail.ev now (ticks w) "creative_cycle_initiation"
                [("correlation_id", VStr correlation_id);
                 ("input_data", VDict (creative_input_dict input_data))])
             (Trail.ev now (S (ticks w)) "creative_cycle_completion"
                [("correlation_id", VStr correlation_id);
                 ("result", VDict (map_to_list result))])
             correlation_id (map_to_list result));
      first [ assumption | apply (carries_ev now) | apply initiation_has_no_result
            | apply completion_result | reflexivity ].
  - cbn [Creative_api.cs_status Creative_api.final_creative_output
         Creative_api.last_agi_creative_action Creative_api.current_creative_value
         Creative_api.agi_creative_event_history].
    split; [reflexivity|]. split; [now rewrite assoc_map_to_list, Hrep|].
    split; [reflexivity|]. split; reflexivity.
Qed.

Lemma creative_round_trip_witness :
  exists r w1 task w2 s,
    Creative_api.initiate_creative_cycle Scenario.clock "c1"
      {| text_input := Some "a storm over the sea"; image_data := None;
         audio_data := None; symbolic_input := None; context := Some [] |}
      Scenario.fresh_world = (Ok r, w1) /\
    Creative_api.run_creative_task Scenario.clock (fun _ => 0%Z) "symbolic" 31337 "c1"
      {| text_input := Some "a storm over the sea"; image_data := None;
         audio_data := None; symbolic_input := None; context := Some [] |} = Some task /\
    task w1 = (Ok tt, w2) /\
    Creative_api.get_creative_status (db w2) "c1" = Some s /\
    Creative_api.final_creative_output s = VStr (Creative_spec.rendered "symbolic" 31337).
Proof.
  destruct (creative_round_trip Scenario.clock (fun _ => 0%Z) "symbolic" 31337 "c1"
              {| text_input := Some "a storm over the sea"; image_data := None;
                 audio_data := None; symbolic_input := None; context := Some [] |}
              "a storm over the sea" [] Scenario.fresh_world)
    as (r & w1 & task & w2 & s & Hi & _ & Ht & Hw & Hs & _ & Hf & _).
  - reflexivity.
  - reflexivity.
  - left. reflexivity.
  - discriminate.
  - constructor.
  - reflexivity.
  - exists r, w1, task, w2, s.
    split; [exact Hi|]. split; [exact Ht|]. split; [exact Hw|]. split; [exact Hs | exact Hf].
Defined.

(** X21: for a non-empty id that no stored event carries, the creative
    status does not fault and does not say unknown: it reads Creative
    cycle in progress, with the last action None, no values and an empty
    history. *)
Theorem get_creative_status_unknown (db : list event) (correlation_id : string) :
  correlation_id <> "" ->
  Forall (fun e => Agi_memory.carries correlation_id e = false) db ->
  Creative_api.get_creative_status db correlation_id
  = Some {| Creative_api.cs_correlation_id := correlation_id;
            Creative_api.cs_status := "Creative cycle in progress (AGI actively theorizing).";
            Creative_api.last_agi_creative_action := "None";
            Creative_api.current_creative_value := VNone;
            Creative_api.final_creative_output := VNone;
            Creative_api.agi_creative_event_history := [] |}.
Proof.
  intros Hid Hold. unfold Creative_api.get_creative_status.
  now rewrite (fresh_no_events _ _ Hid Hold).
Qed.

Lemma get_creative_status_unknown_witness :
  exists s,
    Creative_api.get_creative_status Samples.log "zz" = Some s /\
    Creative_api.cs_status s = "Creative cycle in progress (AGI actively theorizing).".
Proof.
  eexists. split.
  - apply (get_creative_status_unknown Samples.log "zz").
    + discriminate.
    + repeat constructor.
  - reflexivity.
Defined.

(** ** Substrings of texts over all of Unicode *)

Section TextWindows.

Import Unicode Classifier_unicode.

Lemma has_char_in c k : has_char c k = false -> ~ In c k.
Proof.
  unfold has_char. intros H Hin.
  assert (existsb (N.eqb c) k = true); [|congruence].
  apply existsb_exists. exists c. split; [exact Hin | apply N.eqb_refl].
Qed.

Lemma not_in_has_char c k : ~ In c k -> has_char c k = false.
Proof.
  intros H. unfold has_char. destruct (existsb (N.eqb c) k) eqn:E; [|reflexivity].
  apply existsb_exists in E as (x & Hx & Hc). apply N.eqb_eq in Hc. now subst x.
Qed.

(** A match that would have to run through a character foreign to [k]
    is a match before it. *)
Lemma starts_with_through k a f z :
  has_char f k = false -> starts_with k (a ++ f :: z) = starts_with k a.
Proof.
  revert a. induction k as [|x k IH]; intros a Hf; [now destruct a|].
  unfold has_char in Hf. cbn [existsb] in Hf. apply orb_false_iff in Hf as [Hx Hk].
  destruct a as [|y a]; cbn [app starts_with].
  - rewrite N.eqb_sym, Hx. reflexivity.
  - now rewrite (IH a Hk).
Qed.

Lemma py_in_after k b c :
  (forall a s x, b = a ++ s -> s <> [] -> starts_with k (s ++ x) = false) ->
  py_in k (b ++ c) = py_in k c.
Proof.
  induction b as [|f r IH]; intros H; [reflexivity|].
  change ((f :: r) ++ c) with (f :: (r ++ c)). cbn [py_in].
  change (f :: (r ++ c)) with ((f :: r) ++ c).
  rewrite (H [] (f :: r) c eq_refl) by discriminate. cbn [orb].
  apply IH. intros a s x -> Hs. apply (H (f :: a) s x); [reflexivity | exact Hs].
Qed.

(** The occurrences of [k] in a text around a barrier are those before
    it and those after it. *)
Lemma py_in_across_barrier k a b c :
  barrier k b -> py_in k (a ++ b ++ c) = py_in k a || py_in k c.
Proof.
  intros [(f & r & -> & Hf) Hs].
  assert (Hk : py_in k [] = false).
  { pose proof (Hs [] (f :: r) [] eq_refl ltac:(discriminate)) as H.
    destruct k; [discriminate H | reflexivity]. }
  induction a as [|y a IH].
  - rewrite app_nil_l, Hk. cbn [orb]. now apply py_in_after.
  - change ((y :: a) ++ (f :: r) ++ c) with (y :: (a ++ (f :: r) ++ c)).
    cbn [py_in]. rewrite IH.
    change (y :: (a ++ (f :: r) ++ c)) with ((y :: a) ++ f :: (r ++ c)).
    rewrite (starts_with_through k (y :: a) f (r ++ c) Hf).
    now rewrite orb_assoc.
Qed.

Lemma py_in_barrier_l k b c : barrier k b -> py_in k (b ++ c) = py_in k c.
Proof.
  intros Hb. pose proof (py_in_across_barrier k [] b c Hb) as H. rewrite app_nil_l in H. rewrite H.
  destruct Hb as [(f & r & -> & Hf) Hs].
  pose proof (Hs [] (f :: r) [] eq_refl ltac:(discriminate)) as Hk.
  now destruct k.
Qed.

Lemma py_in_barrier_r k a b : barrier k b -> py_in k (a ++ b) = py_in k a.
Proof.
  intros Hb. pose proof (py_in_across_barrier k a b [] Hb) as H. rewrite app_nil_r in H.
  rewrite H. destruct Hb as [(f & r & -> & Hf) Hs].
  pose proof (Hs [] (f :: r) [] eq_refl ltac:(discriminate)) as Hk.
  destruct k; [discriminate Hk|]. cbn [py_in starts_with]. apply orb_false_r.
Qed.

Lemma lower_from_app u W i a b :
  lower_from u W i (a ++ b)
  = lower_from u W i a ++ lower_from u W (i + length a) b.
Proof.
  revert i. induction a as [|c a IH]; intros i.
  - cbn [app lower_from length]. now rewrite Nat.add_0_r.
  - cbn [app lower_from length]. rewrite IH, <- app_assoc.
    now replace (S i + length a) with (i + S (length a)) by lia.
Qed.

Lemma hex_digit_cases n :
  (n < 16)%N ->
  ((48 <= hex_digit n <= 57)%N /\ (n < 10)%N) \/
  ((97 <= hex_digit n <= 102)%N /\ (10 <= n)%N /\ hex_digit n = (87 + n)%N).
Proof.
  intros Hn. unfold hex_digit. destruct (n <? 10)%N eqn:E.
  - apply N.ltb_lt in E. left. lia.
  - apply N.ltb_ge in E. right. lia.
Qed.

Lemma hex_chars w c :
  Forall (fun x => (48 <= x <= 57)%N \/ (97 <= x <= 102)%N) (hex w c).
Proof.
  revert c. induction w as [|w IH]; intros c; [constructor|].
  cbn [hex]. apply Forall_app. split; [apply IH|]. constructor; [|constructor].
  destruct (hex_digit_cases (c mod 16)) as [[H _]|[H _]]; [|now left | now right].
  apply N.mod_lt. discriminate.
Qed.

End TextWindows.

(** ** One tag rule of the classifier on texts over all of Unicode *)

Section TagRule.

Import Unicode Classifier_unicode.

Variable u : database.
Variable bad : N -> bool.
Variables k0 k1 : N.
Variable krest : text.

(** The word is written in small ASCII letters; it does not begin with
    the letter of an escape; when it begins with a hexadecimal letter,
    no such letter comes second. *)
Hypothesis Hletters : Forall (fun x => (97 <= x <= 122)%N) (k0 :: k1 :: krest).
Hypothesis Hk0 : k0 <> 116%N /\ k0 <> 110%N /\ k0 <> 114%N /\ k0 <> 120%N /\ k0 <> 117%N.
Hypothesis Hk1 : (97 <= k0 <= 102)%N -> ~ (97 <= k1 <= 102)%N.
Hypothesis Hnone : py_in (k0 :: k1 :: krest) (of_string "none") = false.
Hypothesis Hbad :
  forall c, bad c = false -> is_printable u c = false -> hex_digit (c mod 16) <> k0.
Hypothesis Hu : unprintable_uncased u.

Lemma k0_letter : (97 <= k0 <= 122)%N.
Proof. now inversion Hletters. Qed.

Lemma k1_letter : (97 <= k1 <= 122)%N.
Proof. inversion Hletters as [|? ? _ H]. now inversion H. Qed.

Lemma foreign c : ~ (97 <= c <= 122)%N -> has_char c (k0 :: k1 :: krest) = false.
Proof.
  intros Hc. apply not_in_has_char. intros Hin.
  rewrite List.Forall_forall in Hletters. apply Hc. now apply Hletters.
Qed.

Lemma starts_with_other d s : d <> k0 -> starts_with (k0 :: k1 :: krest) (d :: s) = false.
Proof.
  intros Hd. cbn [starts_with].
  destruct (N.eqb_spec k0 d); [congruence | reflexivity].
Qed.

(** A text that opens with a character foreign to the word and does not
    hold its first letter. *)
Lemma barrier_without_k0 f r :
  ~ (97 <= f <= 122)%N -> ~ In k0 (f :: r) -> barrier (k0 :: k1 :: krest) (f :: r).
Proof.
  intros Hf Hin. split; [exists f, r; split; [reflexivity | now apply foreign]|].
  intros a s x E Hs. destruct s as [|d s]; [contradiction|].
  cbn [app]. apply starts_with_other. intros ->. apply Hin. rewrite E.
  apply in_or_app. right. now left.
Qed.

(** An escape in hexadecimal digits of which the last is not the first
    letter of the word. *)
Lemma barrier_hex m ds last :
  m <> k0 ->
  Forall (fun x => (48 <= x <= 57)%N \/ (97 <= x <= 102)%N) (ds ++ [last]) ->
  last <> k0 ->
  barrier (k0 :: k1 :: krest) (92%N :: m :: ds ++ [last]).
Proof.
  intros Hm Hhex Hlast. split.
  { exists 92%N, (m :: ds ++ [last]). split; [reflexivity | apply foreign; lia]. }
  intros a s x E Hs. destruct s as [|d s]; [contradiction|]. cbn [app].
  destruct (N.eq_dec d k0) as [->|Hd]; [|now apply starts_with_other].
  pose proof k0_letter as Hl0. pose proof k1_letter as Hl1.
  destruct a as [|a0 a]; [cbn [app] in E; injection E as E _; lia|].
  destruct a as [|a1 a]; [cbn [app] in E; injection E as _ E _; congruence|].
  cbn [app] in E. injection E as _ _ E.
  assert (Hk0hex : (97 <= k0 <= 102)%N).
  { rewrite List.Forall_forall in Hhex.
    destruct (Hhex k0) as [H|H]; [|lia|exact H].
    rewrite E. apply in_or_app. right. now left. }
  destruct s as [|d' s].
  - exfalso. apply Hlast. now apply app_inj_tail in E as [_ ->].
  - cbn [app starts_with]. rewrite N.eqb_refl. cbn [andb].
    destruct (N.eqb_spec k1 d') as [<-|]; [|reflexivity].
    exfalso. apply (Hk1 Hk0hex).
    rewrite List.Forall_forall in Hhex.
    destruct (Hhex k1) as [H|H]; [|lia|exact H].
    rewrite E. apply in_or_app. right. right. now left.
Qed.

Lemma hex_last w c : exists ds, hex (S w) c = ds ++ [hex_digit (c mod 16)].
Proof. now exists (hex w (c / 16)). Qed.

(** What [lower] makes of the escape of a character that is not
    printable. *)
Lemma barrier_hex_escape W i m m' w c :
  (m = 120%N /\ m' = 120%N) \/ (m = 117%N /\ m' = 117%N) \/ (m = 85%N /\ m' = 117%N) ->
  hex_digit (c mod 16) <> k0 ->
  barrier (k0 :: k1 :: krest) (lower_from u W i (92%N :: m :: hex (S w) c)).
Proof.
  intros Hm Hlast.
  assert (Hds : lower_from u W (S (S i)) (hex (S w) c) = hex (S w) c).
  { generalize (S (S i)). generalize (hex_chars (S w) c).
    induction 1 as [|x l Hx _ IH]; intros j; [reflexivity|].
    cbn [lower_from]. rewrite IH.
    assert (Hx931 : (x =? 931)%N = false) by (apply N.eqb_neq; lia).
    rewrite Hx931. unfold lower_char.
    assert (Hx128 : (x <? 128)%N = true) by (apply N.ltb_lt; lia).
    rewrite Hx128.
    assert (Hup : ((65 <=? x) && (x <=? 90))%N = false).
    { destruct Hx; [apply andb_false_intro1; apply N.leb_gt; lia
                   | apply andb_false_intro2; apply N.leb_gt; lia]. }
    now rewrite Hup. }
  assert (Hpiece : lower_from u W i (92%N :: m :: hex (S w) c) = 92%N :: m' :: hex (S w) c).
  { cbn [lower_from]. rewrite Hds.
    destruct Hm as [[-> ->]|[[-> ->]|[-> ->]]]; reflexivity. }
  rewrite Hpiece. destruct (hex_last w c) as [ds Eds].
  pose proof (hex_chars (S w) c) as Hh. rewrite Eds in Hh |- *.
  apply barrier_hex; [|exact Hh|exact Hlast].
  destruct Hk0 as (_ & _ & _ & H120 & H117).
  destruct Hm as [[_ ->]|[[_ ->]|[_ ->]]]; congruence.
Qed.

(** The characters [repr] or [lower] do not leave as they are. *)
Lemma escape_plain q c :
  (c =? 92)%N = false -> (c =? q)%N = false -> (c =? 9)%N = false ->
  (c =? 10)%N = false -> (c =? 13)%N = false -> is_printable u c = true ->
  escape u q c = [c].
Proof. intros H1 H2 H3 H4 H5 H6. unfold escape. now rewrite H1, H2, H3, H4, H5, H6. Qed.

Lemma lower_single W i c :
  lower_from u W i [c]
  = if (c =? 931)%N then [if final_sigma u W i then 962%N else 963%N] else lower_char u c.
Proof. cbn [lower_from]. apply app_nil_r. Qed.

(** What [lower] makes of [repr]'s piece for a character is a barrier,
    unless the character is written as itself. *)
Lemma escape_barrier W i q c :
  q = 39%N \/ q = 34%N ->
  bad c = false ->
  ((c =? 92) || (c =? q) || (c =? 9) || (c =? 10) || (c =? 13)
   || negb (is_printable u c) || (c =? 931))%N = true ->
  barrier (k0 :: k1 :: krest) (lower_from u W i (escape u q c)).
Proof.
  intros Hq Hb Hs. pose proof k0_letter as Hl0.
  destruct Hk0 as (H116 & H110 & H114 & H120 & H117).
  unfold escape.
  destruct ((c =? 92) || (c =? q))%N eqn:E1.
  { assert (Hc : (c < 128)%N /\ ~ (65 <= c <= 90)%N).
    { apply orb_true_iff in E1 as [E|E]; apply N.eqb_eq in E; subst c;
        [|destruct Hq; subst q]; lia. }
    assert (lower_from u W i [92%N; c] = [92%N; c]) as ->.
    { cbn [lower_from].
      assert ((c =? 931)%N = false) as -> by (apply N.eqb_neq; lia).
      unfold lower_char. cbn.
      assert ((c <? 128)%N = true) as -> by (apply N.ltb_lt; lia).
      assert (((65 <=? c) && (c <=? 90))%N = false) as ->; [|reflexivity].
      destruct (N.leb_spec 65 c); destruct (N.leb_spec c 90); try reflexivity. lia. }
    apply barrier_without_k0; [lia|].
    intros [H|[H|[]]]; [lia|]. subst c.
    apply orb_true_iff in E1 as [E|E]; apply N.eqb_eq in E;
      [|destruct Hq; subst q]; lia. }
  apply orb_false_iff in E1 as [E92 Eq].
  destruct (c =? 9)%N eqn:E9.
  { assert (lower_from u W i [92%N; 116%N] = [92%N; 116%N]) as -> by reflexivity.
    apply barrier_without_k0; [lia|]. intros [H|[H|[]]]; [lia | congruence]. }
  destruct (c =? 10)%N eqn:E10.
  { assert (lower_from u W i [92%N; 110%N] = [92%N; 110%N]) as -> by reflexivity.
    apply barrier_without_k0; [lia|]. intros [H|[H|[]]]; [lia | congruence]. }
  destruct (c =? 13)%N eqn:E13.
  { assert (lower_from u W i [92%N; 114%N] = [92%N; 114%N]) as -> by reflexivity.
    apply barrier_without_k0; [lia|]. intros [H|[H|[]]]; [lia | congruence]. }
  destruct (is_printable u c) eqn:Ep.
  { (* printable, so the capital sigma *)
    cbn [orb negb] in Hs.
    rewrite lower_single, Hs.
    apply barrier_without_k0; [destruct (final_sigma u W i); lia|].
    intros [H|[]]. destruct (final_sigma u W i); lia. }
  pose proof (Hbad c Hb Ep) as Hlast.
  destruct (c <? 256)%N; [|destruct (c <? 65536)%N].
  - apply (barrier_hex_escape W i 120%N 120%N 1 c); [now left | exact Hlast].
  - apply (barrier_hex_escape W i 117%N 117%N 3 c); [right; now left | exact Hlast].
  - apply (barrier_hex_escape W i 85%N 117%N 7 c); [right; now right | exact Hlast].
Qed.

(** The same characters in the tag itself. *)
Lemma lower_barrier W i q c :
  q = 39%N \/ q = 34%N ->
  ((c =? 92) || (c =? q) || (c =? 9) || (c =? 10) || (c =? 13)
   || negb (is_printable u c) || (c =? 931))%N = true ->
  barrier (k0 :: k1 :: krest) (lower_from u W i [c]).
Proof.
  intros Hq Hs. pose proof k0_letter as Hl0. rewrite lower_single.
  destruct (c =? 931)%N eqn:E931.
  { apply barrier_without_k0; [destruct (final_sigma u W i); lia|].
    intros [H|[]]. destruct (final_sigma u W i); lia. }
  rewrite orb_false_r in Hs.
  assert (Hc : lower_char u c = [c] /\ ~ (97 <= c <= 122)%N).
  { unfold lower_char. destruct (c <? 128)%N eqn:E128.
    - apply N.ltb_lt in E128.
      assert (Hn : ~ (65 <= c <= 122)%N \/ (91 <= c <= 96)%N).
      { repeat (apply orb_true_iff in Hs as [Hs|Hs]);
          try (apply N.eqb_eq in Hs; subst c; try (destruct Hq; subst q); lia).
        unfold is_printable in Hs. apply negb_true_iff in Hs.
        assert ((c <? 128)%N = true) as E by now apply N.ltb_lt. rewrite E in Hs.
        apply andb_false_iff in Hs as [Hs|Hs];
          [apply N.leb_gt in Hs | apply N.ltb_ge in Hs]; lia. }
      split; [|lia].
      assert (((65 <=? c) && (c <=? 90))%N = false) as ->; [|reflexivity].
      destruct (N.leb_spec 65 c); destruct (N.leb_spec c 90); try reflexivity. lia.
    - apply N.ltb_ge in E128. split; [|lia]. apply Hu; [exact E128|].
      repeat (apply orb_true_iff in Hs as [Hs|Hs]);
        try (apply N.eqb_eq in Hs; subst c; try (destruct Hq; subst q); lia).
      unfold is_printable in Hs. apply negb_true_iff in Hs.
      assert ((c <? 128)%N = false) as E by now apply N.ltb_ge. now rewrite E in Hs. }
  destruct Hc as [-> Hc]. apply barrier_without_k0; [exact Hc|].
  intros [H|[]]. lia.
Qed.

(** The word is in the lowered pieces of a tag as it is in the lowered
    tag. *)
Lemma tag_rule q t :
  q = 39%N \/ q = 34%N ->
  forallb (fun c => negb (bad c)) t = true ->
  forall W i W' i' acc,
    py_in (k0 :: k1 :: krest) (acc ++ lower_from u W i (flat_map (escape u q) t))
    = py_in (k0 :: k1 :: krest) (acc ++ lower_from u W' i' t).
Proof.
  intros Hq. induction t as [|c t IH]; intros Hfree W i W' i' acc; [reflexivity|].
  cbn [forallb] in Hfree. apply andb_true_iff in Hfree as [Hc Hfree].
  apply negb_true_iff in Hc.
  change (flat_map (escape u q) (c :: t)) with (escape u q c ++ flat_map (escape u q) t).
  rewrite lower_from_app.
  change (c :: t) with ([c] ++ t). rewrite (lower_from_app u W' i' [c] t).
  destruct ((c =? 92) || (c =? q) || (c =? 9) || (c =? 10) || (c =? 13)
            || negb (is_printable u c) || (c =? 931))%N eqn:Es.
  - rewrite (py_in_across_barrier (k0 :: k1 :: krest) acc _ _ (escape_barrier W i q c Hq Hc Es)).
    rewrite (py_in_across_barrier (k0 :: k1 :: krest) acc _ _ (lower_barrier W' i' q c Hq Es)).
    f_equal. apply (IH Hfree _ _ _ _ []).
  - repeat (apply orb_false_iff in Es as [Es ?]).
    match goal with H : negb _ = false |- _ => apply negb_false_iff in H end.
    rewrite escape_plain by assumption.
    rewrite !lower_single.
    match goal with H : (c =? 931)%N = false |- _ => rewrite H end.
    rewrite !app_assoc. apply IH. exact Hfree.
Qed.

Lemma quote_cases s : quote_of s = 39%N \/ quote_of s = 34%N.
Proof. unfold quote_of. destruct (_ && _); [now right | now left]. Qed.

Lemma lower_quote W i q : q = 39%N \/ q = 34%N -> lower_from u W i [q] = [q].
Proof. intros [->| ->]; reflexivity. Qed.

Lemma barrier_quote q : q = 39%N \/ q = 34%N -> barrier (k0 :: k1 :: krest) [q].
Proof.
  pose proof k0_letter. intros Hq. apply barrier_without_k0; [destruct Hq; lia|].
  intros [H'|[]]. destruct Hq; lia.
Qed.

Lemma repr_rule t W i :
  forallb (fun c => negb (bad c)) t = true ->
  py_in (k0 :: k1 :: krest) (lower_from u W i (repr_str u t)) = py_in (k0 :: k1 :: krest) (lower u t).
Proof.
  intros Hfree. unfold repr_str. cbv zeta.
  pose proof (quote_cases t) as Hq. set (q := quote_of t) in *.
  change (q :: flat_map (escape u q) t ++ [q])
    with ([q] ++ flat_map (escape u q) t ++ [q]).
  rewrite !lower_from_app, !(lower_quote _ _ q Hq).
  rewrite (py_in_barrier_l (k0 :: k1 :: krest) [q] _ (barrier_quote q Hq)).
  rewrite (py_in_barrier_r (k0 :: k1 :: krest) _ [q] (barrier_quote q Hq)).
  apply (tag_rule q t Hq Hfree _ _ t 0 []).
Qed.

Lemma barrier_separator : barrier (k0 :: k1 :: krest) [44%N; 32%N].
Proof.
  pose proof k0_letter. apply barrier_without_k0; [lia|]. intros [H'|[H'|[]]]; lia.
Qed.

Lemma join_rule l : forall W i,
  forallb (forallb (fun c => negb (bad c))) l = true ->
  py_in (k0 :: k1 :: krest) (lower_from u W i (join [44%N; 32%N] (map (repr_str u) l)))
  = existsb (fun t => py_in (k0 :: k1 :: krest) (lower u t)) l.
Proof.
  induction l as [|t [|t2 r] IH]; intros W i Hfree.
  - reflexivity.
  - cbn [forallb] in Hfree. apply andb_true_iff in Hfree as [Ht _].
    cbn [map join existsb]. rewrite (repr_rule t W i Ht). now rewrite orb_false_r.
  - cbn [forallb] in Hfree. apply andb_true_iff in Hfree as [Ht Hfree].
    change (join [44%N; 32%N] (map (repr_str u) (t :: t2 :: r)))
      with (repr_str u t ++ [44%N; 32%N] ++ join [44%N; 32%N] (map (repr_str u) (t2 :: r))).
    rewrite !lower_from_app.
    assert (Hsep : forall j, lower_from u W j [44%N; 32%N] = [44%N; 32%N]) by reflexivity.
    rewrite Hsep. rewrite (py_in_across_barrier (k0 :: k1 :: krest) _ _ _ barrier_separator).
    rewrite (repr_rule t W i Ht). cbn [existsb] in IH |- *. f_equal.
    apply IH. exact Hfree.
Qed.

(** The rule of the classifier on the text of the tag list is the rule
    on the tags. *)
Lemma str_tags_rule tags :
  tags_free_of bad tags = true ->
  py_in (k0 :: k1 :: krest) (lower u (str_tags u tags)) = some_tag_has u (k0 :: k1 :: krest) tags.
Proof.
  pose proof k0_letter as Hl0.
  destruct tags as [l|]; cbn [tags_free_of some_tag_has str_tags]; [|intros _; exact Hnone].
  intros Hfree. unfold lower. set (W := [91%N] ++ _).
  unfold W at 2. rewrite !lower_from_app.
  assert (H91 : forall j, lower_from u W j [91%N] = [91%N]) by reflexivity.
  assert (H93 : forall j, lower_from u W j [93%N] = [93%N]) by reflexivity.
  rewrite H91, H93.
  rewrite py_in_barrier_l
    by (apply barrier_without_k0; [lia | intros [H|[]]; lia]).
  rewrite py_in_barrier_r
    by (apply barrier_without_k0; [lia | intros [H|[]]; lia]).
  now apply join_rule.
Qed.

End TagRule.

(** ** The two tag rules *)

Section TagRules.

Import Unicode Classifier_unicode.

Variable u : database.
Hypothesis Hu : unprintable_uncased u.

Lemma hex_digit_mod c :
  (hex_digit (c mod 16) <= 102)%N /\
  (hex_digit (c mod 16) = 98%N -> (c mod 16 = 11)%N).
Proof.
  assert (Hlt : (c mod 16 < 16)%N) by (apply N.mod_lt; discriminate).
  destruct (hex_digit_cases (c mod 16) Hlt) as [[H1 H2]|[H1 [H2 H3]]]; split; lia.
Qed.

(** The rule for "legal" is the rule on the tags, whatever the tags. *)
Lemma legal_in_tags tags :
  py_in (of_string "legal") (lower u (str_tags u tags))
  = some_tag_has u (of_string "legal") tags.
Proof.
  apply (str_tags_rule u (fun _ => false) 108%N 101%N [103; 97; 108]%N).
  - repeat (constructor; [lia|]). constructor.
  - repeat split; discriminate.
  - lia.
  - reflexivity.
  - intros c _ _ H. pose proof (proj1 (hex_digit_mod c)). lia.
  - exact Hu.
  - destruct tags as [l|]; [|reflexivity]. cbn [tags_free_of negb].
    induction l as [|t l IH]; [reflexivity|]. cbn [forallb]. rewrite IH, andb_true_r.
    clear. induction t as [|c t IH]; [reflexivity|]. exact IH.
Qed.

(** The rule for "billing" is the rule on the tags when no tag holds a
    character whose escape ends in b. *)
Lemma billing_in_tags tags :
  tags_free_of (escape_ends_in_b u) tags = true ->
  py_in (of_string "billing") (lower u (str_tags u tags))
  = some_tag_has u (of_string "billing") tags.
Proof.
  apply (str_tags_rule u (escape_ends_in_b u) 98%N 105%N [108; 108; 105; 110; 103]%N).
  - repeat (constructor; [lia|]). constructor.
  - repeat split; discriminate.
  - lia.
  - reflexivity.
  - intros c Hb Hp H. unfold escape_ends_in_b in Hb. rewrite Hp in Hb. cbn [negb andb] in Hb.
    apply N.eqb_neq in Hb. apply Hb. now apply hex_digit_mod.
  - exact Hu.
Qed.

End TagRules.

(** ** The classifier on texts over all of Unicode *)

Section Latin1Texts.

Import Unicode Classifier_unicode.

Lemma of_string_app (a b : string) : of_string (a +:+ b) = of_string a ++ of_string b.
Proof. induction a as [|c a IH]; [reflexivity|]. cbn. now rewrite <- IH. Qed.

Lemma code_eqb (a b : ascii) : N.eqb (N_of_ascii a) (N_of_ascii b) = PyStr.eqc a b.
Proof.
  unfold PyStr.eqc. destruct (Ascii.eqb_spec a b) as [->|Hne].
  - apply N.eqb_refl.
  - apply N.eqb_neq. intros E. apply Hne.
    now rewrite <- (ascii_N_embedding a), <- (ascii_N_embedding b), E.
Qed.

Lemma starts_with_of_string (p s : string) :
  starts_with (of_string p) (of_string s) = PyStr.starts_with p s.
Proof.
  revert s. induction p as [|a p IH]; intros [|b s]; try reflexivity.
  cbn. now rewrite code_eqb, IH.
Qed.

Lemma py_in_of_string (p s : string) :
  py_in (of_string p) (of_string s) = PyStr.py_in p s.
Proof.
  induction s as [|b s IH].
  - cbn. now rewrite <- (starts_with_of_string p "").
  - cbn [of_string py_in PyStr.py_in]. rewrite <- IH.
    now rewrite <- (starts_with_of_string p (String b s)).
Qed.

Lemma has_char_of_string (c : ascii) (s : string) :
  has_char (N_of_ascii c) (of_string s) = PyStr.has_char c s.
Proof.
  induction s as [|d s IH]; [reflexivity|].
  cbn. now rewrite code_eqb, <- IH.
Qed.

Lemma lower_char_of_ascii (c : ascii) :
  (N_of_ascii c =? 931)%N = false /\
  lower_char sample (N_of_ascii c) = [N_of_ascii (PyChar.lower c)].
Proof. destruct c as [[] [] [] [] [] [] [] []]; vm_compute; split; reflexivity. Qed.

Lemma lower_from_of_string (whole : text) (i : nat) (s : string) :
  lower_from sample whole i (of_string s) = of_string (PyStr.lower s).
Proof.
  revert i. induction s as [|c s IH]; intros i; [reflexivity|].
  cbn [of_string lower_from PyStr.lower PyStr.map_chars].
  destruct (lower_char_of_ascii c) as [-> ->]. cbn [app]. f_equal. apply IH.
Qed.

Lemma lower_of_string (s : string) : lower sample (of_string s) = of_string (PyStr.lower s).
Proof. apply lower_from_of_string. Qed.

Lemma escape_of_ascii (q c : ascii) :
  q = PyChar.squote \/ q = PyChar.dquote ->
  escape sample (N_of_ascii q) (N_of_ascii c) = of_string (PyRepr.escape q c).
Proof.
  intros [-> | ->]; destruct c as [[] [] [] [] [] [] [] []]; vm_compute; reflexivity.
Qed.

Lemma quote_of_of_string (s : string) :
  quote_of (of_string s) = N_of_ascii (PyRepr.quote_of s) /\
  (PyRepr.quote_of s = PyChar.squote \/ PyRepr.quote_of s = PyChar.dquote).
Proof.
  unfold quote_of, PyRepr.quote_of.
  change 39%N with (N_of_ascii PyChar.squote). change 34%N with (N_of_ascii PyChar.dquote).
  rewrite !has_char_of_string.
  destruct (PyStr.has_char PyChar.squote s && negb (PyStr.has_char PyChar.dquote s));
    split; auto.
Qed.

Lemma repr_str_of_string (s : string) :
  repr_str sample (of_string s) = of_string (PyRepr.repr_str s).
Proof.
  unfold repr_str, PyRepr.repr_str. cbv zeta.
  destruct (quote_of_of_string s) as [-> Hq].
  generalize dependent (PyRepr.quote_of s). intros q Hq.
  cbn [of_string]. f_equal. rewrite of_string_app. cbn [of_string]. f_equal.
  induction s as [|c s IH]; [reflexivity|].
  cbn [of_string flat_map PyRepr.escape_all]. rewrite of_string_app, <- IH.
  now rewrite (escape_of_ascii q c Hq).
Qed.

Lemma join_of_string (sep : string) (l : list string) :
  join (of_string sep) (map of_string l) = of_string (PyStr.join sep l).
Proof.
  induction l as [|a l IH]; [reflexivity|].
  destruct l as [|b l]; [reflexivity|].
  cbn [map join PyStr.join] in *. now rewrite !of_string_app, <- IH.
Qed.

Lemma str_tags_of_string (tags : option (list string)) :
  str_tags sample (option_map (map of_string) tags) = of_string (PyRepr.str_tags tags).
Proof.
  destruct tags as [l|]; [|reflexivity].
  cbn [option_map str_tags PyRepr.str_tags PyRepr.str PyRepr.repr].
  rewrite !of_string_app. change (of_string "[") with [91%N].
  change (of_string "]") with [93%N]. do 2 f_equal.
  rewrite <- join_of_string. change (of_string ", ") with [44%N; 32%N]. f_equal.
  rewrite !map_map. apply map_ext. intros s. apply repr_str_of_string.
Qed.

(** On paths and tags of U+0000..U+00FF the classifier over Unicode is
    the classifier of the texts of that range. *)
Lemma agi_determined_type_of_string (file_path : string) (tags : option (list string)) :
  Main_py_unicode.agi_determined_type sample
    (of_string file_path) (option_map (map of_string) tags)
  = Main_py.agi_determined_type file_path tags.
Proof.
  unfold Main_py_unicode.agi_determined_type, Main_py.agi_determined_type.
  rewrite str_tags_of_string, !lower_of_string, !py_in_of_string.
  reflexivity.
Qed.

End Latin1Texts.

Section SampleDatabase.

Import Unicode Classifier_unicode.

Lemma sample_unprintable_uncased : unprintable_uncased sample.
Proof.
  intros c Hc Hp. unfold sample in *. cbn [isprintable lower_full] in *.
  destruct ((192 <=? c) && (c <=? 222) && negb (c =? 215))%N eqn:E; [|reflexivity].
  exfalso. apply andb_true_iff in E as [E _]. apply andb_true_iff in E as [E1 E2].
  apply N.leb_le in E1, E2. apply negb_false_iff in Hp.
  repeat (apply orb_true_iff in Hp as [Hp|Hp]).
  - apply N.leb_le in Hp. lia.
  - apply N.eqb_eq in Hp. lia.
  - apply N.eqb_eq in Hp. lia.
  - apply andb_true_iff in Hp as [Hp _]. apply N.leb_le in Hp. lia.
Qed.

End SampleDatabase.

(** C4, as amended, on texts over all of Unicode and for every Unicode
    database in which the characters that are not printable have no
    lowercase mapping.  Whatever the tags, the classifier of Main.py is
    the first-match-wins cascade whose tag rules read the text
    [str(tags).lower()] of the whole tag list, and its rule for "legal" is
    the rule "some tag, lowercased, contains the word".  On every tag list
    in which no tag holds a character that is not printable and whose
    code point ends in the hexadecimal digit B (as U+000B, U+001B, U+008B,
    U+009B, U+200B: their escapes end in the letter b), the rule for
    "billing" is that rule on the tags too, and the classifier is the
    ordered rule list of the specification. *)
Theorem agi_determined_type_rules (u : database) (file_path : Unicode.text)
    (tags : option (list Unicode.text)) :
  Classifier_unicode.unprintable_uncased u ->
  (let p := Unicode.lower u file_path in
   Main_py_unicode.agi_determined_type u file_path tags =
   if Unicode.py_in (Unicode.of_string "contract") p
      || Unicode.py_in (Unicode.of_string "agreement") p
      || Classifier_unicode.some_tag_has u (Unicode.of_string "legal") tags
   then "contract"
   else if Unicode.py_in (Unicode.of_string "invoice") p
           || Unicode.py_in (Unicode.of_string "billing")
                (Unicode.lower u (Unicode.str_tags u tags))
   then "invoice"
   else if Unicode.py_in (Unicode.of_string "research") p
           || Unicode.py_in (Unicode.of_string "paper") p
   then "research_paper"
   else "unknown") /\
  (Classifier_unicode.tags_free_of (Classifier_unicode.escape_ends_in_b u) tags = true ->
   Unicode.py_in (Unicode.of_string "billing") (Unicode.lower u (Unicode.str_tags u tags))
     = Classifier_unicode.some_tag_has u (Unicode.of_string "billing") tags /\
   Main_py_unicode.agi_determined_type u file_path tags
     = Classifier_unicode.classify u file_path tags).
Proof.
  intros Hu. split.
  - cbv zeta. unfold Main_py_unicode.agi_determined_type.
    now rewrite (legal_in_tags u Hu).
  - intros H. split; [exact (billing_in_tags u Hu tags H)|].
    unfold Main_py_unicode.agi_determined_type, Classifier_unicode.classify. cbv zeta.
    now rewrite (legal_in_tags u Hu), (billing_in_tags u Hu tags H).
Qed.

Lemma agi_determined_type_rules_witness :
  let path := Unicode.of_string "/tmp/agi_staging/7_scan.pdf" in
  let tags := Some [Unicode.of_string "Q3";
                    Unicode.of_string "Billing-" ++ [8364%N; 85%N]] in
  Classifier_unicode.unprintable_uncased Classifier_unicode.sample /\
  Classifier_unicode.tags_free_of
    (Classifier_unicode.escape_ends_in_b Classifier_unicode.sample) tags = true /\
  Main_py_unicode.agi_determined_type Classifier_unicode.sample path tags = "invoice" /\
  Classifier_unicode.classify Classifier_unicode.sample path tags = "invoice".
Proof.
  intros path tags.
  split; [exact sample_unprintable_uncased|]. split; [reflexivity|].
  split; [reflexivity|].
  rewrite <- (proj2 (proj2 (agi_determined_type_rules Classifier_unicode.sample path tags
                              sample_unprintable_uncased) eq_refl)).
  reflexivity.
Defined.

(** C4 as stated fails on a tag that holds a vertical tab, or a zero
    width space, followed by "illing": no tag contains "billing" and the
    path has no keyword, so the rule list says [unknown]; [str(tags)]
    writes the character as [\x0b], or [\u200b], and the classifier
    answers [invoice]. *)
Lemma agi_determined_type_counterexample :
  let u := Classifier_unicode.sample in
  let path := Unicode.of_string "notes.txt" in
  let tab := Some [11%N :: Unicode.of_string "illing"] in
  let space := Some [8203%N :: Unicode.of_string "illing"] in
  (Classifier_unicode.some_tag_has u (Unicode.of_string "billing") tab = false /\
   Classifier_unicode.classify u path tab = "unknown" /\
   Unicode.str_tags u tab = Unicode.of_string "['\x0billing']" /\
   Main_py_unicode.agi_determined_type u path tab = "invoice") /\
  (Classifier_unicode.some_tag_has u (Unicode.of_string "billing") space = false /\
   Classifier_unicode.classify u path space = "unknown" /\
   Unicode.str_tags u space = Unicode.of_string "['\u200billing']" /\
   Main_py_unicode.agi_determined_type u path space = "invoice").
Proof. vm_compute. repeat split. Qed.
